(** * CY Systems backend: access control and sequence allocation

    A shallow embedding of [middleware/auth.js] (token verification, role
    authorisation, per-resource access), of the sequence allocators of
    [routes/equipment.js] and [routes/invoices.js], of the user update route
    of [routes/users.js] and of the point-of-sale route, followed by the
    properties established about them.

    The persistence layer, the JWT library, the wall clock and the request
    validator are collaborators of the code: they appear as tables of rows,
    as fields of an [environment] record and as fields of the request. *)

From Stdlib Require Import ZArith NArith List Bool Ascii String Lia.
Import ListNotations.

Open Scope string_scope.
Open Scope Z_scope.

(* ================================================================== *)
(** * JavaScript primitives used by the code *)
(* ================================================================== *)

Module JS.

(** ** Characters *)

Definition code (c : ascii) : Z := Z.of_N (N_of_ascii c).

Definition is_digit (c : ascii) : bool := (48 <=? code c) && (code c <=? 57).

Definition digit_val (c : ascii) : Z := code c - 48.

Definition digit_char (d : Z) : ascii := ascii_of_N (Z.to_N (48 + d)).

(** ECMAScript white space, restricted to the one-byte code points. *)
Definition is_space (c : ascii) : bool :=
  let n := code c in
  (n =? 9) || (n =? 10) || (n =? 11) || (n =? 12) || (n =? 13) || (n =? 32).

(** Value of a character as a digit of the given radix (10 or 16). *)
Definition digit_in (radix : Z) (c : ascii) : option Z :=
  let n := code c in
  if (48 <=? n) && (n <=? 57) then Some (n - 48)
  else if (radix =? 16) && (97 <=? n) && (n <=? 102) then Some (n - 87)
  else if (radix =? 16) && (65 <=? n) && (n <=? 70) then Some (n - 55)
  else None.

(** ** [String(n)] for an integer [n] *)

Fixpoint digits_acc (fuel : nat) (n : Z) (acc : string) : string :=
  match fuel with
  | O => acc
  | S f =>
      let acc' := String (digit_char (n mod 10)) acc in
      if n / 10 =? 0 then acc' else digits_acc f (n / 10) acc'
  end.

(** Decimal numeral of a non-negative integer; the fuel is the number of
    binary digits, which bounds the number of decimal ones. *)
Definition digits (n : Z) : string :=
  digits_acc (S (Z.to_nat (Z.log2 n))) n "".

(** Integers print this way up to 10^21, beyond which the code's numbers
    print with an exponent. *)
Definition string_of_Z (n : Z) : string :=
  if n <? 0 then String "-" (digits (- n)) else digits n.

(** ** [String.prototype.padStart] *)

Fixpoint string_drop (n : nat) (s : string) : string :=
  match n, s with
  | O, _ => s
  | S _, EmptyString => EmptyString
  | S k, String _ r => string_drop k r
  end.

(** [n] characters taken cyclically from [pad], the rest of the current
    copy being [cur]. *)
Fixpoint cycle_fill (n : nat) (pad cur : string) : string :=
  match n with
  | O => EmptyString
  | S k =>
      match cur with
      | String c r => String c (cycle_fill k pad r)
      | EmptyString =>
          match pad with
          | String c r => String c (cycle_fill k pad r)
          | EmptyString => EmptyString
          end
      end
  end.

Definition padStart (target : nat) (pad s : string) : string :=
  if (target <=? String.length s)%nat then s
  else cycle_fill (target - String.length s) pad pad ++ s.

(** ** [parseInt] with no radix argument

    [None] stands for [NaN].  The result is the mathematical integer; the
    code's numbers are doubles, which agree with it below 2^53. *)

Fixpoint trim_start (s : string) : string :=
  match s with
  | String c r => if is_space c then trim_start r else s
  | EmptyString => EmptyString
  end.

Fixpoint parse_radix (radix : Z) (acc : option Z) (s : string) : option Z :=
  match s with
  | String c r =>
      match digit_in radix c with
      | Some d =>
          parse_radix radix
            (Some (radix * match acc with Some a => a | None => 0 end + d)) r
      | None => acc
      end
  | EmptyString => acc
  end.

Definition is_x (c : ascii) : bool := (code c =? 120) || (code c =? 88).

Definition parseInt (s : string) : option Z :=
  let s1 := trim_start s in
  let '(neg, s2) :=
    match s1 with
    | String "-" r => (true, r)
    | String "+" r => (false, r)
    | _ => (false, s1)
    end in
  let '(radix, s3) :=
    match s2 with
    | String "0" (String x r) => if is_x x then (16, r) else (10, s2)
    | _ => (10, s2)
    end in
  match parse_radix radix None s3 with
  | Some n => Some (if neg then - n else n)
  | None => None
  end.

(** [parseInt(undefined)] reads the text "undefined", which is [NaN]. *)
Definition parseInt_opt (o : option string) : option Z :=
  match o with
  | Some s => parseInt s
  | None => None
  end.

(** [x || 0] on a number: [NaN] and [0] are falsy. *)
Definition or_zero (o : option Z) : Z :=
  match o with
  | Some n => n
  | None => 0
  end.

(** ** [String.prototype.split] with a one-character separator *)

Fixpoint split_acc (sep : ascii) (cur : string) (s : string) : list string :=
  match s with
  | EmptyString => [cur]
  | String c r =>
      if Ascii.eqb c sep then cur :: split_acc sep EmptyString r
      else split_acc sep (cur ++ String c EmptyString) r
  end.

Definition split (sep : ascii) (s : string) : list string :=
  split_acc sep EmptyString s.

(** ** [String.prototype.replace] with a string pattern: first occurrence *)

Fixpoint replace (pat rep s : string) : string :=
  if String.prefix pat s then rep ++ string_drop (String.length pat) s
  else
    match s with
    | EmptyString => EmptyString
    | String c r => String c (replace pat rep r)
    end.

(** Truthiness of a string and of a number. *)
Definition truthy_string (s : string) : bool :=
  negb (String.eqb s EmptyString).

Definition truthy_Z (n : Z) : bool := negb (n =? 0).

End JS.

(* ================================================================== *)
(** * The persistence layer *)
(* ================================================================== *)

Module Db.

(** ** Rows: the columns the modelled statements read or write *)

Record user_row := {
  u_id : Z;
  u_email : string;
  u_first_name : string;
  u_last_name : string;
  u_role : string;
  u_department : option string;
  u_position : option string;
  u_phone : option string;
  u_address : option string;
  u_salary : option string;
  u_is_active : bool
}.

Record project_row := { p_id : Z; p_manager_id : option Z }.

Record task_row := { t_project_id : Z; t_assigned_to : option Z }.

Record client_row := { c_id : Z }.

Record invoice_row := {
  i_id : Z;
  i_invoice_number : string;
  i_created_by : option Z
}.

Record product_row := {
  pr_id : Z;
  pr_product_code : string;
  pr_current_stock : Z
}.

Record lot_row := { l_lot_number : string }.

Record sale_row := {
  s_id : Z;
  s_sale_number : string;
  s_customer_name : option string;
  s_customer_email : option string;
  s_customer_phone : option string;
  s_subtotal : Z;
  s_tax_rate : Z;
  s_tax_amount : Z;
  s_discount_amount : Z;
  s_total_amount : Z;
  s_payment_method : string;
  s_payment_reference : option string;
  s_notes : option string;
  s_created_by : Z
}.

Record sale_item_row := {
  si_sale_id : Z;
  si_product_id : Z;
  si_quantity : Z;
  si_unit_price : Z;
  si_discount_percent : Z;
  si_discount_amount : Z;
  si_total_price : Z
}.

Record movement_row := {
  m_product_id : Z;
  m_movement_type : string;
  m_quantity : Z;
  m_unit_cost : Z;
  m_total_cost : Z;
  m_reference_type : string;
  m_reference_id : Z;
  m_created_by : Z
}.

(** The store.  [online = false] makes every statement throw;
    [sales_auto_increment] is the next [insertId] of the sales table. *)
Record database := {
  online : bool;
  users : list user_row;
  projects : list project_row;
  project_tasks : list task_row;
  clients : list client_row;
  invoices : list invoice_row;
  products : list product_row;
  purchase_lots : list lot_row;
  sales : list sale_row;
  sales_auto_increment : Z;
  sale_items : list sale_item_row;
  stock_movements : list movement_row
}.

(** ** Functional updates of one table *)

Definition with_users (us : list user_row) (d : database) : database :=
  {| online := online d; users := us; projects := projects d;
     project_tasks := project_tasks d; clients := clients d;
     invoices := invoices d; products := products d;
     purchase_lots := purchase_lots d; sales := sales d;
     sales_auto_increment := sales_auto_increment d;
     sale_items := sale_items d; stock_movements := stock_movements d |}.

Definition with_invoices (l : list invoice_row) (d : database) : database :=
  {| online := online d; users := users d; projects := projects d;
     project_tasks := project_tasks d; clients := clients d;
     invoices := l; products := products d;
     purchase_lots := purchase_lots d; sales := sales d;
     sales_auto_increment := sales_auto_increment d;
     sale_items := sale_items d; stock_movements := stock_movements d |}.

Definition with_products (l : list product_row) (d : database) : database :=
  {| online := online d; users := users d; projects := projects d;
     project_tasks := project_tasks d; clients := clients d;
     invoices := invoices d; products := l;
     purchase_lots := purchase_lots d; sales := sales d;
     sales_auto_increment := sales_auto_increment d;
     sale_items := sale_items d; stock_movements := stock_movements d |}.

Definition with_purchase_lots (l : list lot_row) (d : database) : database :=
  {| online := online d; users := users d; projects := projects d;
     project_tasks := project_tasks d; clients := clients d;
     invoices := invoices d; products := products d;
     purchase_lots := l; sales := sales d;
     sales_auto_increment := sales_auto_increment d;
     sale_items := sale_items d; stock_movements := stock_movements d |}.

Definition with_sales (l : list sale_row) (next : Z) (d : database)
  : database :=
  {| online := online d; users := users d; projects := projects d;
     project_tasks := project_tasks d; clients := clients d;
     invoices := invoices d; products := products d;
     purchase_lots := purchase_lots d; sales := l;
     sales_auto_increment := next;
     sale_items := sale_items d; stock_movements := stock_movements d |}.

Definition with_sale_items (l : list sale_item_row) (d : database)
  : database :=
  {| online := online d; users := users d; projects := projects d;
     project_tasks := project_tasks d; clients := clients d;
     invoices := invoices d; products := products d;
     purchase_lots := purchase_lots d; sales := sales d;
     sales_auto_increment := sales_auto_increment d;
     sale_items := l; stock_movements := stock_movements d |}.

Definition with_stock_movements (l : list movement_row) (d : database)
  : database :=
  {| online := online d; users := users d; projects := projects d;
     project_tasks := project_tasks d; clients := clients d;
     invoices := invoices d; products := products d;
     purchase_lots := purchase_lots d; sales := sales d;
     sales_auto_increment := sales_auto_increment d;
     sale_items := sale_items d; stock_movements := l |}.

Definition empty : database :=
  {| online := true; users := []; projects := []; project_tasks := [];
     clients := []; invoices := []; products := []; purchase_lots := [];
     sales := []; sales_auto_increment := 1; sale_items := [];
     stock_movements := [] |}.

(** ** Statements may throw: a state and exception monad *)

Inductive result (A : Type) : Type :=
| Ok (a : A)
| Thrown.

Arguments Ok {A} a.
Arguments Thrown {A}.

Definition io (A : Type) : Type := database -> database * result A.

Definition ret {A} (a : A) : io A := fun d => (d, Ok a).

Definition bind {A B} (m : io A) (k : A -> io B) : io B :=
  fun d =>
    match m d with
    | (d', Ok a) => k a d'
    | (d', Thrown) => (d', Thrown)
    end.

(** [try { m } catch (error) { h }] *)
Definition try_catch {A} (m : io A) (h : io A) : io A :=
  fun d =>
    match m d with
    | (d', Ok a) => (d', Ok a)
    | (d', Thrown) => h d'
    end.

(** A reading statement. *)
Definition select {A} (q : database -> list A) : io (list A) :=
  fun d => if online d then (d, Ok (q d)) else (d, Thrown).

(** A writing statement. *)
Definition execute (w : database -> database) : io unit :=
  fun d => if online d then (w d, Ok tt) else (d, Thrown).

(** ** SQL [LIKE]: [%] any run, [_] any character, a backslash takes the
    next pattern character literally; characters compared by code *)

Fixpoint like (pat : string) (s : string) {struct pat} : bool :=
  match pat with
  | EmptyString =>
      match s with EmptyString => true | String _ _ => false end
  | String p pat' =>
      if Ascii.eqb p "%" then
        (fix star (t : string) : bool :=
           like pat' t
           || match t with
              | EmptyString => false
              | String _ t' => star t'
              end) s
      else if Ascii.eqb p "_" then
        match s with EmptyString => false | String _ s' => like pat' s' end
      else if Ascii.eqb p "\" then
        match pat', s with
        | String q pat'', String c s' => Ascii.eqb q c && like pat'' s'
        | EmptyString, String c EmptyString => Ascii.eqb p c
        | _, _ => false
        end
      else
        match s with
        | EmptyString => false
        | String c s' => Ascii.eqb p c && like pat' s'
        end
  end.

(** [ORDER BY col DESC LIMIT 1] over text values compared by code. *)
Fixpoint greatest (l : list string) : option string :=
  match l with
  | [] => None
  | s :: r =>
      match greatest r with
      | None => Some s
      | Some m => if String.ltb m s then Some s else Some m
      end
  end.

(** [SELECT col FROM t WHERE col LIKE ? ORDER BY col DESC LIMIT 1] *)
Definition last_like (pat : string) (col : list string) : list string :=
  match greatest (filter (like pat) col) with
  | Some s => [s]
  | None => []
  end.

End Db.

Notation "x <- m ;; k" := (Db.bind m (fun x => k))
  (at level 61, m at next level, right associativity).

(* ================================================================== *)
(** * Requests, responses and the collaborators of the code *)
(* ================================================================== *)

Module Http.

Import Db.

(** What the code obtains from outside itself. *)
Record environment := {
  (** [jwt.verify(token, process.env.JWT_SECRET)]: [None] when it throws
      (bad signature, expired, malformed), else [decoded.userId]. *)
  jwt_verify : string -> option Z;
  (** The engine's comparison [col = ?] of an integer column with a text
      parameter taken from the route path. *)
  sql_int_eq : Z -> string -> bool;
  (** [new Date().getFullYear()] *)
  current_year : Z;
  (** [Date.now()] *)
  date_now : Z
}.

(** [req.user]: the row of [SELECT id, email, role, is_active FROM users]. *)
Record identity := {
  id : Z;
  email : string;
  role : string;
  is_active : bool
}.

Definition identity_of (u : user_row) : identity :=
  {| id := u_id u; email := u_email u; role := u_role u;
     is_active := u_is_active u |}.

Record request := {
  authorization : option string;   (* req.headers['authorization'] *)
  params_id : string;              (* req.params.id *)
  user : option identity           (* req.user *)
}.

Definition set_user (i : identity) (r : request) : request :=
  {| authorization := authorization r; params_id := params_id r;
     user := Some i |}.

Inductive body : Type :=
| ErrorBody (error : string)
| ErrorsBody (errors : list string)
| MessageBody (message : string)
| InvoiceNumberBody (invoice_number : string)
| SaleBody (message : string) (saleId : Z) (saleNumber : string).

Record response := { status : Z; json : body }.

(** What a middleware did: answered, or called [next()]. *)
Inductive outcome : Type :=
| Responded (r : response)
| Next.

Definition respond (st : Z) (b : body) : outcome :=
  Responded {| status := st; json := b |}.

End Http.

(* ================================================================== *)
(** * middleware/auth.js *)
(* ================================================================== *)

Module Auth.

Import Db Http.

(** [authHeader && authHeader.split(' ')[1]], kept with its falsy cases:
    [None] is [undefined], and an empty header stays the empty string. *)
Definition token_of (authHeader : option string) : option string :=
  match authHeader with
  | None => None
  | Some h =>
      if JS.truthy_string h then nth_error (JS.split " " h) 1 else Some h
  end.

Definition falsy_token (t : option string) : bool :=
  match t with
  | None => true
  | Some s => negb (JS.truthy_string s)
  end.

Definition users_by_id (uid : Z) (d : database) : list identity :=
  map identity_of (filter (fun u => u_id u =? uid) (users d)).

Definition authenticateToken (env : environment) (req : request)
  : io (request * outcome) :=
  let token := token_of (authorization req) in
  if falsy_token token then
    ret (req, respond 401 (ErrorBody "Token d'accès requis"))
  else
    try_catch
      (decoded <- (fun d =>
                     match jwt_verify env
                             (match token with Some t => t | None => "" end)
                     with
                     | Some uid => (d, Ok uid)
                     | None => (d, Thrown)
                     end) ;;
       us <- select (users_by_id decoded) ;;
       match us with
       | [] =>
           ret (req, respond 401 (ErrorBody "Utilisateur invalide ou inactif"))
       | u :: _ =>
           if negb (is_active u) then
             ret (req,
                  respond 401 (ErrorBody "Utilisateur invalide ou inactif"))
           else ret (set_user u req, Next)
       end)
      (ret (req, respond 403 (ErrorBody "Token invalide"))).

(** [authorize(...roles)] *)
Definition authorize (roles : list string) (req : request) : outcome :=
  match user req with
  | None => respond 401 (ErrorBody "Authentification requise")
  | Some u =>
      if negb (existsb (String.eqb (role u)) roles) then
        respond 403 (ErrorBody "Permissions insuffisantes")
      else Next
  end.

(** The three statements of [checkResourceAccess]. *)
Definition accessible_projects (env : environment) (resourceId : string)
    (userId : Z) (d : database) : list Z :=
  map p_id
    (filter
       (fun p =>
          sql_int_eq env (p_id p) resourceId
          && (match p_manager_id p with
              | Some m => m =? userId
              | None => false
              end
              || existsb
                   (fun t =>
                      (t_project_id t =? p_id p)
                      && match t_assigned_to t with
                         | Some a => a =? userId
                         | None => false
                         end)
                   (project_tasks d)))
       (projects d)).

Definition existing_clients (env : environment) (resourceId : string)
    (d : database) : list Z :=
  map c_id (filter (fun c => sql_int_eq env (c_id c) resourceId) (clients d)).

Definition created_invoices (env : environment) (resourceId : string)
    (userId : Z) (d : database) : list Z :=
  map i_id
    (filter
       (fun i =>
          sql_int_eq env (i_id i) resourceId
          && match i_created_by i with
             | Some c => c =? userId
             | None => false
             end)
       (invoices d)).

Definition nonempty {A} (l : list A) : bool :=
  match l with
  | [] => false
  | _ :: _ => true
  end.

(** [checkResourceAccess(resourceType)].  Reading [req.user.id] of a request
    without identity throws inside the [try]. *)
Definition checkResourceAccess (env : environment) (resourceType : string)
    (req : request) : io outcome :=
  try_catch
    (match user req with
     | None => fun d => (d, Thrown)
     | Some u =>
         let resourceId := params_id req in
         let userId := id u in
         let userRole := role u in
         if String.eqb userRole "admin" then ret Next
         else
           hasAccess <-
             (if String.eqb resourceType "project" then
                rows <- select (accessible_projects env resourceId userId) ;;
                ret (nonempty rows)
              else if String.eqb resourceType "client" then
                rows <- select (existing_clients env resourceId) ;;
                ret (nonempty rows)
              else if String.eqb resourceType "invoice" then
                rows <- select (created_invoices env resourceId userId) ;;
                ret (nonempty rows)
              else ret true) ;;
           if negb hasAccess then
             ret (respond 403 (ErrorBody "Accès non autorisé à cette ressource"))
           else ret Next
     end)
    (ret (respond 500 (ErrorBody "Erreur de vérification des permissions"))).

End Auth.

(* ================================================================== *)
(** * The sequence allocators *)
(* ================================================================== *)

Module Equipment.

Import Db Http.

Definition product_codes (d : database) : list string :=
  map pr_product_code (products d).

Definition lot_numbers (d : database) : list string :=
  map l_lot_number (purchase_lots d).

Definition sale_numbers (d : database) : list string :=
  map s_sale_number (sales d).

(** [categoryId ? `CAT${String(categoryId).padStart(3, '0')}` : 'PRD'],
    for a category id that is absent or an integer. *)
Definition product_prefix (categoryId : option Z) : string :=
  match categoryId with
  | Some c =>
      if JS.truthy_Z c then "CAT" ++ JS.padStart 3 "0" (JS.string_of_Z c)
      else "PRD"
  | None => "PRD"
  end.

Definition generateProductCode (env : environment) (categoryId : option Z)
  : io string :=
  try_catch
    (let prefix := product_prefix categoryId in
     lastProduct <-
       select (fun d => last_like (prefix ++ "%") (product_codes d)) ;;
     let nextNumber :=
       match lastProduct with
       | lastCode :: _ =>
           let lastNumber :=
             JS.or_zero (JS.parseInt (JS.replace prefix "" lastCode)) in
           lastNumber + 1
       | [] => 1
       end in
     ret (prefix ++ JS.padStart 6 "0" (JS.string_of_Z nextNumber)))
    (ret ("PRD" ++ JS.string_of_Z (date_now env))).

Definition generateLotNumber (env : environment) : io string :=
  try_catch
    (let year := current_year env in
     lastLot <-
       select (fun d =>
                 last_like ("LOT" ++ JS.string_of_Z year ++ "%")
                   (lot_numbers d)) ;;
     let nextNumber :=
       match lastLot with
       | lastCode :: _ =>
           let lastNumber :=
             JS.or_zero
               (JS.parseInt
                  (JS.replace ("LOT" ++ JS.string_of_Z year) "" lastCode)) in
           lastNumber + 1
       | [] => 1
       end in
     ret ("LOT" ++ JS.string_of_Z year
            ++ JS.padStart 4 "0" (JS.string_of_Z nextNumber)))
    (ret ("LOT" ++ JS.string_of_Z (date_now env))).

Definition generateSaleNumber (env : environment) : io string :=
  try_catch
    (let year := current_year env in
     lastSale <-
       select (fun d =>
                 last_like ("SALE" ++ JS.string_of_Z year ++ "%")
                   (sale_numbers d)) ;;
     let nextNumber :=
       match lastSale with
       | lastCode :: _ =>
           let lastNumber :=
             JS.or_zero
               (JS.parseInt
                  (JS.replace ("SALE" ++ JS.string_of_Z year) "" lastCode)) in
           lastNumber + 1
       | [] => 1
       end in
     ret ("SALE" ++ JS.string_of_Z year
            ++ JS.padStart 4 "0" (JS.string_of_Z nextNumber)))
    (ret ("SALE" ++ JS.string_of_Z (date_now env))).

End Equipment.

Module Invoices.

Import Db Http.

Definition invoice_numbers (d : database) : list string :=
  map i_invoice_number (invoices d).

(** The handler of [GET /generate-number]. *)
Definition generate_number (env : environment) : io response :=
  try_catch
    (let year := current_year env in
     let prefix := "INV-" ++ JS.string_of_Z year in
     lastInvoice <-
       select (fun d => last_like (prefix ++ "%") (invoice_numbers d)) ;;
     let nextNumber :=
       match lastInvoice with
       | invoice_number :: _ =>
           let lastNumber :=
             JS.or_zero
               (JS.parseInt_opt (nth_error (JS.split "-" invoice_number) 2)) in
           lastNumber + 1
       | [] => 1
       end in
     let invoiceNumber :=
       prefix ++ "-" ++ JS.padStart 4 "0" (JS.string_of_Z nextNumber) in
     ret {| status := 200; json := InvoiceNumberBody invoiceNumber |})
    (ret {| status := 500;
            json := ErrorBody
                      "Erreur lors de la génération du numéro de facture" |}).

(** ** The routes of the invoices router, in the order the file
    registers them

    A path is its list of segments; a route is tried after every route
    registered before it, and each handler below answers without calling
    [next()]. *)

Inductive method : Type := GET | POST | PUT | DELETE.

Inductive segment : Type :=
| Lit (text : string)
| Param (name : string).

Inductive handler : Type :=
| list_invoices
| get_invoice
| create_invoice
| update_invoice
| send_invoice
| mark_paid
| delete_invoice
| stats_overview
| generate_number_handler.

Definition routes : list (method * list segment * handler) :=
  [ (GET, [], list_invoices);
    (GET, [Param "id"], get_invoice);
    (POST, [], create_invoice);
    (PUT, [Param "id"], update_invoice);
    (POST, [Param "id"; Lit "send"], send_invoice);
    (POST, [Param "id"; Lit "mark-paid"], mark_paid);
    (DELETE, [Param "id"], delete_invoice);
    (GET, [Lit "stats"; Lit "overview"], stats_overview);
    (GET, [Lit "generate-number"], generate_number_handler) ].

Definition method_eqb (a b : method) : bool :=
  match a, b with
  | GET, GET | POST, POST | PUT, PUT | DELETE, DELETE => true
  | _, _ => false
  end.

(** A literal segment matches itself, a parameter any non-empty segment. *)
Fixpoint path_matches (pat : list segment) (path : list string) : bool :=
  match pat, path with
  | [], [] => true
  | Lit t :: pat', x :: path' => String.eqb t x && path_matches pat' path'
  | Param _ :: pat', x :: path' =>
      JS.truthy_string x && path_matches pat' path'
  | _, _ => false
  end.

(** The handler that answers a request to the router. *)
Definition dispatch (m : method) (path : list string) : option handler :=
  match find (fun r => method_eqb (fst (fst r)) m
                       && path_matches (snd (fst r)) path) routes with
  | Some r => Some (snd r)
  | None => None
  end.

End Invoices.

(* ================================================================== *)
(** * routes/users.js: [PUT /:id] *)
(* ================================================================== *)

Module Users.

Import Db Http.

(** [req.body], each field with the type of its column; [None] is
    [undefined]. *)
Record update_body := {
  firstName : option string;
  lastName : option string;
  email : option string;
  role : option string;
  department : option string;
  position : option string;
  phone : option string;
  address : option string;
  salary : option string;
  isActive : option bool
}.

(** One entry of [updateFields] with its value in [updateValues]. *)
Inductive assignment : Type :=
| set_first_name (v : string)
| set_last_name (v : string)
| set_email (v : string)
| set_role (v : string)
| set_department (v : string)
| set_position (v : string)
| set_phone (v : string)
| set_address (v : string)
| set_salary (v : string)
| set_is_active (v : bool).

Definition assign (a : assignment) (u : user_row) : user_row :=
  match a with
  | set_first_name v =>
      {| u_id := u_id u; u_email := u_email u; u_first_name := v;
         u_last_name := u_last_name u; u_role := u_role u;
         u_department := u_department u; u_position := u_position u;
         u_phone := u_phone u; u_address := u_address u;
         u_salary := u_salary u; u_is_active := u_is_active u |}
  | set_last_name v =>
      {| u_id := u_id u; u_email := u_email u;
         u_first_name := u_first_name u; u_last_name := v;
         u_role := u_role u; u_department := u_department u;
         u_position := u_position u; u_phone := u_phone u;
         u_address := u_address u; u_salary := u_salary u;
         u_is_active := u_is_active u |}
  | set_email v =>
      {| u_id := u_id u; u_email := v; u_first_name := u_first_name u;
         u_last_name := u_last_name u; u_role := u_role u;
         u_department := u_department u; u_position := u_position u;
         u_phone := u_phone u; u_address := u_address u;
         u_salary := u_salary u; u_is_active := u_is_active u |}
  | set_role v =>
      {| u_id := u_id u; u_email := u_email u;
         u_first_name := u_first_name u; u_last_name := u_last_name u;
         u_role := v; u_department := u_department u;
         u_position := u_position u; u_phone := u_phone u;
         u_address := u_address u; u_salary := u_salary u;
         u_is_active := u_is_active u |}
  | set_department v =>
      {| u_id := u_id u; u_email := u_email u;
         u_first_name := u_first_name u; u_last_name := u_last_name u;
         u_role := u_role u; u_department := Some v;
         u_position := u_position u; u_phone := u_phone u;
         u_address := u_address u; u_salary := u_salary u;
         u_is_active := u_is_active u |}
  | set_position v =>
      {| u_id := u_id u; u_email := u_email u;
         u_first_name := u_first_name u; u_last_name := u_last_name u;
         u_role := u_role u; u_department := u_department u;
         u_position := Some v; u_phone := u_phone u;
         u_address := u_address u; u_salary := u_salary u;
         u_is_active := u_is_active u |}
  | set_phone v =>
      {| u_id := u_id u; u_email := u_email u;
         u_first_name := u_first_name u; u_last_name := u_last_name u;
         u_role := u_role u; u_department := u_department u;
         u_position := u_position u; u_phone := Some v;
         u_address := u_address u; u_salary := u_salary u;
         u_is_active := u_is_active u |}
  | set_address v =>
      {| u_id := u_id u; u_email := u_email u;
         u_first_name := u_first_name u; u_last_name := u_last_name u;
         u_role := u_role u; u_department := u_department u;
         u_position := u_position u; u_phone := u_phone u;
         u_address := Some v; u_salary := u_salary u;
         u_is_active := u_is_active u |}
  | set_salary v =>
      {| u_id := u_id u; u_email := u_email u;
         u_first_name := u_first_name u; u_last_name := u_last_name u;
         u_role := u_role u; u_department := u_department u;
         u_position := u_position u; u_phone := u_phone u;
         u_address := u_address u; u_salary := Some v;
         u_is_active := u_is_active u |}
  | set_is_active v =>
      {| u_id := u_id u; u_email := u_email u;
         u_first_name := u_first_name u; u_last_name := u_last_name u;
         u_role := u_role u; u_department := u_department u;
         u_position := u_position u; u_phone := u_phone u;
         u_address := u_address u; u_salary := u_salary u;
         u_is_active := v |}
  end.

(** [if (field) { updateFields.push(...) }]: pushed when truthy. *)
Definition push_if_truthy (field : option string)
    (mk : string -> assignment) : list assignment :=
  match field with
  | Some v => if JS.truthy_string v then [mk v] else []
  | None => []
  end.

(** The pushes of the handler, in the order of the source. *)
Definition updateFields (b : update_body) (actor_role : string)
  : list assignment :=
  let admin := String.eqb actor_role "admin" in
  push_if_truthy (firstName b) set_first_name
  ++ push_if_truthy (lastName b) set_last_name
  ++ push_if_truthy (email b) set_email
  ++ (if admin then push_if_truthy (role b) set_role else [])
  ++ push_if_truthy (department b) set_department
  ++ push_if_truthy (position b) set_position
  ++ push_if_truthy (phone b) set_phone
  ++ push_if_truthy (address b) set_address
  ++ (match salary b with
      | Some v => if admin then [set_salary v] else []
      | None => []
      end)
  ++ (match isActive b with
      | Some v => if admin then [set_is_active v] else []
      | None => []
      end).

(** [UPDATE users SET ... WHERE id = ?] *)
Definition update_users (env : environment) (fields : list assignment)
    (idp : string) (d : database) : database :=
  with_users
    (map (fun u =>
            if sql_int_eq env (u_id u) idp
            then fold_left (fun r a => assign a r) fields u
            else u)
       (users d))
    d.

Definition is_nil {A} (l : list A) : bool :=
  match l with
  | [] => true
  | _ :: _ => false
  end.

(** [req.user.id !== parseInt(id)] *)
Definition differs_from_parsed (n : Z) (idp : string) : bool :=
  match JS.parseInt idp with
  | Some k => negb (n =? k)
  | None => true
  end.

(** The handler of [PUT /:id]; [errors] is [validationResult(req)]. *)
Definition put_user (env : environment) (errors : list string)
    (b : update_body) (req : request) : io response :=
  try_catch
    (if negb (is_nil errors) then
       ret {| status := 400; json := ErrorsBody errors |}
     else
       match user req with
       | None => fun d => (d, Thrown)
       | Some me =>
           let idp := params_id req in
           if negb (String.eqb (Http.role me) "admin")
              && differs_from_parsed (id me) idp
           then
             ret {| status := 403;
                    json := ErrorBody "Permissions insuffisantes" |}
           else
             existingUsers <-
               select (fun d =>
                         filter (fun u => sql_int_eq env (u_id u) idp)
                           (users d)) ;;
             if is_nil existingUsers then
               ret {| status := 404;
                      json := ErrorBody "Utilisateur non trouvé" |}
             else
               emailCheck <-
                 (match email b with
                  | Some e =>
                      if JS.truthy_string e then
                        select (fun d =>
                                  filter
                                    (fun u =>
                                       String.eqb (u_email u) e
                                       && negb (sql_int_eq env (u_id u) idp))
                                    (users d))
                      else ret []
                  | None => ret []
                  end) ;;
               if negb (is_nil emailCheck) then
                 ret {| status := 400;
                        json := ErrorBody "Cet email est déjà utilisé" |}
               else
                 let fields := updateFields b (Http.role me) in
                 if is_nil fields then
                   ret {| status := 400;
                          json := ErrorBody "Aucun champ à mettre à jour" |}
                 else
                   _ <- execute (update_users env fields idp) ;;
                   ret {| status := 200;
                          json := MessageBody
                                    "Utilisateur mis à jour avec succès" |}
       end)
    (ret {| status := 500;
            json := ErrorBody
                      "Erreur lors de la mise à jour de l'utilisateur" |}).

End Users.

(* ================================================================== *)
(** * The point of sale: [POST /sales] *)
(* ================================================================== *)

Module Sales.

Import Db Http.

Record item := {
  product_id : Z;
  quantity : Z;
  unit_price : Z;
  discount_percent : option Z;
  item_discount_amount : option Z;
  total_price : Z
}.

Record sale_body := {
  customer_name : option string;
  customer_email : option string;
  customer_phone : option string;
  items : list item;
  subtotal : Z;
  tax_rate : option Z;
  tax_amount : option Z;
  discount_amount : option Z;
  total_amount : Z;
  payment_method : string;
  payment_reference : option string;
  notes : option string
}.

(** [x || null] on a text field. *)
Definition or_null (o : option string) : option string :=
  match o with
  | Some s => if JS.truthy_string s then Some s else None
  | None => None
  end.

(** [INSERT INTO sales ...]; the result is [result.insertId]. *)
Definition insert_sale (row : Z -> sale_row) : io Z :=
  fun d =>
    if online d then
      let k := sales_auto_increment d in
      (with_sales (sales d ++ [row k]) (k + 1) d, Ok k)
    else (d, Thrown).

Definition insert_sale_item (r : sale_item_row) : io unit :=
  execute (fun d => with_sale_items (sale_items d ++ [r]) d).

(** [UPDATE products SET current_stock = current_stock - ? WHERE id = ?] *)
Definition decrement_stock (qty pid : Z) : io unit :=
  execute
    (fun d =>
       with_products
         (map (fun p =>
                 if pr_id p =? pid then
                   {| pr_id := pr_id p;
                      pr_product_code := pr_product_code p;
                      pr_current_stock := pr_current_stock p - qty |}
                 else p)
            (products d))
         d).

Definition insert_movement (r : movement_row) : io unit :=
  execute (fun d => with_stock_movements (stock_movements d ++ [r]) d).

(** [for (const item of items) { await ... }] *)
Fixpoint for_each {A} (l : list A) (f : A -> io unit) : io unit :=
  match l with
  | [] => ret tt
  | x :: r => _ <- f x ;; for_each r f
  end.

Definition movement_of (saleId userId : Z) (it : item) : movement_row :=
  {| m_product_id := product_id it; m_movement_type := "out";
     m_quantity := quantity it; m_unit_cost := unit_price it;
     m_total_cost := total_price it; m_reference_type := "sale";
     m_reference_id := saleId; m_created_by := userId |}.

Definition sale_item_of (saleId : Z) (it : item) : sale_item_row :=
  {| si_sale_id := saleId; si_product_id := product_id it;
     si_quantity := quantity it; si_unit_price := unit_price it;
     si_discount_percent := JS.or_zero (discount_percent it);
     si_discount_amount := JS.or_zero (item_discount_amount it);
     si_total_price := total_price it |}.

(** The handler of [POST /sales]; [errors] is [validationResult(req)]. *)
Definition post_sale (env : environment) (errors : list string)
    (b : sale_body) (req : request) : io response :=
  try_catch
    (if negb (Users.is_nil errors) then
       ret {| status := 400; json := ErrorsBody errors |}
     else
       saleNumber <- Equipment.generateSaleNumber env ;;
       match user req with
       | None => fun d => (d, Thrown)
       | Some me =>
           saleId <-
             insert_sale
               (fun k =>
                  {| s_id := k; s_sale_number := saleNumber;
                     s_customer_name := or_null (customer_name b);
                     s_customer_email := or_null (customer_email b);
                     s_customer_phone := or_null (customer_phone b);
                     s_subtotal := subtotal b;
                     s_tax_rate := JS.or_zero (tax_rate b);
                     s_tax_amount := JS.or_zero (tax_amount b);
                     s_discount_amount := JS.or_zero (discount_amount b);
                     s_total_amount := total_amount b;
                     s_payment_method := payment_method b;
                     s_payment_reference := or_null (payment_reference b);
                     s_notes := or_null (notes b);
                     s_created_by := id me |}) ;;
           _ <- for_each (items b)
                  (fun it =>
                     _ <- insert_sale_item (sale_item_of saleId it) ;;
                     _ <- decrement_stock (quantity it) (product_id it) ;;
                     insert_movement (movement_of saleId (id me) it)) ;;
           ret {| status := 201;
                  json := SaleBody "Vente enregistrée avec succès"
                            saleId saleNumber |}
       end)
    (ret {| status := 500;
            json := ErrorBody
                      "Erreur lors de l'enregistrement de la vente" |}).

End Sales.

(* ================================================================== *)
(** * The Sequence Allocator as one component *)
(* ================================================================== *)

Module Allocator.

Import Db Http.

Inductive entity_kind : Type :=
| InvoiceNumber
| ProductCode (categoryId : option Z)
| LotNumber
| SaleNumber.

(** The width handed to [padStart] by the allocator of each kind. *)
Definition width (k : entity_kind) : nat :=
  match k with
  | ProductCode _ => 6%nat
  | InvoiceNumber | LotNumber | SaleNumber => 4%nat
  end.

(** The text the padded number is written after. *)
Definition head (env : environment) (k : entity_kind) : string :=
  match k with
  | InvoiceNumber => "INV-" ++ JS.string_of_Z (current_year env) ++ "-"
  | ProductCode c => Equipment.product_prefix c
  | LotNumber => "LOT" ++ JS.string_of_Z (current_year env)
  | SaleNumber => "SALE" ++ JS.string_of_Z (current_year env)
  end.

(** The text before the [%] of the [LIKE] pattern. *)
Definition lookup_prefix (env : environment) (k : entity_kind) : string :=
  match k with
  | InvoiceNumber => "INV-" ++ JS.string_of_Z (current_year env)
  | _ => head env k
  end.

(** The column the allocator of each kind reads. *)
Definition identifiers (k : entity_kind) (d : database) : list string :=
  match k with
  | InvoiceNumber => Invoices.invoice_numbers d
  | ProductCode _ => Equipment.product_codes d
  | LotNumber => Equipment.lot_numbers d
  | SaleNumber => Equipment.sale_numbers d
  end.

(** One allocation call; [None] when the answer carries no identifier. *)
Definition allocate (env : environment) (k : entity_kind)
  : io (option string) :=
  match k with
  | InvoiceNumber =>
      r <- Invoices.generate_number env ;;
      ret (match json r with
           | InvoiceNumberBody s => Some s
           | _ => None
           end)
  | ProductCode c => s <- Equipment.generateProductCode env c ;; ret (Some s)
  | LotNumber => s <- Equipment.generateLotNumber env ;; ret (Some s)
  | SaleNumber => s <- Equipment.generateSaleNumber env ;; ret (Some s)
  end.

(** [n] calls one after the other, [persist] storing each returned
    identifier before the next call. *)
Fixpoint sequential_run (env : environment) (k : entity_kind)
    (persist : string -> database -> database) (n : nat) (d : database)
  : list string :=
  match n with
  | O => []
  | S m =>
      match allocate env k d with
      | (d', Ok (Some s)) =>
          s :: sequential_run env k persist m (persist s d')
      | _ => []
      end
  end.

(** [persist] adds the identifier to the column of the kind and nothing
    else to it, and leaves the store reachable. *)
Definition persists (k : entity_kind)
    (persist : string -> database -> database) : Prop :=
  forall s d,
    online (persist s d) = online d
    /\ forall x, In x (identifiers k (persist s d))
                 <-> x = s \/ In x (identifiers k d).

(** The identifier of number [j]. *)
Definition identifier (env : environment) (k : entity_kind) (j : Z)
  : string :=
  head env k ++ JS.padStart (width k) "0" (JS.string_of_Z j).

(** What follows the head in an identifier, and its number. *)
Definition suffix_text (env : environment) (k : entity_kind) (s : string)
  : string :=
  JS.string_drop (String.length (head env k)) s.

Definition suffix_number (env : environment) (k : entity_kind) (s : string)
  : option Z :=
  JS.parseInt (suffix_text env k s).

(** Each number is the previous one plus one. *)
Fixpoint consecutive (l : list (option Z)) : bool :=
  match l with
  | Some a :: ((Some b :: _) as r) => (b =? a + 1) && consecutive r
  | [Some _] => true
  | [] => true
  | _ => false
  end.

(** The store holds, under the lookup prefix of the kind, identifiers of
    numbers [1..m] only, and the one of [m] when [m] is positive. *)
Definition seeded (env : environment) (k : entity_kind) (m : Z)
    (d : database) : Prop :=
  0 <= m
  /\ (forall s, In s (identifiers k d) ->
                String.prefix (lookup_prefix env k) s = true ->
                exists j, 1 <= j <= m /\ s = identifier env k j)
  /\ (1 <= m -> In (identifier env k m) (identifiers k d)).

(** The numbers [a+1, ..., a+n]. *)
Fixpoint numbers_after (a : Z) (n : nat) : list Z :=
  match n with
  | O => []
  | S m => (a + 1) :: numbers_after (a + 1) m
  end.

(** Spec 4.4 in its own words: the greatest persisted identifier matching
    the prefix, its trailing number (0 when there is none or it does not
    parse) plus one, zero-padded to the width, after the prefix. *)
Definition spec_allocate (prefix : string) (w : nat)
    (persisted : list string) : string :=
  let found := greatest (filter (String.prefix prefix) persisted) in
  let last :=
    match found with
    | Some s =>
        JS.or_zero (JS.parseInt (JS.string_drop (String.length prefix) s))
    | None => 0
    end in
  prefix ++ JS.padStart w "0" (JS.string_of_Z (last + 1)).

(** No dash occurs in the text. *)
Fixpoint dashless (s : string) : bool :=
  match s with
  | EmptyString => true
  | String c r => negb (Ascii.eqb c "-") && dashless r
  end.

(** An invoice number made of the year's head and a dash-free rest. *)
Definition invoice_shaped (env : environment) (s : string) : Prop :=
  exists t, s = head env InvoiceNumber ++ t /\ dashless t = true.

(** Storing an identifier: a row carrying it, appended to its table. *)
Definition store_lot (s : string) (d : database) : database :=
  with_purchase_lots (purchase_lots d ++ [{| l_lot_number := s |}]) d.

Definition store_invoice (s : string) (d : database) : database :=
  with_invoices
    (invoices d
       ++ [{| i_id := Z.of_nat (List.length (invoices d)) + 1;
              i_invoice_number := s; i_created_by := None |}])
    d.

(** The claim on sequential allocation, as worded: whatever the store,
    [n] sequential calls return [n] identifiers whose numbers go up by
    one and whose suffixes have the width of the kind. *)
Definition sequential_claim : Prop :=
  forall env k persist n d,
    online d = true ->
    persists k persist ->
    let ids := sequential_run env k persist n d in
    List.length ids = n
    /\ consecutive (map (suffix_number env k) ids) = true
    /\ Forall (fun s => String.length (suffix_text env k s) = width k) ids.

End Allocator.

(* ================================================================== *)
(** * Vocabulary for reasoning about numerals and patterns *)
(* ================================================================== *)

Module Numeral.

Fixpoint all_digits (s : string) : bool :=
  match s with
  | EmptyString => true
  | String c r => JS.is_digit c && all_digits r
  end.

(** The number a string of digits denotes. *)
Fixpoint value (s : string) : Z :=
  match s with
  | EmptyString => 0
  | String c r => JS.digit_val c * 10 ^ Z.of_nat (String.length r) + value r
  end.

Fixpoint zeros (n : nat) : string :=
  match n with
  | O => EmptyString
  | S k => String "0" (zeros k)
  end.

(** The characters [LIKE] does not take literally. *)
Definition wildcard (c : ascii) : bool :=
  Ascii.eqb c "%" || Ascii.eqb c "_" || Ascii.eqb c "\".

Fixpoint no_wild (s : string) : bool :=
  match s with
  | EmptyString => true
  | String c r => negb (wildcard c) && no_wild r
  end.

End Numeral.

(* ================================================================== *)
(** * Vocabulary of the properties *)
(* ================================================================== *)

Module Props.

Import Db Http.

(** The status a middleware answered with, if it answered. *)
Definition answered_status (r : database * result (request * outcome))
  : option Z :=
  match r with
  | (_, Ok (_, Responded a)) => Some (status a)
  | _ => None
  end.

(** The claim on authentication failures, as worded: a request without a
    bearer token, and a request whose token fails verification, are both
    answered with 401. *)
Definition authentication_failure_claim : Prop :=
  forall env req d,
    (Auth.falsy_token (Auth.token_of (authorization req)) = true
     \/ exists t, Auth.token_of (authorization req) = Some t
                  /\ JS.truthy_string t = true
                  /\ jwt_verify env t = None) ->
    answered_status (Auth.authenticateToken env req d) = Some 401.

(** The claim on the client kind, as worded: every identity that is not
    an administrator is let through whatever the store holds. *)
Definition client_unconditional_claim : Prop :=
  forall env req u d,
    online d = true ->
    user req = Some u ->
    role u <> "admin" ->
    Auth.checkResourceAccess env "client" req d = (d, Ok Next).


(** The claim on degraded identifiers, as worded: when the lookup throws,
    every allocator still returns an identifier, a tag followed by the
    clock's milliseconds. *)
Definition degraded_identifier_claim : Prop :=
  forall env k d,
    online d = false ->
    exists tag,
      snd (Allocator.allocate env k d)
      = Ok (Some (tag ++ JS.string_of_Z (date_now env))).

(** ** The user update *)

(** The columns an ordinary user may not change. *)
Definition guarded (u : user_row) : string * option string * bool :=
  (u_role u, u_salary u, u_is_active u).

Definition supplied (o : option string) (v : string) : Prop :=
  o = Some v /\ JS.truthy_string v = true.

(** Every free field supplied with a non-empty value is in the row. *)
Definition applied (b : Users.update_body) (u : user_row) : Prop :=
  (forall v, supplied (Users.firstName b) v -> u_first_name u = v)
  /\ (forall v, supplied (Users.lastName b) v -> u_last_name u = v)
  /\ (forall v, supplied (Users.email b) v -> u_email u = v)
  /\ (forall v, supplied (Users.department b) v -> u_department u = Some v)
  /\ (forall v, supplied (Users.position b) v -> u_position u = Some v)
  /\ (forall v, supplied (Users.phone b) v -> u_phone u = Some v)
  /\ (forall v, supplied (Users.address b) v -> u_address u = Some v).

(** One of the free fields is supplied with a non-empty value. *)
Definition some_free_field (b : Users.update_body) : Prop :=
  exists v,
    supplied (Users.firstName b) v \/ supplied (Users.lastName b) v
    \/ supplied (Users.email b) v \/ supplied (Users.department b) v
    \/ supplied (Users.position b) v \/ supplied (Users.phone b) v
    \/ supplied (Users.address b) v.

(** The request of an identity that is not an administrator, on the
    record of that identity, which exists. *)
Definition own_record (env : environment) (req : request) (me : identity)
    (d : database) : Prop :=
  user req = Some me
  /\ role me <> "admin"
  /\ JS.parseInt (params_id req) = Some (id me)
  /\ (forall u, In u (users d) ->
                sql_int_eq env (u_id u) (params_id req) = (u_id u =? id me))
  /\ (exists u, In u (users d) /\ u_id u = id me).

(** What a successful self update leaves in the store. *)
Definition self_update_done (b : Users.update_body) (me : identity)
    (d : database) (r : database * result response) : Prop :=
  snd r = Ok {| status := 200;
                json := MessageBody "Utilisateur mis à jour avec succès" |}
  /\ map u_id (users (fst r)) = map u_id (users d)
  /\ map guarded (users (fst r)) = map guarded (users d)
  /\ (forall u, In u (users (fst r)) -> u_id u = id me -> applied b u)
  /\ (forall u, In u (users (fst r)) -> u_id u <> id me -> In u (users d)).

(** The claim on self updates, as worded: the guarded columns stay, every
    other supplied field is applied and the answer is 200 as soon as one
    such field is supplied. *)
Definition self_update_claim : Prop :=
  forall env b req me d,
    online d = true ->
    own_record env req me d ->
    some_free_field b ->
    self_update_done b me d (Users.put_user env [] b req d).

(** No other account holds the address the request supplies. *)
Definition email_free (b : Users.update_body) (me : identity)
    (d : database) : Prop :=
  forall e u,
    supplied (Users.email b) e ->
    In u (users d) -> u_id u <> id me -> u_email u <> e.

(** A computation that leaves the guarded columns of every row. *)
Definition keeps_guarded {A} (m : io A) : Prop :=
  forall d, map guarded (users (fst (m d))) = map guarded (users d).

(** One layer of the update: the pushes of one field, applied. *)
Definition layer (field : option string) (mk : string -> Users.assignment)
    (u : user_row) : user_row :=
  fold_left (fun r a => Users.assign a r) (Users.push_if_truthy field mk) u.

(** ** The sale *)

(** Units of product [pid] sold by the items. *)
Fixpoint sold_quantity (pid : Z) (l : list Sales.item) : Z :=
  match l with
  | [] => 0
  | it :: r =>
      (if Sales.product_id it =? pid then Sales.quantity it else 0)
      + sold_quantity pid r
  end.

Definition sold_out (l : list Sales.item) (p : product_row) : product_row :=
  {| pr_id := pr_id p; pr_product_code := pr_product_code p;
     pr_current_stock := pr_current_stock p - sold_quantity (pr_id p) l |}.

End Props.

(* ================================================================== *)
(** * Concrete stores and requests *)
(* ================================================================== *)

Module Samples.

Import Db Http.

(** An engine that reads a text parameter as the canonical numeral. *)
Definition decimal_eq (n : Z) (s : string) : bool :=
  String.eqb (JS.string_of_Z n) s.

(** The token "t1" is valid for account 1, "t3" for account 3, "t9" for
    account 9; every other token fails verification. *)
Definition verify (t : string) : option Z :=
  if String.eqb t "t1" then Some 1
  else if String.eqb t "t3" then Some 3
  else if String.eqb t "t9" then Some 9
  else None.

Definition env_2024 : environment :=
  {| jwt_verify := verify; sql_int_eq := decimal_eq;
     current_year := 2024; date_now := 1700000000000 |}.

Definition account (n : Z) (mail rol : string) (active : bool) : user_row :=
  {| u_id := n; u_email := mail; u_first_name := "N"; u_last_name := "N";
     u_role := rol; u_department := None; u_position := None;
     u_phone := None; u_address := None; u_salary := Some "1000.00";
     u_is_active := active |}.

Definition alice : user_row := account 1 "a@x.com" "employee" true.
Definition bob : user_row := account 2 "b@x.com" "manager" true.
Definition carol : user_row := account 3 "c@x.com" "employee" false.

Definition store : database :=
  {| online := true;
     users := [alice; bob; carol];
     projects := [{| p_id := 10; p_manager_id := Some 2 |};
                  {| p_id := 11; p_manager_id := None |}];
     project_tasks := [{| t_project_id := 11; t_assigned_to := Some 1 |}];
     clients := [{| c_id := 5 |}];
     invoices := [];
     products := [{| pr_id := 7; pr_product_code := "PRD000001";
                     pr_current_stock := 2 |}];
     purchase_lots := [{| l_lot_number := "LOT20249999" |}];
     sales := [];
     sales_auto_increment := 1;
     sale_items := [];
     stock_movements := [] |}.


Definition offline : database :=
  {| online := false; users := []; projects := []; project_tasks := [];
     clients := []; invoices := []; products := []; purchase_lots := [];
     sales := []; sales_auto_increment := 1; sale_items := [];
     stock_movements := [] |}.

Definition request_of (auth : option string) (idp : string)
    (who : option user_row) : request :=
  {| authorization := auth; params_id := idp;
     user := option_map identity_of who |}.

Definition no_fields : Users.update_body :=
  {| Users.firstName := None; Users.lastName := None; Users.email := None;
     Users.role := None; Users.department := None; Users.position := None;
     Users.phone := None; Users.address := None; Users.salary := None;
     Users.isActive := None |}.

(** Alice asks for Bob's address, a department, and a promotion. *)
Definition taken_email : Users.update_body :=
  {| Users.firstName := None; Users.lastName := None;
     Users.email := Some "b@x.com"; Users.role := Some "admin";
     Users.department := Some "Sales"; Users.position := None;
     Users.phone := None; Users.address := None; Users.salary := None;
     Users.isActive := None |}.

(** Alice asks for a department, a promotion, a raise. *)
Definition promotion : Users.update_body :=
  {| Users.firstName := None; Users.lastName := None;
     Users.email := None; Users.role := Some "admin";
     Users.department := Some "Sales"; Users.position := None;
     Users.phone := None; Users.address := None;
     Users.salary := Some "9000.00"; Users.isActive := Some true |}.

(** Five units of product 7, of which two are in stock. *)
Definition five_of_seven : Sales.sale_body :=
  {| Sales.customer_name := None; Sales.customer_email := None;
     Sales.customer_phone := None;
     Sales.items := [{| Sales.product_id := 7; Sales.quantity := 5;
                        Sales.unit_price := 300;
                        Sales.discount_percent := None;
                        Sales.item_discount_amount := None;
                        Sales.total_price := 1500 |}];
     Sales.subtotal := 1500; Sales.tax_rate := None;
     Sales.tax_amount := None; Sales.discount_amount := None;
     Sales.total_amount := 1500; Sales.payment_method := "cash";
     Sales.payment_reference := None; Sales.notes := None |}.

End Samples.

(* ================================================================== *)
(** * Routes: the functions of a route run in order *)
(* ================================================================== *)

Module Routes.

Import Db Http.

(** A function registered before the handler of a route: it answers, or
    calls [next()] with the request as it left it. *)
Definition middleware : Type := request -> io (request * outcome).

(** [router.METHOD(path, m1, ..., mn, handler)] on a matching request. *)
Fixpoint run_route (ms : list middleware) (handler : request -> io response)
    (req : request) : io response :=
  match ms with
  | [] => handler req
  | m :: rest =>
      x <- m req ;;
      match snd x with
      | Responded a => ret a
      | Next => run_route rest handler (fst x)
      end
  end.

(** [authorize(...roles)] as a function of a route. *)
Definition authorized (roles : list string) : middleware :=
  fun req => ret (req, Auth.authorize roles req).

Definition with_projects (l : list project_row) (d : database) : database :=
  {| online := online d; users := users d; projects := l;
     project_tasks := project_tasks d; clients := clients d;
     invoices := invoices d; products := products d;
     purchase_lots := purchase_lots d; sales := sales d;
     sales_auto_increment := sales_auto_increment d;
     sale_items := sale_items d; stock_movements := stock_movements d |}.

(** [req.user.id === parseInt(id)] *)
Definition equals_parsed (n : Z) (idp : string) : bool :=
  match JS.parseInt idp with
  | Some k => n =? k
  | None => false
  end.

(** routes/users.js: the handler of [DELETE /:id]. *)
Definition delete_user (env : environment) (req : request) : io response :=
  try_catch
    (match user req with
     | None => fun d => (d, Thrown)
     | Some me =>
         let idp := params_id req in
         if equals_parsed (id me) idp then
           ret {| status := 400;
                  json := ErrorBody
                            "Vous ne pouvez pas supprimer votre propre compte"
               |}
         else
           existingUsers <-
             select (fun d =>
                       filter (fun u => sql_int_eq env (u_id u) idp)
                         (users d)) ;;
           if Users.is_nil existingUsers then
             ret {| status := 404;
                    json := ErrorBody "Utilisateur non trouvé" |}
           else
             _ <- execute
                    (fun d =>
                       with_users
                         (filter
                            (fun u => negb (sql_int_eq env (u_id u) idp))
                            (users d))
                         d) ;;
             ret {| status := 200;
                    json := MessageBody "Utilisateur supprimé avec succès" |}
     end)
    (ret {| status := 500;
            json := ErrorBody
                      "Erreur lors de la suppression de l'utilisateur" |}).

(** [router.delete('/:id', authenticateToken, authorize('admin'), ...)] *)
Definition delete_user_route (env : environment) : request -> io response :=
  run_route [Auth.authenticateToken env; authorized ["admin"]]
    (delete_user env).

(** routes/projects.js: the handler of [DELETE /:id]. *)
Definition delete_project (env : environment) (req : request)
  : io response :=
  try_catch
    (let idp := params_id req in
     existingProjects <-
       select (fun d =>
                 filter (fun p => sql_int_eq env (p_id p) idp) (projects d)) ;;
     if Users.is_nil existingProjects then
       ret {| status := 404; json := ErrorBody "Projet non trouvé" |}
     else
       _ <- execute
              (fun d =>
                 with_projects
                   (filter (fun p => negb (sql_int_eq env (p_id p) idp))
                      (projects d))
                   d) ;;
       ret {| status := 200;
              json := MessageBody "Projet supprimé avec succès" |})
    (ret {| status := 500;
            json := ErrorBody "Erreur lors de la suppression du projet" |}).

(** [router.delete('/:id', authenticateToken,
                   authorize('admin', 'manager'), ...)] *)
Definition delete_project_route (env : environment)
  : request -> io response :=
  run_route [Auth.authenticateToken env; authorized ["admin"; "manager"]]
    (delete_project env).

(** [router.put('/:id', authenticateToken, [...], ...)] of users.js and
    [router.post('/sales', authenticateToken, [...], ...)]: the validators
    between the two leave their findings in [errors]. *)
Definition put_user_route (env : environment) (errors : list string)
    (b : Users.update_body) : request -> io response :=
  run_route [Auth.authenticateToken env] (Users.put_user env errors b).

Definition post_sale_route (env : environment) (errors : list string)
    (b : Sales.sale_body) : request -> io response :=
  run_route [Auth.authenticateToken env] (Sales.post_sale env errors b).

End Routes.

(* ================================================================== *)
(** * Further vocabulary and concrete data *)
(* ================================================================== *)

Module More.

Import Db Http.

(** No space occurs in the text. *)
Fixpoint spaceless (s : string) : bool :=
  match s with
  | EmptyString => true
  | String c r => negb (Ascii.eqb c " ") && spaceless r
  end.

(** The three kinds [checkResourceAccess] has a case for. *)
Definition registered_kind (kind : string) : bool :=
  String.eqb kind "project" || String.eqb kind "client"
  || String.eqb kind "invoice".

(** The store holds, under the lookup prefix of the kind, identifiers of
    numbers up to ten to the width only, and the one of the last number
    that fits the width. *)
Definition capped (env : environment) (k : Allocator.entity_kind)
    (d : database) : Prop :=
  let top := 10 ^ Z.of_nat (Allocator.width k) in
  (forall s, In s (Allocator.identifiers k d) ->
             String.prefix (Allocator.lookup_prefix env k) s = true ->
             exists j, 1 <= j <= top /\ s = Allocator.identifier env k j)
  /\ In (Allocator.identifier env k (top - 1)) (Allocator.identifiers k d).

(** None of the seven free fields carries a non-empty value. *)
Definition no_free_field (b : Users.update_body) : Prop :=
  forall v,
    ~ Props.supplied (Users.firstName b) v
    /\ ~ Props.supplied (Users.lastName b) v
    /\ ~ Props.supplied (Users.email b) v
    /\ ~ Props.supplied (Users.department b) v
    /\ ~ Props.supplied (Users.position b) v
    /\ ~ Props.supplied (Users.phone b) v
    /\ ~ Props.supplied (Users.address b) v.

(** The row [INSERT INTO sales] writes for a body, a number and an actor. *)
Definition sale_row_of (b : Sales.sale_body) (number : string)
    (actor : Z) (k : Z) : sale_row :=
  {| s_id := k; s_sale_number := number;
     s_customer_name := Sales.or_null (Sales.customer_name b);
     s_customer_email := Sales.or_null (Sales.customer_email b);
     s_customer_phone := Sales.or_null (Sales.customer_phone b);
     s_subtotal := Sales.subtotal b;
     s_tax_rate := JS.or_zero (Sales.tax_rate b);
     s_tax_amount := JS.or_zero (Sales.tax_amount b);
     s_discount_amount := JS.or_zero (Sales.discount_amount b);
     s_total_amount := Sales.total_amount b;
     s_payment_method := Sales.payment_method b;
     s_payment_reference := Sales.or_null (Sales.payment_reference b);
     s_notes := Sales.or_null (Sales.notes b);
     s_created_by := actor |}.

(** Tokens "t1", "t2", "t4" are valid for accounts 1, 2 and 4. *)
Definition verify (t : string) : option Z :=
  if String.eqb t "t1" then Some 1
  else if String.eqb t "t2" then Some 2
  else if String.eqb t "t4" then Some 4
  else None.

Definition env : environment :=
  {| jwt_verify := verify; sql_int_eq := Samples.decimal_eq;
     current_year := 2024; date_now := 1700000000000 |}.

(** The same collaborators one millisecond later. *)
Definition env_later : environment :=
  {| jwt_verify := verify; sql_int_eq := Samples.decimal_eq;
     current_year := 2024; date_now := 1700000000001 |}.

Definition dave : user_row := Samples.account 4 "d@x.com" "admin" true.

(** Alice is an employee, Bob a manager, Carol inactive, Dave an
    administrator; invoice 30 was created by Alice. *)
Definition office : database :=
  {| online := true;
     users := [Samples.alice; Samples.bob; Samples.carol; dave];
     projects := [{| p_id := 10; p_manager_id := Some 2 |};
                  {| p_id := 11; p_manager_id := None |}];
     project_tasks := [{| t_project_id := 11; t_assigned_to := Some 1 |}];
     clients := [{| c_id := 5 |}];
     invoices := [{| i_id := 30; i_invoice_number := "INV-2024-0001";
                     i_created_by := Some 1 |}];
     products := [{| pr_id := 7; pr_product_code := "PRD000001";
                     pr_current_stock := 2 |};
                  {| pr_id := 8; pr_product_code := "PRD000002";
                     pr_current_stock := 9 |}];
     purchase_lots := [{| l_lot_number := "LOT2024XYZ" |}];
     sales := [];
     sales_auto_increment := 1;
     sale_items := [];
     stock_movements := [] |}.

Definition office_down : database :=
  {| online := false;
     users := users office; projects := projects office;
     project_tasks := project_tasks office; clients := clients office;
     invoices := invoices office; products := products office;
     purchase_lots := purchase_lots office; sales := sales office;
     sales_auto_increment := 1; sale_items := []; stock_movements := [] |}.

(** Dave sets the role, the salary and the activity of an account. *)
Definition demotion : Users.update_body :=
  {| Users.firstName := None; Users.lastName := None; Users.email := None;
     Users.role := Some "client"; Users.department := None;
     Users.position := None; Users.phone := None; Users.address := None;
     Users.salary := Some "0.00"; Users.isActive := Some false |}.

(** A sale without items. *)
Definition nothing_sold : Sales.sale_body :=
  {| Sales.customer_name := Some ""; Sales.customer_email := None;
     Sales.customer_phone := None; Sales.items := [];
     Sales.subtotal := 0; Sales.tax_rate := None; Sales.tax_amount := None;
     Sales.discount_amount := None; Sales.total_amount := 0;
     Sales.payment_method := "cash"; Sales.payment_reference := None;
     Sales.notes := None |}.

End More.

(* ================================================================== *)
(** * Facts about the primitives *)
(* ================================================================== *)

Module JSFacts.

Import JS Numeral.

Lemma length_app (a b : string) :
  String.length (a ++ b) = (String.length a + String.length b)%nat.
Proof. induction a as [|c a IH]; simpl; [reflexivity | now rewrite IH]. Qed.

Lemma app_assoc (a b c : string) : (a ++ b) ++ c = a ++ (b ++ c).
Proof. induction a as [|x a IH]; simpl; [reflexivity | now rewrite IH]. Qed.

Lemma app_empty_r (a : string) : a ++ "" = a.
Proof. induction a as [|x a IH]; simpl; [reflexivity | now rewrite IH]. Qed.

Lemma app_inv_head (p a b : string) : p ++ a = p ++ b -> a = b.
Proof.
  induction p as [|c p IH]; simpl; intros H; [exact H|].
  injection H as H. auto.
Qed.

Lemma code_range (c : ascii) : 0 <= code c < 256.
Proof.
  unfold code. pose proof (N_ascii_bounded c). lia.
Qed.

Lemma code_inj (a b : ascii) : code a = code b -> a = b.
Proof.
  unfold code. intros H. apply N2Z.inj in H.
  rewrite <- (ascii_N_embedding a), <- (ascii_N_embedding b). now rewrite H.
Qed.

Lemma ascii_eqb_code (a b : ascii) : Ascii.eqb a b = (code a =? code b).
Proof.
  destruct (Ascii.eqb_spec a b) as [->|Hne].
  - now rewrite Z.eqb_refl.
  - symmetry. apply Z.eqb_neq. intros H. apply Hne. now apply code_inj.
Qed.

Lemma ascii_compare_code (a b : ascii) :
  Ascii.compare a b = (code a ?= code b).
Proof. unfold Ascii.compare, code. now rewrite N2Z.inj_compare. Qed.

(** ** Digits *)

Lemma digit_char_ok (d : Z) :
  0 <= d < 10 -> is_digit (digit_char d) = true /\ digit_val (digit_char d) = d.
Proof.
  intros H.
  assert (E : d = 0 \/ d = 1 \/ d = 2 \/ d = 3 \/ d = 4 \/ d = 5 \/ d = 6
              \/ d = 7 \/ d = 8 \/ d = 9) by lia.
  repeat (destruct E as [-> | E]; [split; reflexivity|]).
  subst. split; reflexivity.
Qed.

Lemma is_digit_val (c : ascii) : is_digit c = true -> 0 <= digit_val c < 10.
Proof.
  unfold is_digit, digit_val. intros H.
  apply andb_true_iff in H as [H1 H2].
  apply Z.leb_le in H1. apply Z.leb_le in H2. lia.
Qed.

Lemma value_bounds (s : string) :
  all_digits s = true -> 0 <= value s < 10 ^ Z.of_nat (String.length s).
Proof.
  induction s as [|c r IH]; cbn [value all_digits String.length]; intros H.
  - simpl. lia.
  - apply andb_true_iff in H as [Hc Hr].
    specialize (IH Hr). apply is_digit_val in Hc.
    rewrite Nat2Z.inj_succ, Z.pow_succ_r by lia.
    nia.
Qed.

Lemma digits_acc_S (f : nat) (n : Z) (acc : string) :
  digits_acc (S f) n acc
  = if n / 10 =? 0 then String (digit_char (n mod 10)) acc
    else digits_acc f (n / 10) (String (digit_char (n mod 10)) acc).
Proof. reflexivity. Qed.

Lemma digits_acc_all_digits (f : nat) :
  forall n acc, 0 <= n -> all_digits acc = true ->
                all_digits (digits_acc f n acc) = true.
Proof.
  induction f as [|f IH]; intros n acc Hn Hacc; [exact Hacc|].
  rewrite digits_acc_S.
  assert (Hd : all_digits (String (digit_char (n mod 10)) acc) = true).
  { cbn [all_digits]. rewrite Hacc, andb_true_r.
    apply digit_char_ok. apply Z.mod_pos_bound. lia. }
  destruct (n / 10 =? 0); [exact Hd|].
  apply IH; [apply Z.div_pos; lia | exact Hd].
Qed.

Lemma digits_acc_value (f : nat) :
  forall n acc, 0 <= n < 10 ^ Z.of_nat (S f) ->
    value (digits_acc (S f) n acc)
    = n * 10 ^ Z.of_nat (String.length acc) + value acc.
Proof.
  induction f as [|f IH]; intros n acc Hn; rewrite digits_acc_S;
    pose proof (Z.div_mod n 10 ltac:(lia)) as Hdm;
    pose proof (Z.mod_pos_bound n 10 eq_refl) as Hm;
    pose proof (proj2 (digit_char_ok _ Hm)) as Hv.
  - change (10 ^ Z.of_nat 1) with 10 in Hn.
    assert (E : n / 10 = 0) by (apply Z.div_small; lia).
    rewrite E. cbn [Z.eqb value]. rewrite Hv. nia.
  - destruct (n / 10 =? 0) eqn:E.
    + apply Z.eqb_eq in E. cbn [value]. rewrite Hv. nia.
    + rewrite IH.
      * cbn [value String.length]. rewrite Hv.
        rewrite Nat2Z.inj_succ, Z.pow_succ_r by lia. nia.
      * rewrite Nat2Z.inj_succ, Z.pow_succ_r in Hn by lia.
        split; [apply Z.div_pos; lia|].
        apply Z.div_lt_upper_bound; lia.
Qed.

Lemma digits_acc_length (f : nat) :
  forall n acc (k : nat), 0 <= n < 10 ^ Z.of_nat (S k) ->
    (String.length (digits_acc (S f) n acc) <= S k + String.length acc)%nat.
Proof.
  induction f as [|f IH]; intros n acc k Hn; rewrite digits_acc_S.
  - destruct (n / 10 =? 0); simpl; lia.
  - destruct (n / 10 =? 0) eqn:E; [simpl; lia|].
    apply Z.eqb_neq in E.
    destruct k as [|k].
    + exfalso. apply E. apply Z.div_small.
      change (10 ^ Z.of_nat 1) with 10 in Hn. lia.
    + specialize (IH (n / 10) (String (digit_char (n mod 10)) acc) k).
      cbn [String.length] in IH.
      assert (Hq : 0 <= n / 10 < 10 ^ Z.of_nat (S k)).
      { rewrite (Nat2Z.inj_succ (S k)), Z.pow_succ_r in Hn by lia.
        split; [apply Z.div_pos; lia|].
        apply Z.div_lt_upper_bound; lia. }
      specialize (IH Hq). lia.
Qed.

Lemma digits_fuel (n : Z) :
  0 <= n -> 0 <= n < 10 ^ Z.of_nat (S (Z.to_nat (Z.log2 n))).
Proof.
  intros Hn. split; [exact Hn|].
  rewrite Nat2Z.inj_succ, Z2Nat.id by apply Z.log2_nonneg.
  destruct (Z.eq_dec n 0) as [->|Hnz]; [reflexivity|].
  pose proof (Z.log2_spec n ltac:(lia)) as [_ Hlt].
  eapply Z.lt_le_trans; [exact Hlt|].
  apply Z.pow_le_mono_l. pose proof (Z.log2_nonneg n). lia.
Qed.

Lemma digits_all_digits (n : Z) : 0 <= n -> all_digits (digits n) = true.
Proof. intros H. now apply digits_acc_all_digits. Qed.

Lemma digits_value (n : Z) : 0 <= n -> value (digits n) = n.
Proof.
  intros H. unfold digits. rewrite digits_acc_value by now apply digits_fuel.
  cbn [value String.length Z.of_nat]. lia.
Qed.

Lemma digits_length (n : Z) (k : nat) :
  0 <= n < 10 ^ Z.of_nat (S k) -> (String.length (digits n) <= S k)%nat.
Proof.
  intros H. unfold digits.
  pose proof (digits_acc_length (Z.to_nat (Z.log2 n)) n "" k H) as L.
  cbn [String.length] in L. lia.
Qed.

Lemma digits_acc_nonempty (f : nat) :
  forall m a, a <> "" -> digits_acc f m a <> "".
Proof.
  induction f as [|f IH]; intros m a Ha; [exact Ha|].
  rewrite digits_acc_S.
  destruct (m / 10 =? 0); [discriminate|]. apply IH. discriminate.
Qed.

Lemma digits_nonempty (n : Z) : digits n <> "".
Proof.
  unfold digits. rewrite digits_acc_S.
  destruct (n / 10 =? 0); [discriminate|].
  apply digits_acc_nonempty. discriminate.
Qed.

Lemma string_of_Z_nonneg (n : Z) : 0 <= n -> string_of_Z n = digits n.
Proof.
  intros H. unfold string_of_Z.
  destruct (n <? 0) eqn:E; [apply Z.ltb_lt in E; lia | reflexivity].
Qed.

(** ** Zero padding *)

Lemma cycle_fill_zero (k : nat) :
  forall cur, cur = "0" \/ cur = "" -> cycle_fill k "0" cur = zeros k.
Proof.
  induction k as [|k IH]; intros cur [-> | ->]; simpl; try reflexivity;
    f_equal; apply IH; auto.
Qed.

Lemma padStart_zero (w : nat) (s : string) :
  padStart w "0" s = zeros (w - String.length s) ++ s.
Proof.
  unfold padStart. destruct (w <=? String.length s)%nat eqn:E.
  - apply Nat.leb_le in E. replace (w - String.length s)%nat with O by lia.
    reflexivity.
  - now rewrite cycle_fill_zero by auto.
Qed.

Lemma zeros_length (k : nat) : String.length (zeros k) = k.
Proof. induction k; simpl; auto. Qed.

Lemma all_digits_app (a b : string) :
  all_digits (a ++ b) = all_digits a && all_digits b.
Proof.
  induction a as [|c a IH]; simpl; [reflexivity|].
  now rewrite IH, andb_assoc.
Qed.

Lemma zeros_all_digits (k : nat) : all_digits (zeros k) = true.
Proof. induction k; simpl; auto. Qed.

Lemma value_zeros_app (k : nat) (s : string) : value (zeros k ++ s) = value s.
Proof.
  induction k as [|k IH]; [reflexivity|].
  cbn [zeros append value]. rewrite IH.
  change (digit_val "0") with 0. lia.
Qed.

(** A number below [10^w] padded to [w] digits: exactly [w] digits that
    denote it. *)
Lemma padded_numeral (w : nat) (j : Z) :
  (0 < w)%nat ->
  0 <= j < 10 ^ Z.of_nat w ->
  let t := padStart w "0" (string_of_Z j) in
  String.length t = w /\ all_digits t = true /\ value t = j.
Proof.
  intros Hw Hj t. subst t.
  rewrite string_of_Z_nonneg, padStart_zero by lia.
  assert (L : (String.length (digits j) <= w)%nat).
  { destruct w as [|w]; [lia|]. now apply digits_length. }
  rewrite length_app, zeros_length, all_digits_app, zeros_all_digits,
    value_zeros_app, digits_all_digits, digits_value by lia.
  repeat split. lia.
Qed.

(** ** [parseInt] on numerals *)

Lemma digit_cases (c : ascii) :
  is_digit c = true ->
  In c ["0"; "1"; "2"; "3"; "4"; "5"; "6"; "7"; "8"; "9"]%char.
Proof.
  intros H. unfold is_digit in H.
  apply andb_true_iff in H as [H1 H2].
  apply Z.leb_le in H1. apply Z.leb_le in H2.
  assert (E : code c = 48 \/ code c = 49 \/ code c = 50 \/ code c = 51
              \/ code c = 52 \/ code c = 53 \/ code c = 54 \/ code c = 55
              \/ code c = 56 \/ code c = 57) by lia.
  assert (C : c = ascii_of_N (Z.to_N (code c))).
  { unfold code. now rewrite N2Z.id, ascii_N_embedding. }
  cbn [In].
  repeat (destruct E as [E | E];
          [ rewrite E in C; vm_compute in C; subst c; tauto | ]).
  rewrite E in C; vm_compute in C; subst c; tauto.
Qed.

Lemma parse_radix_digits (s : string) :
  forall a, all_digits s = true ->
    parse_radix 10 (Some a) s
    = Some (a * 10 ^ Z.of_nat (String.length s) + value s).
Proof.
  induction s as [|c r IH]; intros a H.
  - cbn [parse_radix String.length value Z.of_nat]. f_equal. lia.
  - cbn [all_digits] in H. apply andb_true_iff in H as [Hc Hr].
    cbn [parse_radix]. unfold digit_in.
    unfold is_digit in Hc. rewrite Hc. rewrite IH by exact Hr.
    cbn [value String.length]. unfold digit_val.
    rewrite Nat2Z.inj_succ, Z.pow_succ_r by lia. f_equal. lia.
Qed.

Lemma parseInt_numeral (s : string) :
  s <> "" -> all_digits s = true -> parseInt s = Some (value s).
Proof.
  intros Hne H. destruct s as [|c r]; [congruence|].
  cbn [all_digits] in H. apply andb_true_iff in H as [Hc Hr].
  assert (P : parse_radix 10 None (String c r) = Some (value (String c r))).
  { cbn [parse_radix]. unfold digit_in. pose proof Hc as Hc'.
    unfold is_digit in Hc'. rewrite Hc'.
    rewrite parse_radix_digits by exact Hr.
    cbn [value]. unfold digit_val. f_equal; lia. }
  assert (X : forall x, is_digit x = true -> is_x x = false).
  { intros x Hx. unfold is_digit in Hx. unfold is_x.
    apply andb_true_iff in Hx as [_ Hx]. apply Z.leb_le in Hx.
    apply orb_false_iff. split; apply Z.eqb_neq; lia. }
  unfold parseInt.
  apply digit_cases in Hc. cbn [In] in Hc.
  destruct Hc as [<-|[<-|[<-|[<-|[<-|[<-|[<-|[<-|[<-|[<-|[]]]]]]]]]]];
    cbn [trim_start];
    match goal with
    | |- context [is_space ?c] => change (is_space c) with false
    end;
    cbv beta iota;
    try (rewrite P; reflexivity).
  destruct r as [|x r'].
  - rewrite P. reflexivity.
  - cbn [all_digits] in Hr. apply andb_true_iff in Hr as [Hx _].
    rewrite (X x Hx). cbv beta iota. rewrite P. reflexivity.
Qed.

(** The padded numeral of a number below [10^w] reads back as it. *)
Lemma parseInt_padded (w : nat) (j : Z) :
  (0 < w)%nat -> 0 <= j < 10 ^ Z.of_nat w ->
  parseInt (padStart w "0" (string_of_Z j)) = Some j.
Proof.
  intros Hw Hj.
  destruct (padded_numeral w j Hw Hj) as (L & D & V).
  rewrite parseInt_numeral; [now rewrite V | | exact D].
  intros E. rewrite E in L. simpl in L. lia.
Qed.

(** ** Order of texts *)

Lemma compare_refl (s : string) : String.compare s s = Eq.
Proof.
  induction s as [|c r IH]; simpl; [reflexivity|].
  unfold Ascii.compare. now rewrite N.compare_refl.
Qed.

Lemma compare_app_head (p a b : string) :
  String.compare (p ++ a) (p ++ b) = String.compare a b.
Proof.
  induction p as [|c p IH]; simpl; [reflexivity|].
  unfold Ascii.compare. now rewrite N.compare_refl.
Qed.

Lemma compare_lt_trans (a : string) :
  forall b c, String.compare a b = Lt -> String.compare b c = Lt ->
              String.compare a c = Lt.
Proof.
  induction a as [|x a IH]; intros [|y b] [|z c]; simpl;
    try discriminate; try reflexivity.
  rewrite !ascii_compare_code.
  destruct (Z.compare_spec (code x) (code y)),
           (Z.compare_spec (code y) (code z)),
           (Z.compare_spec (code x) (code z));
    try lia; try discriminate; auto.
  apply IH.
Qed.

Lemma leb_ltb_trans (a b c : string) :
  String.leb a b = true -> String.ltb b c = true -> String.leb a c = true.
Proof.
  unfold String.leb, String.ltb. intros H1 H2.
  destruct (String.compare b c) eqn:Ebc; try discriminate.
  destruct (String.compare a b) eqn:Eab; try discriminate.
  - apply String.compare_eq_iff in Eab. subst. now rewrite Ebc.
  - now rewrite (compare_lt_trans a b c Eab Ebc).
Qed.

Lemma leb_refl (a : string) : String.leb a a = true.
Proof. unfold String.leb. now rewrite compare_refl. Qed.

(** Numerals of one length are ordered as the numbers they denote. *)
Lemma compare_numerals (a : string) :
  forall b, String.length a = String.length b ->
            all_digits a = true -> all_digits b = true ->
            String.compare a b = (value a ?= value b).
Proof.
  induction a as [|x a IH]; intros [|y b] L Ha Hb; try discriminate.
  - reflexivity.
  - cbn [String.length] in L. injection L as L.
    cbn [all_digits] in Ha, Hb.
    apply andb_true_iff in Ha as [Hx Ha].
    apply andb_true_iff in Hb as [Hy Hb].
    pose proof (value_bounds a Ha) as Ba.
    pose proof (value_bounds b Hb) as Bb.
    pose proof (is_digit_val x Hx) as Bx.
    pose proof (is_digit_val y Hy) as By.
    cbn [String.compare value]. rewrite ascii_compare_code, (IH b L Ha Hb).
    rewrite <- L in *. unfold digit_val in *.
    set (P := 10 ^ Z.of_nat (String.length a)) in *.
    destruct (Z.compare_spec (code x) (code y)) as [E|E|E].
    + rewrite E.
      destruct (Z.compare_spec (value a) (value b));
        symmetry; [apply Z.compare_eq_iff | apply Z.compare_lt_iff
                   | apply Z.compare_gt_iff]; lia.
    + symmetry. apply Z.compare_lt_iff. nia.
    + symmetry. apply Z.compare_gt_iff. nia.
Qed.

(** ** Prefixes, [replace], [split] *)

Lemma prefix_nil (s : string) : String.prefix "" s = true.
Proof. destruct s; reflexivity. Qed.

Lemma prefix_cons (c d : ascii) (p s : string) :
  String.prefix (String c p) (String d s) = Ascii.eqb c d && String.prefix p s.
Proof.
  simpl. destruct (ascii_dec c d) as [->|Hne].
  - now rewrite Ascii.eqb_refl.
  - apply Ascii.eqb_neq in Hne. now rewrite Hne.
Qed.

Lemma prefix_app (p t : string) : String.prefix p (p ++ t) = true.
Proof.
  induction p as [|c p IH]; [apply prefix_nil|].
  cbn [append]. now rewrite prefix_cons, Ascii.eqb_refl, IH.
Qed.

Lemma prefix_inv (p : string) :
  forall s, String.prefix p s = true ->
            s = p ++ string_drop (String.length p) s.
Proof.
  induction p as [|c p IH]; intros s H; [reflexivity|].
  destruct s as [|d s]; [discriminate|].
  rewrite prefix_cons in H. apply andb_true_iff in H as [E H].
  apply Ascii.eqb_eq in E. subst d.
  cbn [String.length string_drop append]. f_equal. now apply IH.
Qed.

Lemma prefix_app_weaken (p q : string) :
  forall s, String.prefix (p ++ q) s = true -> String.prefix p s = true.
Proof.
  induction p as [|c p IH]; intros s H; [apply prefix_nil|].
  destruct s as [|d s]; [discriminate|].
  cbn [append] in H. rewrite prefix_cons in *.
  apply andb_true_iff in H as [E H]. rewrite E. cbn. now apply IH.
Qed.

Lemma string_drop_app (p t : string) :
  string_drop (String.length p) (p ++ t) = t.
Proof. induction p as [|c p IH]; [reflexivity | exact IH]. Qed.

Lemma replace_prefix (p rep s : string) :
  String.prefix p s = true ->
  replace p rep s = rep ++ string_drop (String.length p) s.
Proof. intros H. destruct s; cbn [replace]; now rewrite H. Qed.

Lemma like_any (s : string) : Db.like "%" s = true.
Proof.
  cbn [Db.like]. change (Ascii.eqb "%" "%") with true. cbv iota.
  induction s as [|c r IH]; [reflexivity|].
  cbn [orb Db.like]. exact IH.
Qed.

(** A pattern made of a text without wildcards and a final [%] selects
    the values that start with the text. *)
Lemma like_prefix_pattern (p : string) :
  no_wild p = true ->
  forall s, Db.like (p ++ "%") s = String.prefix p s.
Proof.
  induction p as [|c p IH]; intros W s.
  - rewrite prefix_nil. apply like_any.
  - cbn [no_wild] in W. apply andb_true_iff in W as [Wc W].
    unfold wildcard in Wc. apply negb_true_iff in Wc.
    apply orb_false_iff in Wc as [Wc W3].
    apply orb_false_iff in Wc as [W1 W2].
    cbn [append Db.like]. rewrite W1, W2, W3.
    destruct s as [|d s]; [reflexivity|].
    rewrite prefix_cons, (IH W). reflexivity.
Qed.

Lemma no_wild_app (a b : string) :
  no_wild (a ++ b) = no_wild a && no_wild b.
Proof.
  induction a as [|c a IH]; simpl; [reflexivity|].
  now rewrite IH, andb_assoc.
Qed.

Lemma digit_not_special (c : ascii) :
  is_digit c = true -> wildcard c = false /\ Ascii.eqb c "-" = false.
Proof.
  intros H. apply digit_cases in H. cbn [In] in H.
  destruct H as [<-|[<-|[<-|[<-|[<-|[<-|[<-|[<-|[<-|[<-|[]]]]]]]]]]];
    split; reflexivity.
Qed.

Lemma all_digits_no_wild (s : string) :
  all_digits s = true -> no_wild s = true.
Proof.
  induction s as [|c r IH]; [reflexivity|].
  cbn [all_digits no_wild]. intros H.
  apply andb_true_iff in H as [Hc Hr].
  now rewrite (proj1 (digit_not_special c Hc)), IH.
Qed.

Lemma all_digits_dashless (s : string) :
  all_digits s = true -> Allocator.dashless s = true.
Proof.
  induction s as [|c r IH]; [reflexivity|].
  cbn [all_digits Allocator.dashless]. intros H.
  apply andb_true_iff in H as [Hc Hr].
  now rewrite (proj2 (digit_not_special c Hc)), IH.
Qed.

Lemma string_of_Z_no_wild (n : Z) : no_wild (string_of_Z n) = true.
Proof.
  unfold string_of_Z. destruct (n <? 0) eqn:E.
  - apply Z.ltb_lt in E. cbn [no_wild].
    rewrite all_digits_no_wild by (apply digits_all_digits; lia).
    reflexivity.
  - apply Z.ltb_ge in E. apply all_digits_no_wild.
    now apply digits_all_digits.
Qed.

Lemma padStart_zero_no_wild (w : nat) (s : string) :
  no_wild s = true -> no_wild (padStart w "0" s) = true.
Proof.
  intros H. rewrite padStart_zero, no_wild_app, H, andb_true_r.
  apply all_digits_no_wild, zeros_all_digits.
Qed.

Lemma split_acc_dashless (a : string) :
  forall cur, Allocator.dashless a = true ->
              split_acc "-" cur a = [cur ++ a].
Proof.
  induction a as [|c a IH]; intros cur H.
  - cbn [split_acc]. now rewrite app_empty_r.
  - cbn [Allocator.dashless] in H. apply andb_true_iff in H as [Hc H].
    apply negb_true_iff in Hc. cbn [split_acc]. rewrite Hc.
    rewrite (IH _ H), app_assoc. reflexivity.
Qed.

Lemma split_acc_field (a : string) :
  forall cur rest, Allocator.dashless a = true ->
    split_acc "-" cur (a ++ String "-" rest)
    = (cur ++ a) :: split_acc "-" "" rest.
Proof.
  induction a as [|c a IH]; intros cur rest H.
  - cbn [append split_acc]. change (Ascii.eqb "-" "-") with true.
    cbv iota. now rewrite app_empty_r.
  - cbn [Allocator.dashless] in H. apply andb_true_iff in H as [Hc H].
    apply negb_true_iff in Hc. cbn [append split_acc]. rewrite Hc.
    rewrite (IH _ _ H), app_assoc. reflexivity.
Qed.

End JSFacts.

(* ================================================================== *)
(** * Facts about the lookups *)
(* ================================================================== *)

Module DbFacts.

Import Db.

Lemma greatest_none (l : list string) : greatest l = None -> l = [].
Proof.
  destruct l as [|s r]; [reflexivity|]. simpl.
  destruct (greatest r) as [m|]; [|discriminate].
  destruct (String.ltb m s); discriminate.
Qed.

Lemma greatest_in (l : list string) :
  forall g, greatest l = Some g -> In g l.
Proof.
  induction l as [|s r IH]; intros g H; [discriminate|].
  simpl in H. destruct (greatest r) as [m|].
  - destruct (String.ltb m s); injection H as <-; [now left|].
    right. now apply IH.
  - injection H as <-. now left.
Qed.

Lemma greatest_upper (l : list string) :
  forall g x, greatest l = Some g -> In x l -> String.leb x g = true.
Proof.
  induction l as [|s r IH]; intros g x H Hx; [destruct Hx|].
  simpl in H. destruct (greatest r) as [m|] eqn:E.
  - destruct (String.ltb m s) eqn:Lt; injection H as <-.
    + destruct Hx as [<-|Hx]; [apply JSFacts.leb_refl|].
      eapply JSFacts.leb_ltb_trans; [apply (IH m x eq_refl Hx) | exact Lt].
    + destruct Hx as [<-|Hx]; [|now apply IH].
      unfold String.ltb in Lt. unfold String.leb.
      rewrite String.compare_antisym.
      destruct (String.compare m s); try reflexivity. discriminate.
  - apply greatest_none in E. subst r. injection H as <-.
    destruct Hx as [<-|[]]. apply JSFacts.leb_refl.
Qed.

Lemma select_online {A} (q : database -> list A) (d : database) :
  online d = true -> select q d = (d, Ok (q d)).
Proof. intros H. unfold select. now rewrite H. Qed.

Lemma select_offline {A} (q : database -> list A) (d : database) :
  online d = false -> select q d = (d, Thrown).
Proof. intros H. unfold select. now rewrite H. Qed.

End DbFacts.

(* ================================================================== *)
(** * The allocators compute the next number *)
(* ================================================================== *)

Module AllocatorFacts.

Import Db Http Allocator JS Numeral JSFacts DbFacts.

Ltac run_io :=
  unfold try_catch, bind, ret;
  repeat (rewrite select_online by assumption).

(** The body shared by the three allocators of the equipment routes is
    the allocation of the specification. *)
Lemma lookup_follows_spec (p : string) (w : nat) (col : list string) :
  no_wild p = true ->
  p ++ padStart w "0"
         (string_of_Z
            match last_like (p ++ "%") col with
            | lastCode :: _ => or_zero (parseInt (replace p "" lastCode)) + 1
            | [] => 1
            end)
  = spec_allocate p w col.
Proof.
  intros W. unfold last_like, spec_allocate.
  rewrite (filter_ext _ _ (like_prefix_pattern p W)).
  destruct (greatest (filter (String.prefix p) col)) as [s|] eqn:G;
    [|reflexivity].
  apply greatest_in, filter_In in G as [_ G].
  rewrite (replace_prefix p "" s G). reflexivity.
Qed.

Lemma product_prefix_no_wild (c : option Z) :
  no_wild (Equipment.product_prefix c) = true.
Proof.
  unfold Equipment.product_prefix.
  destruct c as [c|]; [|reflexivity].
  destruct (truthy_Z c); [|reflexivity].
  rewrite no_wild_app. cbn [no_wild wildcard]. cbn.
  apply padStart_zero_no_wild, string_of_Z_no_wild.
Qed.

Lemma generateProductCode_follows_spec env c d :
  online d = true ->
  Equipment.generateProductCode env c d
  = (d, Ok (spec_allocate (Equipment.product_prefix c) 6
              (Equipment.product_codes d))).
Proof.
  intros On. unfold Equipment.generateProductCode. run_io.
  now rewrite lookup_follows_spec by apply product_prefix_no_wild.
Qed.

Lemma year_prefix_no_wild (tag : string) (y : Z) :
  no_wild tag = true -> no_wild (tag ++ string_of_Z y) = true.
Proof.
  intros H. now rewrite no_wild_app, H, string_of_Z_no_wild.
Qed.

Lemma generateLotNumber_follows_spec env d :
  online d = true ->
  Equipment.generateLotNumber env d
  = (d, Ok (spec_allocate ("LOT" ++ string_of_Z (current_year env)) 4
              (Equipment.lot_numbers d))).
Proof.
  intros On. unfold Equipment.generateLotNumber. run_io.
  rewrite <- (lookup_follows_spec ("LOT" ++ string_of_Z (current_year env)))
    by now apply (year_prefix_no_wild "LOT").
  reflexivity.
Qed.

Lemma generateSaleNumber_follows_spec env d :
  online d = true ->
  Equipment.generateSaleNumber env d
  = (d, Ok (spec_allocate ("SALE" ++ string_of_Z (current_year env)) 4
              (Equipment.sale_numbers d))).
Proof.
  intros On. unfold Equipment.generateSaleNumber. run_io.
  rewrite <- (lookup_follows_spec ("SALE" ++ string_of_Z (current_year env)))
    by now apply (year_prefix_no_wild "SALE").
  reflexivity.
Qed.

Lemma head_invoice env :
  head env InvoiceNumber = ("INV-" ++ string_of_Z (current_year env)) ++ "-".
Proof. unfold head. now rewrite app_assoc. Qed.

Lemma year_dashless (y : Z) : 0 <= y -> dashless (string_of_Z y) = true.
Proof.
  intros H. rewrite string_of_Z_nonneg by exact H.
  now apply all_digits_dashless, digits_all_digits.
Qed.

Lemma split_three_fields (a b t : string) :
  dashless a = true -> dashless b = true -> dashless t = true ->
  split "-" (a ++ String "-" (b ++ String "-" t)) = [a; b; t].
Proof.
  intros Ha Hb Ht. unfold split.
  rewrite split_acc_field by exact Ha.
  rewrite split_acc_field by exact Hb.
  rewrite split_acc_dashless by exact Ht.
  reflexivity.
Qed.

(** The third dash-separated field of a shaped invoice number is what
    follows its head. *)
Lemma invoice_third_field env (t : string) :
  0 <= current_year env -> dashless t = true ->
  nth_error (split "-" (head env InvoiceNumber ++ t)) 2 = Some t.
Proof.
  intros Hy Ht.
  assert (E : head env InvoiceNumber ++ t
              = "INV" ++ String "-"
                           (string_of_Z (current_year env) ++ String "-" t)).
  { unfold head. cbn [append]. now rewrite app_assoc. }
  rewrite E, split_three_fields; auto using year_dashless.
Qed.

Lemma generate_number_follows_spec env d :
  online d = true ->
  0 <= current_year env ->
  (forall s, In s (Invoices.invoice_numbers d) ->
             String.prefix ("INV-" ++ string_of_Z (current_year env)) s = true ->
             invoice_shaped env s) ->
  Invoices.generate_number env d
  = (d, Ok {| status := 200;
              json := InvoiceNumberBody
                        (spec_allocate (head env InvoiceNumber) 4
                           (Invoices.invoice_numbers d)) |}).
Proof.
  intros On Hy Shape. unfold Invoices.generate_number. run_io.
  do 3 f_equal.
  set (p := "INV-" ++ string_of_Z (current_year env)) in *.
  unfold last_like, spec_allocate.
  rewrite (filter_ext _ _ (like_prefix_pattern p (year_prefix_no_wild "INV-" _ eq_refl))).
  assert (F : filter (String.prefix p) (Invoices.invoice_numbers d)
              = filter (String.prefix (head env InvoiceNumber))
                  (Invoices.invoice_numbers d)).
  { apply filter_ext_in. intros s Hs.
    destruct (String.prefix p s) eqn:E.
    - destruct (Shape s Hs E) as (t & -> & _). now rewrite prefix_app.
    - destruct (String.prefix (head env InvoiceNumber) s) eqn:E2;
        [|reflexivity].
      rewrite head_invoice in E2. fold p in E2.
      apply prefix_app_weaken in E2. congruence. }
  rewrite F.
  destruct (greatest (filter (String.prefix (head env InvoiceNumber))
                        (Invoices.invoice_numbers d))) as [s|] eqn:G.
  - apply greatest_in, filter_In in G as [Hs G].
    rewrite head_invoice in G. fold p in G.
    apply prefix_app_weaken in G.
    destruct (Shape s Hs G) as (t & -> & Ht).
    rewrite invoice_third_field, string_drop_app by assumption.
    cbn [parseInt_opt]. rewrite head_invoice. fold p.
    now rewrite !app_assoc.
  - rewrite head_invoice. fold p. now rewrite !app_assoc.
Qed.

(** ** The next number on a store of well-formed identifiers *)

(** Among padded identifiers of one prefix, a smaller number sorts first. *)
Lemma padded_order (p : string) (w : nat) (j m : Z) :
  (0 < w)%nat -> 0 <= j -> j < m -> m < 10 ^ Z.of_nat w ->
  String.compare (p ++ padStart w "0" (string_of_Z j))
                 (p ++ padStart w "0" (string_of_Z m)) = Lt.
Proof.
  intros Hw Hj Hjm Hm.
  destruct (padded_numeral w j Hw ltac:(lia)) as (Lj & Dj & Vj).
  destruct (padded_numeral w m Hw ltac:(lia)) as (Lm & Dm & Vm).
  rewrite compare_app_head, compare_numerals by congruence.
  rewrite Vj, Vm. now apply Z.compare_lt_iff.
Qed.

Lemma spec_allocate_next (p : string) (w : nat) (m : Z) (ids : list string) :
  (0 < w)%nat -> 0 <= m -> m < 10 ^ Z.of_nat w ->
  (forall s, In s ids -> String.prefix p s = true ->
             exists j, 1 <= j <= m /\ s = p ++ padStart w "0" (string_of_Z j)) ->
  (1 <= m -> In (p ++ padStart w "0" (string_of_Z m)) ids) ->
  spec_allocate p w ids = p ++ padStart w "0" (string_of_Z (m + 1)).
Proof.
  intros Hw Hm Hlt Shape Top. unfold spec_allocate.
  destruct (greatest (filter (String.prefix p) ids)) as [s|] eqn:G.
  - pose proof (greatest_in _ _ G) as Hin.
    apply filter_In in Hin as [Hs Hp].
    destruct (Shape s Hs Hp) as (j & Hj & ->).
    assert (j = m) as ->.
    { destruct (Z.eq_dec j m) as [E|NE]; [exact E|exfalso].
      assert (Hmem : In (p ++ padStart w "0" (string_of_Z m))
                       (filter (String.prefix p) ids)).
      { apply filter_In. split; [apply Top; lia | apply prefix_app]. }
      pose proof (greatest_upper _ _ _ G Hmem) as Le.
      unfold String.leb in Le.
      rewrite String.compare_antisym,
        (padded_order p w j m) in Le by lia.
      discriminate. }
    rewrite string_drop_app, parseInt_padded by lia.
    reflexivity.
  - apply greatest_none in G.
    destruct (Z.eq_dec m 0) as [->|NZ]; [reflexivity|exfalso].
    assert (Hmem : In (p ++ padStart w "0" (string_of_Z m))
                     (filter (String.prefix p) ids)).
    { apply filter_In. split; [apply Top; lia | apply prefix_app]. }
    rewrite G in Hmem. destruct Hmem.
Qed.

Lemma width_pos (k : entity_kind) : (0 < width k)%nat.
Proof. destruct k; simpl; lia. Qed.

Section SeededStore.

Variable env : environment.
Variable k : entity_kind.
Variable persist : string -> database -> database.

Hypothesis year_nonneg : 0 <= current_year env.
Hypothesis persist_ok : persists k persist.

(** One call on a seeded store returns the identifier of the next number
    and leaves the store as it was. *)
Lemma allocate_seeded m d :
  online d = true ->
  seeded env k m d ->
  m < 10 ^ Z.of_nat (width k) ->
  allocate env k d = (d, Ok (Some (identifier env k (m + 1)))).
Proof.
  intros On (Hm & Shape & Top) Hlt.
  unfold identifier in *. clear persist_ok.
  destruct k as [|c| |]; unfold allocate, bind, ret.
  - rewrite generate_number_follows_spec; auto.
    + cbn [json]. do 3 f_equal.
      apply spec_allocate_next with (m := m);
        [apply (width_pos InvoiceNumber) | exact Hm | exact Hlt | | exact Top].
      intros s Hs Hp. apply Shape; auto.
      rewrite head_invoice in Hp. now apply prefix_app_weaken in Hp.
    + intros s Hs Hp. destruct (Shape s Hs Hp) as (j & Hj & ->).
      exists (padStart (width InvoiceNumber) "0" (string_of_Z j)).
      split; [reflexivity|].
      apply all_digits_dashless.
      apply (padded_numeral (width InvoiceNumber) j (width_pos _)). lia.
  - rewrite generateProductCode_follows_spec by exact On.
    do 3 f_equal.
    apply spec_allocate_next with (m := m);
      [apply (width_pos (ProductCode c)) | exact Hm | exact Hlt
      | exact Shape | exact Top].
  - rewrite generateLotNumber_follows_spec by exact On.
    do 3 f_equal.
    apply spec_allocate_next with (m := m);
      [apply (width_pos LotNumber) | exact Hm | exact Hlt
      | exact Shape | exact Top].
  - rewrite generateSaleNumber_follows_spec by exact On.
    do 3 f_equal.
    apply spec_allocate_next with (m := m);
      [apply (width_pos SaleNumber) | exact Hm | exact Hlt
      | exact Shape | exact Top].
Qed.

(** Storing the identifier of the next number keeps the store seeded. *)
Lemma seeded_step m d :
  seeded env k m d ->
  seeded env k (m + 1) (persist (identifier env k (m + 1)) d).
Proof.
  intros (Hm & Shape & Top).
  destruct (persist_ok (identifier env k (m + 1)) d) as (_ & Mem).
  repeat split.
  - lia.
  - intros s Hs Hp. apply Mem in Hs as [->|Hs].
    + exists (m + 1). split; [lia | reflexivity].
    + destruct (Shape s Hs Hp) as (j & Hj & ->).
      exists j. split; [lia | reflexivity].
  - intros _. apply Mem. now left.
Qed.

Lemma sequential_run_seeded (n : nat) :
  forall m d,
    online d = true ->
    seeded env k m d ->
    m + Z.of_nat n <= 10 ^ Z.of_nat (width k) ->
    sequential_run env k persist n d
    = map (identifier env k) (numbers_after m n).
Proof.
  induction n as [|n IH]; intros m d On Sd Hlt; [reflexivity|].
  cbn [sequential_run numbers_after map].
  rewrite (allocate_seeded m d) by (auto; lia).
  f_equal. apply IH.
  - destruct (persist_ok (identifier env k (m + 1)) d) as (E & _).
    congruence.
  - now apply seeded_step.
  - lia.
Qed.

End SeededStore.

(** ** Reading the identifiers back *)

Lemma suffix_text_identifier env k j :
  suffix_text env k (identifier env k j)
  = padStart (width k) "0" (string_of_Z j).
Proof. unfold suffix_text, identifier. apply string_drop_app. Qed.

Lemma suffix_number_identifier env k j :
  0 <= j < 10 ^ Z.of_nat (width k) ->
  suffix_number env k (identifier env k j) = Some j.
Proof.
  intros H. unfold suffix_number. rewrite suffix_text_identifier.
  apply parseInt_padded; [apply width_pos | exact H].
Qed.

Lemma numbers_after_bounds (n : nat) :
  forall a j, In j (numbers_after a n) -> a < j <= a + Z.of_nat n.
Proof.
  induction n as [|n IH]; intros a j H; [destruct H|].
  cbn [numbers_after] in H. destruct H as [<-|H]; [lia|].
  apply IH in H. lia.
Qed.

Lemma numbers_after_length (n : nat) :
  forall a, List.length (numbers_after a n) = n.
Proof. induction n as [|n IH]; intros a; simpl; auto. Qed.

Lemma consecutive_numbers env k (n : nat) :
  forall a, 0 <= a -> a + Z.of_nat n < 10 ^ Z.of_nat (width k) ->
    consecutive
      (map (suffix_number env k) (map (identifier env k) (numbers_after a n)))
    = true.
Proof.
  induction n as [|n IH]; intros a Ha Hlt; [reflexivity|].
  cbn [numbers_after map].
  rewrite suffix_number_identifier by lia.
  destruct n as [|n]; [reflexivity|].
  specialize (IH (a + 1) ltac:(lia) ltac:(lia)).
  cbn [numbers_after map] in IH |- *.
  rewrite suffix_number_identifier in IH |- * by lia.
  cbn [consecutive]. rewrite Z.eqb_refl. exact IH.
Qed.

End AllocatorFacts.

(* ================================================================== *)
(** * Properties of the access-control layer *)
(* ================================================================== *)

Module AuthProps.

Import Db Http Auth Props Samples DbFacts.

Ltac run_io :=
  unfold try_catch, bind, ret;
  repeat (rewrite select_online by assumption).

(** C1, as worded, fails: a token that does not verify is answered with
    403, not 401. *)
Lemma invalid_token_is_answered_403 : ~ authentication_failure_claim.
Proof.
  intros C.
  specialize (C env_2024 (request_of (Some "Bearer forged") "1" None) store).
  assert (H : answered_status
                (authenticateToken env_2024
                   (request_of (Some "Bearer forged") "1" None) store)
              = Some 403) by reflexivity.
  rewrite C in H; [discriminate|].
  right. exists "forged". repeat split.
Qed.

(** C1, amended: the Token Verifier answers 401 when the Authorization
    header carries no bearer token, and 403 when the supplied token fails
    signature or expiry verification; in both cases no identity is
    attached to the request. *)
Theorem authenticateToken_failure_statuses env req d :
  (falsy_token (token_of (authorization req)) = true ->
   authenticateToken env req d
   = (d, Ok (req, respond 401 (ErrorBody "Token d'accès requis"))))
  /\ (forall t,
        token_of (authorization req) = Some t ->
        JS.truthy_string t = true ->
        jwt_verify env t = None ->
        authenticateToken env req d
        = (d, Ok (req, respond 403 (ErrorBody "Token invalide")))).
Proof.
  split.
  - intros F. unfold authenticateToken. now rewrite F.
  - intros t Ht Tr V. unfold authenticateToken.
    rewrite Ht. cbn [falsy_token]. rewrite Tr. cbn [negb].
    run_io. now rewrite V.
Qed.

Lemma authenticateToken_failure_statuses_witness :
  authenticateToken env_2024 (request_of None "1" None) store
  = (store, Ok (request_of None "1" None,
                respond 401 (ErrorBody "Token d'accès requis")))
  /\ authenticateToken env_2024 (request_of (Some "Bearer forged") "1" None)
       store
     = (store, Ok (request_of (Some "Bearer forged") "1" None,
                   respond 403 (ErrorBody "Token invalide"))).
Proof.
  split.
  - apply (authenticateToken_failure_statuses env_2024
             (request_of None "1" None) store).
    reflexivity.
  - apply (proj2 (authenticateToken_failure_statuses env_2024
                    (request_of (Some "Bearer forged") "1" None) store)
             "forged"); reflexivity.
Defined.

(** C8: a token that verifies, for an account that is absent or marked
    inactive, is answered with 401 and the request goes on without
    identity being attached to it. *)
Theorem stale_account_rejected env req d t uid :
  token_of (authorization req) = Some t ->
  JS.truthy_string t = true ->
  jwt_verify env t = Some uid ->
  online d = true ->
  (forall u, In u (users d) -> u_id u = uid -> u_is_active u = false) ->
  authenticateToken env req d
  = (d, Ok (req, respond 401 (ErrorBody "Utilisateur invalide ou inactif"))).
Proof.
  intros Ht Tr V On Stale. unfold authenticateToken.
  rewrite Ht. cbn [falsy_token]. rewrite Tr. cbn [negb].
  unfold try_catch, bind. rewrite V. rewrite select_online by exact On.
  unfold users_by_id.
  destruct (filter (fun u => u_id u =? uid) (users d)) as [|u rest] eqn:F;
    [reflexivity|].
  assert (Hu : In u (filter (fun u => u_id u =? uid) (users d)))
    by (rewrite F; now left).
  apply filter_In in Hu as [Hin Hid]. apply Z.eqb_eq in Hid.
  cbn [map identity_of is_active]. unfold ret.
  now rewrite (Stale u Hin Hid).
Qed.

Lemma stale_account_rejected_witness :
  authenticateToken env_2024 (request_of (Some "Bearer t3") "1" None) store
  = (store, Ok (request_of (Some "Bearer t3") "1" None,
                respond 401 (ErrorBody "Utilisateur invalide ou inactif")))
  /\ authenticateToken env_2024 (request_of (Some "Bearer t9") "1" None)
       store
     = (store, Ok (request_of (Some "Bearer t9") "1" None,
                   respond 401 (ErrorBody "Utilisateur invalide ou inactif"))).
Proof.
  split.
  - apply (stale_account_rejected env_2024 _ store "t3" 3);
      try reflexivity.
    intros u [<-|[<-|[<-|[]]]]; cbn; intros E;
      try discriminate; reflexivity.
  - apply (stale_account_rejected env_2024 _ store "t9" 9);
      try reflexivity.
    intros u [<-|[<-|[<-|[]]]]; cbn; intros E; discriminate.
Defined.

Lemma existsb_eqb_In (x : string) (l : list string) :
  existsb (String.eqb x) l = true <-> In x l.
Proof.
  rewrite existsb_exists. split.
  - intros (y & Hy & E). apply String.eqb_eq in E. now subst.
  - intros H. exists x. split; [exact H | apply String.eqb_refl].
Qed.

(** C7: for an authenticated identity of role R and an operation whose
    allowed list is L, the Role Authorizer lets the request through if and
    only if R is in L, and answers 403 otherwise; this holds for each of
    admin, manager, employee and client, as for any other role text. *)
Theorem authorize_closed_world (roles : list string) req u :
  user req = Some u ->
  (authorize roles req = Next <-> In (role u) roles)
  /\ (~ In (role u) roles ->
      authorize roles req
      = respond 403 (ErrorBody "Permissions insuffisantes")).
Proof.
  intros Hu. unfold authorize. rewrite Hu.
  destruct (existsb (String.eqb (role u)) roles) eqn:E; cbn [negb].
  - apply existsb_eqb_In in E. repeat split; auto. intros N. now destruct N.
  - assert (N : ~ In (role u) roles).
    { intros H. apply existsb_eqb_In in H. congruence. }
    repeat split; auto.
    + discriminate.
    + intros H. now destruct N.
Qed.

Lemma authorize_closed_world_witness :
  authorize ["admin"; "manager"] (request_of None "1" (Some bob)) = Next
  /\ authorize ["admin"; "manager"] (request_of None "1" (Some alice))
     = respond 403 (ErrorBody "Permissions insuffisantes").
Proof.
  split.
  - apply (authorize_closed_world ["admin"; "manager"]
             (request_of None "1" (Some bob)) (identity_of bob) eq_refl).
    cbn. tauto.
  - apply (authorize_closed_world ["admin"; "manager"]
             (request_of None "1" (Some alice)) (identity_of alice) eq_refl).
    cbn. intros [H|[H|[]]]; discriminate.
Defined.

Lemma nonempty_map {A B} (f : A -> B) (l : list A) :
  nonempty (map f l) = nonempty l.
Proof. destruct l; reflexivity. Qed.

Lemma nonempty_filter {A} (f : A -> bool) (l : list A) :
  nonempty (filter f l) = existsb f l.
Proof.
  induction l as [|x r IH]; [reflexivity|].
  cbn [filter existsb]. destruct (f x); [reflexivity | exact IH].
Qed.

Lemma not_admin (r : string) : r <> "admin" -> String.eqb r "admin" = false.
Proof. intros H. now apply String.eqb_neq. Qed.

(** C2, as worded, fails: without a client row of that id the request is
    answered with 403. *)
Lemma client_access_needs_the_client : ~ client_unconditional_claim.
Proof.
  intros C.
  specialize (C env_2024 (request_of None "6" (Some alice)) (identity_of alice)
                store eq_refl eq_refl).
  assert (N : role (identity_of alice) <> "admin") by discriminate.
  specialize (C N). vm_compute in C. discriminate.
Qed.

(** C2, amended: for the client kind, an authenticated identity that is
    not an administrator is let through exactly when a client row with
    the id of the route exists, whoever the identity is; otherwise the
    answer is 403. *)
Theorem client_access_iff_client_exists env req u d :
  user req = Some u ->
  role u <> "admin" ->
  online d = true ->
  ((exists c, In c (clients d)
              /\ sql_int_eq env (c_id c) (params_id req) = true) ->
   checkResourceAccess env "client" req d = (d, Ok Next))
  /\ ((forall c, In c (clients d) ->
                 sql_int_eq env (c_id c) (params_id req) = false) ->
      checkResourceAccess env "client" req d
      = (d, Ok (respond 403
                  (ErrorBody "Accès non autorisé à cette ressource")))).
Proof.
  intros Hu Na On. unfold checkResourceAccess. rewrite Hu.
  rewrite (not_admin _ Na).
  change (String.eqb "client" "project") with false.
  change (String.eqb "client" "client") with true.
  cbv iota. run_io.
  unfold existing_clients. rewrite nonempty_map, nonempty_filter.
  split.
  - intros (c & Hc & E).
    assert (X : existsb (fun c => sql_int_eq env (c_id c) (params_id req))
                  (clients d) = true)
      by (apply existsb_exists; eauto).
    now rewrite X.
  - intros Hno.
    assert (X : existsb (fun c => sql_int_eq env (c_id c) (params_id req))
                  (clients d) = false).
    { apply not_true_is_false. intros H.
      apply existsb_exists in H as (c & Hc & E).
      rewrite (Hno c Hc) in E. discriminate. }
    now rewrite X.
Qed.

Lemma client_access_iff_client_exists_witness :
  checkResourceAccess env_2024 "client" (request_of None "5" (Some alice))
    store = (store, Ok Next)
  /\ checkResourceAccess env_2024 "client" (request_of None "6" (Some alice))
       store
     = (store, Ok (respond 403
                     (ErrorBody "Accès non autorisé à cette ressource"))).
Proof.
  split.
  - apply (client_access_iff_client_exists env_2024
             (request_of None "5" (Some alice)) (identity_of alice) store);
      try reflexivity; try discriminate.
    exists {| c_id := 5 |}. split; [now left | reflexivity].
  - apply (client_access_iff_client_exists env_2024
             (request_of None "6" (Some alice)) (identity_of alice) store);
      try reflexivity; try discriminate.
    intros c [<-|[]]. reflexivity.
Defined.

(** C3: for the project kind, the manager of the project is let
    through, an identity assigned to a task of the project is let
    through, an identity with neither relation is answered with 403, and
    an administrator is let through whatever the relations. *)
Theorem project_access_policy env req u d :
  user req = Some u ->
  (role u = "admin" ->
   checkResourceAccess env "project" req d = (d, Ok Next))
  /\ (role u <> "admin" ->
      online d = true ->
      (forall p,
          In p (projects d) ->
          sql_int_eq env (p_id p) (params_id req) = true ->
          p_manager_id p = Some (id u) ->
          checkResourceAccess env "project" req d = (d, Ok Next))
      /\ (forall p t,
             In p (projects d) ->
             sql_int_eq env (p_id p) (params_id req) = true ->
             In t (project_tasks d) ->
             t_project_id t = p_id p ->
             t_assigned_to t = Some (id u) ->
             checkResourceAccess env "project" req d = (d, Ok Next))
      /\ ((forall p,
              In p (projects d) ->
              sql_int_eq env (p_id p) (params_id req) = true ->
              p_manager_id p <> Some (id u)
              /\ forall t, In t (project_tasks d) ->
                           t_project_id t = p_id p ->
                           t_assigned_to t <> Some (id u)) ->
          checkResourceAccess env "project" req d
          = (d, Ok (respond 403
                      (ErrorBody "Accès non autorisé à cette ressource"))))).
Proof.
  intros Hu. split.
  - intros A. unfold checkResourceAccess. rewrite Hu, A. reflexivity.
  - intros Na On.
    assert (E : forall b,
               existsb
                 (fun p =>
                    sql_int_eq env (p_id p) (params_id req)
                    && (match p_manager_id p with
                        | Some m => m =? id u
                        | None => false
                        end
                        || existsb
                             (fun t =>
                                (t_project_id t =? p_id p)
                                && match t_assigned_to t with
                                   | Some a => a =? id u
                                   | None => false
                                   end)
                             (project_tasks d)))
                 (projects d) = b ->
               checkResourceAccess env "project" req d
               = (d, Ok (if b then Next
                         else respond 403
                                (ErrorBody
                                   "Accès non autorisé à cette ressource")))).
    { intros b Hb. unfold checkResourceAccess. rewrite Hu.
      rewrite (not_admin _ Na).
      change (String.eqb "project" "project") with true.
      cbv iota. run_io.
      unfold accessible_projects.
      rewrite nonempty_map, nonempty_filter, Hb. now destruct b. }
    repeat split.
    + intros p Hp Hid Hm. apply (E true).
      apply existsb_exists. exists p. split; [exact Hp|].
      now rewrite Hid, Hm, Z.eqb_refl.
    + intros p t Hp Hid Ht Hpt Ha. apply (E true).
      apply existsb_exists. exists p. split; [exact Hp|].
      rewrite Hid. cbn [andb]. apply orb_true_iff. right.
      apply existsb_exists. exists t. split; [exact Ht|].
      now rewrite Hpt, Ha, !Z.eqb_refl.
    + intros Hno. apply (E false).
      apply not_true_is_false. intros H.
      apply existsb_exists in H as (p & Hp & H).
      apply andb_true_iff in H as [Hid H].
      destruct (Hno p Hp Hid) as [Nm Nt].
      apply orb_true_iff in H as [H|H].
      * destruct (p_manager_id p) as [m|]; [|discriminate].
        apply Z.eqb_eq in H. subst m. now apply Nm.
      * apply existsb_exists in H as (t & Ht & H).
        apply andb_true_iff in H as [H1 H2].
        apply Z.eqb_eq in H1.
        destruct (t_assigned_to t) as [a|] eqn:Ea; [|discriminate].
        apply Z.eqb_eq in H2. subst a. now apply (Nt t Ht H1).
Qed.

Lemma project_access_policy_witness :
  checkResourceAccess env_2024 "project" (request_of None "10" (Some bob))
    store = (store, Ok Next)
  /\ checkResourceAccess env_2024 "project"
       (request_of None "11" (Some alice)) store = (store, Ok Next)
  /\ checkResourceAccess env_2024 "project"
       (request_of None "10" (Some alice)) store
     = (store, Ok (respond 403
                     (ErrorBody "Accès non autorisé à cette ressource"))).
Proof.
  assert (Na : role (identity_of alice) <> "admin") by discriminate.
  assert (Nb : role (identity_of bob) <> "admin") by discriminate.
  split; [|split].
  - destruct (project_access_policy env_2024
                (request_of None "10" (Some bob)) (identity_of bob) store
                eq_refl) as [_ H].
    destruct (H Nb eq_refl) as (Hm & _ & _).
    apply (Hm {| p_id := 10; p_manager_id := Some 2 |});
      [now left | reflexivity | reflexivity].
  - destruct (project_access_policy env_2024
                (request_of None "11" (Some alice)) (identity_of alice) store
                eq_refl) as [_ H].
    destruct (H Na eq_refl) as (_ & Ht & _).
    apply (Ht {| p_id := 11; p_manager_id := None |}
              {| t_project_id := 11; t_assigned_to := Some 1 |});
      [right; now left | reflexivity | now left | reflexivity | reflexivity].
  - destruct (project_access_policy env_2024
                (request_of None "10" (Some alice)) (identity_of alice) store
                eq_refl) as [_ H].
    destruct (H Na eq_refl) as (_ & _ & Hn).
    apply Hn.
    intros p [<-|[<-|[]]]; cbn; intros Hid; try discriminate.
    split; [discriminate|].
    intros t [<-|[]]; cbn; discriminate.
Defined.

End AuthProps.

(* ================================================================== *)
(** * Properties of the sequence allocators *)
(* ================================================================== *)

Module AllocatorProps.

Import Db Http Allocator Props Samples JS Numeral JSFacts DbFacts
  AllocatorFacts.

Lemma store_lot_persists : persists LotNumber store_lot.
Proof.
  intros s d. split; [reflexivity|].
  intros x. unfold identifiers, Equipment.lot_numbers, store_lot.
  cbn [purchase_lots with_purchase_lots].
  rewrite map_app, in_app_iff. cbn [map In l_lot_number]. intuition.
Qed.

(** C4, as worded, fails: once LOT20249999 is stored, two calls in a row
    both return LOT202410000, whose suffix has five characters. *)
Lemma numbering_stalls_past_the_width : ~ sequential_claim.
Proof.
  intros C.
  destruct (C env_2024 LotNumber store_lot 2%nat store eq_refl
              store_lot_persists) as (_ & H & _).
  vm_compute in H. discriminate.
Qed.

(** C4, amended: for each kind, when the stored identifiers under the
    lookup prefix are those of the numbers 1 to m (none when m is 0) and
    m + N stays below ten to the width of the kind, N calls made one after
    the other, each identifier stored before the next call, return the
    identifiers of m+1, ..., m+N: consecutive numbers, each suffix of the
    width of its kind. *)
Theorem sequential_allocation_consecutive env k persist (n : nat) d m :
  online d = true ->
  0 <= current_year env ->
  persists k persist ->
  seeded env k m d ->
  m + Z.of_nat n < 10 ^ Z.of_nat (width k) ->
  let ids := sequential_run env k persist n d in
  ids = map (identifier env k) (numbers_after m n)
  /\ List.length ids = n
  /\ consecutive (map (suffix_number env k) ids) = true
  /\ Forall (fun s => String.length (suffix_text env k s) = width k) ids.
Proof.
  intros On Hy P Sd Hlt ids. subst ids.
  pose proof Sd as (Hm & _).
  rewrite (sequential_run_seeded env k persist Hy P n m d) by (auto; lia).
  split; [reflexivity|split; [|split]].
  - now rewrite length_map, numbers_after_length.
  - now apply consecutive_numbers.
  - apply Forall_forall. intros s Hs.
    apply in_map_iff in Hs as (j & <- & Hj).
    apply numbers_after_bounds in Hj.
    rewrite suffix_text_identifier.
    apply (padded_numeral (width k) j (width_pos k)). lia.
Qed.

Lemma sequential_allocation_consecutive_witness :
  sequential_run env_2024 LotNumber store_lot 3 Db.empty
  = ["LOT20240001"; "LOT20240002"; "LOT20240003"]
  /\ consecutive
       (map (suffix_number env_2024 LotNumber)
          (sequential_run env_2024 LotNumber store_lot 3 Db.empty)) = true.
Proof.
  assert (Sd : seeded env_2024 LotNumber 0 Db.empty).
  { repeat split; [lia | intros s [] | lia]. }
  destruct (sequential_allocation_consecutive env_2024 LotNumber store_lot
              3 Db.empty 0 eq_refl ltac:(discriminate) store_lot_persists Sd
              eq_refl)
    as (E & _ & Cs & _).
  split; [exact E | exact Cs].
Defined.




(** As the router registers [GET /:id] before [GET /generate-number], a
    request for the latter path is answered by the former handler. *)
Remark generate_number_route_is_shadowed :
  Invoices.dispatch Invoices.GET ["generate-number"]
  = Some Invoices.get_invoice.
Proof. reflexivity. Qed.

(** C6, as worded, fails: when the lookup throws, the invoice route
    returns no identifier. *)
Lemma invoice_route_has_no_degraded_identifier : ~ degraded_identifier_claim.
Proof.
  intros C. destruct (C env_2024 InvoiceNumber offline eq_refl) as (tag & H).
  vm_compute in H. discriminate.
Qed.

(** C6, amended: when the lookup throws, the allocators of product codes,
    lot numbers and sale numbers return PRD, LOT and SALE followed by the
    clock's milliseconds and do not pass the failure on; the invoice
    route instead answers 500 with an error message. *)
Theorem lookup_failure_fallbacks env d :
  online d = false ->
  (forall c,
      Equipment.generateProductCode env c d
      = (d, Ok ("PRD" ++ string_of_Z (date_now env))))
  /\ Equipment.generateLotNumber env d
     = (d, Ok ("LOT" ++ string_of_Z (date_now env)))
  /\ Equipment.generateSaleNumber env d
     = (d, Ok ("SALE" ++ string_of_Z (date_now env)))
  /\ Invoices.generate_number env d
     = (d, Ok {| status := 500;
                 json := ErrorBody
                           "Erreur lors de la génération du numéro de facture"
              |}).
Proof.
  intros Off. split; [intros c|split; [|split]];
    unfold Equipment.generateProductCode, Equipment.generateLotNumber,
      Equipment.generateSaleNumber, Invoices.generate_number,
      try_catch, bind, ret;
    now rewrite select_offline by exact Off.
Qed.

Lemma lookup_failure_fallbacks_witness :
  Equipment.generateProductCode env_2024 (Some 12) offline
  = (offline, Ok "PRD1700000000000")
  /\ Equipment.generateLotNumber env_2024 offline
     = (offline, Ok "LOT1700000000000")
  /\ Equipment.generateSaleNumber env_2024 offline
     = (offline, Ok "SALE1700000000000")
  /\ Invoices.generate_number env_2024 offline
     = (offline,
        Ok {| status := 500;
              json := ErrorBody
                        "Erreur lors de la génération du numéro de facture"
           |}).
Proof.
  destruct (lookup_failure_fallbacks env_2024 offline eq_refl)
    as (P & L & S & I).
  split; [|split; [|split]];
    [rewrite (P (Some 12)) | rewrite L | rewrite S | rewrite I];
    reflexivity.
Defined.

End AllocatorProps.

(* ================================================================== *)
(** * Properties of the user update *)
(* ================================================================== *)

Module UsersProps.

Import Db Http Users Props Samples DbFacts.

Lemma layer_keeps {A} (g : user_row -> A) (o : option string)
    (mk : string -> assignment) :
  (forall v u, g (assign (mk v) u) = g u) ->
  forall u, g (layer o mk u) = g u.
Proof.
  intros K u. unfold layer, push_if_truthy.
  destruct o as [v|]; [|reflexivity].
  destruct (JS.truthy_string v); [apply K | reflexivity].
Qed.

Lemma layer_sets {A} (g : user_row -> A) (inj : string -> A)
    (o : option string) (mk : string -> assignment) :
  (forall v u, g (assign (mk v) u) = inj v) ->
  forall v u, supplied o v -> g (layer o mk u) = inj v.
Proof.
  intros K v u [-> T]. unfold layer, push_if_truthy. rewrite T. apply K.
Qed.

(** The update of an ordinary user is the seven free layers. *)
Lemma ordinary_update (b : update_body) (r : string) (u : user_row) :
  String.eqb r "admin" = false ->
  fold_left (fun x a => assign a x) (updateFields b r) u
  = layer (address b) set_address
      (layer (phone b) set_phone
         (layer (position b) set_position
            (layer (department b) set_department
               (layer (email b) set_email
                  (layer (lastName b) set_last_name
                     (layer (firstName b) set_first_name u)))))).
Proof.
  intros H. unfold updateFields, layer. rewrite H.
  destruct (salary b), (isActive b); rewrite !fold_left_app; reflexivity.
Qed.

Ltac through_layers g :=
  repeat (rewrite (layer_keeps g) by (intros; reflexivity)).

Lemma ordinary_update_guarded b r u :
  String.eqb r "admin" = false ->
  let u' := fold_left (fun x a => assign a x) (updateFields b r) u in
  u_id u' = u_id u /\ guarded u' = guarded u.
Proof.
  intros H u'. subst u'. rewrite (ordinary_update b r u H). split.
  - through_layers u_id. reflexivity.
  - through_layers guarded. reflexivity.
Qed.

Lemma ordinary_update_applied b r u :
  String.eqb r "admin" = false ->
  applied b (fold_left (fun x a => assign a x) (updateFields b r) u).
Proof.
  intros H. rewrite (ordinary_update b r u H).
  repeat split; intros v S.
  - through_layers u_first_name.
    now apply (layer_sets u_first_name (fun v => v)).
  - through_layers u_last_name.
    now apply (layer_sets u_last_name (fun v => v)).
  - through_layers u_email.
    now apply (layer_sets u_email (fun v => v)).
  - through_layers u_department.
    now apply (layer_sets u_department (@Some string)).
  - through_layers u_position.
    now apply (layer_sets u_position (@Some string)).
  - through_layers u_phone.
    now apply (layer_sets u_phone (@Some string)).
  - now apply (layer_sets u_address (@Some string)).
Qed.

Lemma is_nil_app {A} (a b : list A) : is_nil (a ++ b) = is_nil a && is_nil b.
Proof. destruct a; reflexivity. Qed.

Lemma push_supplied (o : option string) (mk : string -> assignment) v :
  supplied o v -> push_if_truthy o mk = [mk v].
Proof. intros [-> T]. unfold push_if_truthy. now rewrite T. Qed.

Lemma free_field_pushes b r :
  some_free_field b -> is_nil (updateFields b r) = false.
Proof.
  intros (v & H). unfold updateFields. rewrite !is_nil_app.
  destruct H as [H|[H|[H|[H|[H|[H|H]]]]]];
    rewrite (push_supplied _ _ v H); cbn [is_nil andb];
    rewrite ?andb_false_r; reflexivity.
Qed.

Lemma filter_none {A} (f : A -> bool) (l : list A) :
  (forall x, In x l -> f x = false) -> filter f l = [].
Proof.
  induction l as [|x r IH]; intros H; [reflexivity|].
  cbn [filter]. rewrite (H x) by now left.
  apply IH. intros y Hy. apply H. now right.
Qed.

Lemma filter_some {A} (f : A -> bool) (l : list A) (x : A) :
  In x l -> f x = true -> is_nil (filter f l) = false.
Proof.
  intros Hx Fx.
  assert (H : In x (filter f l)) by (apply filter_In; now split).
  destruct (filter f l); [destruct H | reflexivity].
Qed.

(** The statement the handler runs when the checks pass. *)
Lemma put_user_runs env b req me d :
  online d = true ->
  own_record env req me d ->
  some_free_field b ->
  email_free b me d ->
  put_user env [] b req d
  = (update_users env (updateFields b (Http.role me)) (params_id req) d,
     Ok {| status := 200;
           json := MessageBody "Utilisateur mis à jour avec succès" |}).
Proof.
  intros On (Hu & Na & Hp & Hid & (w & Hw & Ew)) Free Mail.
  unfold put_user. cbn [is_nil negb]. rewrite Hu.
  unfold differs_from_parsed. rewrite Hp, Z.eqb_refl, andb_false_r.
  unfold try_catch, bind. rewrite select_online by exact On.
  rewrite (filter_some _ (users d) w Hw)
    by (rewrite (Hid w Hw); now apply Z.eqb_eq).
  assert (Z0 : (match email b with
                | Some e =>
                    if JS.truthy_string e
                    then select (fun d0 =>
                           filter (fun u => String.eqb (u_email u) e
                                            && negb (sql_int_eq env (u_id u)
                                                       (params_id req)))
                             (users d0))
                    else ret []
                | None => ret []
                end) d = (d, Ok [])).
  { destruct (email b) as [e|] eqn:E; [|reflexivity].
    destruct (JS.truthy_string e) eqn:T; [|reflexivity].
    rewrite select_online by exact On. rewrite filter_none; [reflexivity|].
    intros x Hx. apply not_true_is_false. intros Bx.
    apply andb_true_iff in Bx as [B1 B2].
    apply String.eqb_eq in B1. apply negb_true_iff in B2.
    rewrite (Hid x Hx) in B2. apply Z.eqb_neq in B2.
    apply (Mail e x); auto. split; [exact E | exact T]. }
  rewrite Z0. cbn [is_nil negb].
  rewrite (free_field_pushes b (Http.role me) Free).
  unfold execute. rewrite On. reflexivity.
Qed.

(** A supplied email held by another account stops the handler before
    any write. *)
Lemma put_user_email_conflict env b req me d e other :
  online d = true ->
  own_record env req me d ->
  supplied (email b) e ->
  In other (users d) -> u_id other <> id me -> u_email other = e ->
  put_user env [] b req d
  = (d, Ok {| status := 400;
              json := ErrorBody "Cet email est déjà utilisé" |}).
Proof.
  intros On (Hu & Na & Hp & Hid & (w & Hw & Ew)) [E T] Ho Hne He.
  unfold put_user. cbn [is_nil negb]. rewrite Hu.
  unfold differs_from_parsed. rewrite Hp, Z.eqb_refl, andb_false_r.
  unfold try_catch, bind. rewrite select_online by exact On.
  rewrite (filter_some _ (users d) w Hw)
    by (rewrite (Hid w Hw); now apply Z.eqb_eq).
  rewrite E, T. rewrite select_online by exact On.
  rewrite (filter_some _ (users d) other Ho); [reflexivity|].
  rewrite (Hid other Ho), He, String.eqb_refl.
  apply Z.eqb_neq in Hne. now rewrite Hne.
Qed.

(** ** Frame rules for the guarded columns *)

Lemma kg_ret {A} (a : A) : keeps_guarded (ret a).
Proof. intros d. reflexivity. Qed.

Lemma kg_throw {A} : keeps_guarded (fun d => (d, @Thrown A)).
Proof. intros d. reflexivity. Qed.

Lemma kg_select {A} (q : database -> list A) : keeps_guarded (select q).
Proof. intros d. unfold select. now destruct (online d). Qed.

Lemma kg_bind {A B} (m : io A) (k : A -> io B) :
  keeps_guarded m -> (forall a, keeps_guarded (k a)) ->
  keeps_guarded (bind m k).
Proof.
  intros Hm Hk d. unfold bind. specialize (Hm d).
  destruct (m d) as [d' [a|]]; cbn [fst] in *; [|exact Hm].
  now rewrite (Hk a d').
Qed.

Lemma kg_try {A} (m h : io A) :
  keeps_guarded m -> keeps_guarded h -> keeps_guarded (try_catch m h).
Proof.
  intros Hm Hh d. unfold try_catch. specialize (Hm d).
  destruct (m d) as [d' [a|]]; cbn [fst] in *; [exact Hm|].
  now rewrite (Hh d').
Qed.

Lemma kg_update env b r idp :
  String.eqb r "admin" = false ->
  keeps_guarded (execute (update_users env (updateFields b r) idp)).
Proof.
  intros H d. unfold execute. destruct (online d); [|reflexivity].
  cbn [fst]. unfold update_users. cbn [users with_users].
  rewrite map_map. apply map_ext. intros u.
  destruct (sql_int_eq env (u_id u) idp); [|reflexivity].
  now apply ordinary_update_guarded.
Qed.

Ltac frame :=
  repeat first
    [ apply kg_ret
    | apply kg_throw
    | apply kg_select
    | apply kg_try
    | apply kg_bind; [|intros ?]
    | match goal with
      | |- keeps_guarded (if ?c then _ else _) => destruct c
      | |- keeps_guarded (match ?x with _ => _ end) => destruct x
      end ].

(** Whatever the handler answers to an ordinary user, the guarded columns
    of every row are as before. *)
Lemma put_user_guarded_frame env errors b req me :
  user req = Some me ->
  Http.role me <> "admin" ->
  keeps_guarded (put_user env errors b req).
Proof.
  intros Hu Na. unfold put_user. rewrite Hu. cbv zeta. frame.
  apply kg_update. now apply String.eqb_neq.
Qed.

(** C9, as worded, fails: Alice changes her department and asks for the
    address of Bob; the answer is 400 and the department is not applied. *)
Lemma taken_email_blocks_the_update : ~ self_update_claim.
Proof.
  intros C.
  assert (Own : own_record env_2024 (request_of None "1" (Some alice))
                  (identity_of alice) store).
  { repeat split; try discriminate.
    - intros u [<-|[<-|[<-|[]]]]; reflexivity.
    - exists alice. split; [now left | reflexivity]. }
  assert (Free : some_free_field taken_email).
  { exists "Sales". right. right. right. left. now split. }
  destruct (C env_2024 taken_email _ _ store eq_refl Own Free) as (H & _).
  vm_compute in H. discriminate.
Qed.

(** C9, amended: when an identity that is not an administrator updates
    its own record, the stored role, salary and is_active of every row
    stay as they are whatever the body carries and whatever the answer;
    and when the request passes validation, the record exists, at least
    one of the other fields is supplied with a non-empty value and the
    supplied email, if any, belongs to no other account, the answer is
    200, every such field is in the record and the other rows are
    untouched. *)
Theorem ordinary_self_update env errors b req me d :
  user req = Some me ->
  Http.role me <> "admin" ->
  map guarded (users (fst (put_user env errors b req d)))
  = map guarded (users d)
  /\ (online d = true ->
      own_record env req me d ->
      some_free_field b ->
      email_free b me d ->
      self_update_done b me d (put_user env [] b req d))
  /\ (online d = true ->
      own_record env req me d ->
      forall e other,
        supplied (email b) e ->
        In other (users d) -> u_id other <> id me -> u_email other = e ->
        put_user env [] b req d
        = (d, Ok {| status := 400;
                    json := ErrorBody "Cet email est déjà utilisé" |})).
Proof.
  intros Hu Na.
  split; [exact (put_user_guarded_frame env errors b req me Hu Na d)|].
  split; [|intros On Own e other; now apply put_user_email_conflict].
  intros On Own Free Mail.
  pose proof Own as (_ & _ & _ & Hid & _).
  assert (Adm : String.eqb (Http.role me) "admin" = false)
    by now apply String.eqb_neq.
  unfold self_update_done.
  rewrite (put_user_runs env b req me d On Own Free Mail).
  cbn [fst snd]. unfold update_users. cbn [users with_users].
  split; [reflexivity|]. split; [|split; [|split]].
  - rewrite map_map. apply map_ext. intros u.
    destruct (sql_int_eq env (u_id u) (params_id req)); [|reflexivity].
    now apply ordinary_update_guarded.
  - rewrite map_map. apply map_ext. intros u.
    destruct (sql_int_eq env (u_id u) (params_id req)); [|reflexivity].
    now apply ordinary_update_guarded.
  - intros u' Hu' Hme. apply in_map_iff in Hu' as (u & <- & Hin).
    destruct (sql_int_eq env (u_id u) (params_id req)) eqn:E.
    + now apply ordinary_update_applied.
    + rewrite (Hid u Hin) in E. apply Z.eqb_neq in E. contradiction.
  - intros u' Hu' Hme. apply in_map_iff in Hu' as (u & <- & Hin).
    destruct (sql_int_eq env (u_id u) (params_id req)) eqn:E;
      [|exact Hin].
    exfalso. apply Hme.
    rewrite (proj1 (ordinary_update_guarded b (Http.role me) u Adm)).
    rewrite (Hid u Hin) in E. now apply Z.eqb_eq.
Qed.

Lemma ordinary_self_update_witness :
  put_user env_2024 [] promotion (request_of None "1" (Some alice)) store
  = (update_users env_2024 [set_department "Sales"] "1" store,
     Ok {| status := 200;
           json := MessageBody "Utilisateur mis à jour avec succès" |})
  /\ self_update_done promotion (identity_of alice) store
       (put_user env_2024 [] promotion (request_of None "1" (Some alice))
          store).
Proof.
  split; [reflexivity|].
  assert (Na : Http.role (identity_of alice) <> "admin") by discriminate.
  apply (proj1 (proj2 (ordinary_self_update env_2024 [] promotion
                         (request_of None "1" (Some alice))
                         (identity_of alice) store eq_refl Na))).
  - reflexivity.
  - repeat split; try discriminate.
    + intros u [<-|[<-|[<-|[]]]]; reflexivity.
    + exists alice. split; [now left | reflexivity].
  - exists "Sales". right. right. right. left. now split.
  - intros e u [E _]. discriminate.
Defined.

End UsersProps.

(* ================================================================== *)
(** * Properties of the point of sale *)
(* ================================================================== *)

Module SalesProps.

Import Db Http Sales Props Samples DbFacts.

Local Open Scope list_scope.

Lemma sold_out_step (it : item) (r : list item) (p : product_row) :
  sold_out r
    (if pr_id p =? product_id it then
       {| pr_id := pr_id p; pr_product_code := pr_product_code p;
          pr_current_stock := pr_current_stock p - quantity it |}
     else p)
  = sold_out (it :: r) p.
Proof.
  unfold sold_out. cbn [sold_quantity].
  rewrite (Z.eqb_sym (product_id it) (pr_id p)).
  destruct (pr_id p =? product_id it); cbn [pr_id pr_product_code
                                             pr_current_stock];
    f_equal; lia.
Qed.

Lemma sold_out_nil (p : product_row) : sold_out [] p = p.
Proof.
  unfold sold_out. cbn [sold_quantity]. destruct p as [i c s].
  cbn [pr_id pr_product_code pr_current_stock]. f_equal. lia.
Qed.

(** The three statements run for one item. *)
Lemma item_effect (saleId userId : Z) (it : item) (d : database) :
  online d = true ->
  (_ <- insert_sale_item (sale_item_of saleId it) ;;
   _ <- decrement_stock (quantity it) (product_id it) ;;
   insert_movement (movement_of saleId userId it)) d
  = (with_stock_movements
       (stock_movements d ++ [movement_of saleId userId it])
       (with_products
          (map (fun p =>
                  if pr_id p =? product_id it then
                    {| pr_id := pr_id p;
                       pr_product_code := pr_product_code p;
                       pr_current_stock := pr_current_stock p - quantity it |}
                  else p)
             (products d))
          (with_sale_items (sale_items d ++ [sale_item_of saleId it]) d)),
     Ok tt).
Proof.
  intros On.
  unfold bind, insert_sale_item, decrement_stock, insert_movement, execute.
  rewrite On. cbn [online with_sale_items]. rewrite On.
  cbn [online with_products with_sale_items]. rewrite On.
  reflexivity.
Qed.

(** The loop over the items, on a reachable store: every statement runs,
    and the three tables it writes end as stated. *)
Lemma loop_effect (saleId userId : Z) (l : list item) :
  forall d,
    online d = true ->
    exists d',
      for_each l
        (fun it =>
           _ <- insert_sale_item (sale_item_of saleId it) ;;
           _ <- decrement_stock (quantity it) (product_id it) ;;
           insert_movement (movement_of saleId userId it)) d
      = (d', Ok tt)
      /\ online d' = true
      /\ products d' = map (sold_out l) (products d)
      /\ stock_movements d'
         = stock_movements d ++ map (movement_of saleId userId) l
      /\ sale_items d' = sale_items d ++ map (sale_item_of saleId) l
      /\ sales d' = sales d
      /\ sales_auto_increment d' = sales_auto_increment d.
Proof.
  induction l as [|it l IH]; intros d On.
  - exists d. cbn [for_each map]. unfold ret.
    rewrite !app_nil_r. repeat split; auto.
    rewrite <- (map_id (products d)) at 1.
    apply map_ext. intros p. symmetry. apply sold_out_nil.
  - cbn [for_each]. unfold bind at 1.
    rewrite (item_effect saleId userId it d On).
    match goal with
    | |- context [for_each l ?f ?d1] =>
        destruct (IH d1 On) as (d' & R & O & P & M & S & Sa & Au)
    end.
    exists d'. rewrite R, O, P, M, S, Sa, Au.
    cbn [products stock_movements sale_items sales sales_auto_increment
           with_sale_items with_products with_stock_movements map].
    repeat split.
    + rewrite map_map. apply map_ext. intros p. apply sold_out_step.
    + now rewrite <- app_assoc.
    + now rewrite <- app_assoc.
Qed.




End SalesProps.

(* ================================================================== *)
(** * Further properties of the access-control layer *)
(* ================================================================== *)

Module AuthMore.

Import Db Http Auth Props More DbFacts.

Ltac run_io :=
  unfold try_catch, bind, ret;
  repeat (rewrite select_online by assumption).

(** X1: a token that verifies, for an account whose first row is active,
    lets the request through with the id, email, role and activity of
    that row attached, the header and the path as they came. *)
Theorem authenticateToken_attaches_identity env req d t uid u rest :
  token_of (authorization req) = Some t ->
  JS.truthy_string t = true ->
  jwt_verify env t = Some uid ->
  online d = true ->
  filter (fun r => u_id r =? uid) (users d) = u :: rest ->
  u_is_active u = true ->
  authenticateToken env req d
  = (d, Ok ({| authorization := authorization req;
               params_id := params_id req;
               user := Some {| id := uid; email := u_email u;
                               role := u_role u; is_active := true |} |},
            Next)).
Proof.
  intros Ht Tr V On F A. unfold authenticateToken.
  rewrite Ht. cbn [falsy_token]. rewrite Tr. cbn [negb].
  unfold try_catch, bind. rewrite V. rewrite select_online by exact On.
  unfold users_by_id. rewrite F. cbn [map identity_of is_active].
  rewrite A. cbn [negb]. unfold ret, set_user, identity_of. rewrite A.
  assert (Hu : In u (filter (fun r => u_id r =? uid) (users d)))
    by (rewrite F; now left).
  apply filter_In in Hu as [_ Hid]. apply Z.eqb_eq in Hid.
  now rewrite Hid.
Qed.

Lemma authenticateToken_attaches_identity_witness :
  authenticateToken env
    (Samples.request_of (Some "Bearer t2") "10" None) office
  = (office,
     Ok ({| authorization := Some "Bearer t2"; params_id := "10";
            user := Some {| id := 2; email := "b@x.com";
                            role := "manager"; is_active := true |} |},
         Next)).
Proof.
  apply (authenticateToken_attaches_identity env
           (Samples.request_of (Some "Bearer t2") "10" None) office
           "t2" 2 Samples.bob []); reflexivity.
Defined.

(** X2: when the token verifies but the lookup of the account throws, the
    answer is the 403 of an invalid token. *)
Theorem lookup_failure_is_answered_403 env req d t uid :
  token_of (authorization req) = Some t ->
  JS.truthy_string t = true ->
  jwt_verify env t = Some uid ->
  online d = false ->
  authenticateToken env req d
  = (d, Ok (req, respond 403 (ErrorBody "Token invalide"))).
Proof.
  intros Ht Tr V Off. unfold authenticateToken.
  rewrite Ht. cbn [falsy_token]. rewrite Tr. cbn [negb].
  unfold try_catch, bind. rewrite V.
  now rewrite select_offline by exact Off.
Qed.

Lemma lookup_failure_is_answered_403_witness :
  authenticateToken env
    (Samples.request_of (Some "Bearer t2") "10" None) office_down
  = (office_down,
     Ok (Samples.request_of (Some "Bearer t2") "10" None,
         respond 403 (ErrorBody "Token invalide"))).
Proof.
  apply (lookup_failure_is_answered_403 env _ office_down "t2" 2);
    reflexivity.
Defined.

Lemma split_acc_spaceless (a : string) :
  forall cur, spaceless a = true -> JS.split_acc " " cur a = [cur ++ a].
Proof.
  induction a as [|c a IH]; intros cur H.
  - cbn [JS.split_acc]. now rewrite JSFacts.app_empty_r.
  - cbn [spaceless] in H. apply andb_true_iff in H as [Hc H].
    apply negb_true_iff in Hc. cbn [JS.split_acc]. rewrite Hc.
    rewrite (IH _ H), JSFacts.app_assoc. reflexivity.
Qed.

Lemma split_acc_space (a : string) :
  forall cur rest, spaceless a = true ->
    JS.split_acc " " cur (a ++ String " " rest)
    = (cur ++ a) :: JS.split_acc " " "" rest.
Proof.
  induction a as [|c a IH]; intros cur rest H.
  - cbn [append JS.split_acc]. change (Ascii.eqb " " " ") with true.
    cbv iota. now rewrite JSFacts.app_empty_r.
  - cbn [spaceless] in H. apply andb_true_iff in H as [Hc H].
    apply negb_true_iff in Hc. cbn [append JS.split_acc]. rewrite Hc.
    rewrite (IH _ _ H), JSFacts.app_assoc. reflexivity.
Qed.

(** X3: a header without a space is answered with 401 whatever it holds,
    and in a header of two words the second is taken for the token
    whatever the first is: the scheme is not looked at. *)
Theorem token_is_the_second_word env req d :
  (forall h, authorization req = Some h -> spaceless h = true ->
             authenticateToken env req d
             = (d, Ok (req, respond 401 (ErrorBody "Token d'accès requis"))))
  /\ (forall scheme t,
         spaceless scheme = true -> spaceless t = true ->
         token_of (Some (scheme ++ String " " t)) = Some t).
Proof.
  split.
  - intros h Hh Sp. unfold authenticateToken. rewrite Hh.
    assert (F : falsy_token (token_of (Some h)) = true).
    { unfold token_of. destruct (JS.truthy_string h) eqn:T.
      - unfold JS.split. now rewrite split_acc_spaceless.
      - cbn [falsy_token]. now rewrite T. }
    now rewrite F.
  - intros scheme t Ss St. unfold token_of.
    assert (T : JS.truthy_string (scheme ++ String " " t) = true)
      by (destruct scheme; reflexivity).
    rewrite T. unfold JS.split.
    rewrite split_acc_space by exact Ss.
    now rewrite split_acc_spaceless by exact St.
Qed.

Lemma token_is_the_second_word_witness :
  authenticateToken env (Samples.request_of (Some "t2") "10" None) office
  = (office, Ok (Samples.request_of (Some "t2") "10" None,
                 respond 401 (ErrorBody "Token d'accès requis")))
  /\ token_of (Some "Basic t2") = Some "t2".
Proof.
  split.
  - apply (proj1 (token_is_the_second_word env
                    (Samples.request_of (Some "t2") "10" None) office)
             "t2"); reflexivity.
  - apply (proj2 (token_is_the_second_word env
                    (Samples.request_of None "" None) office)
             "Basic" "t2"); reflexivity.
Defined.

(** X4: the two asynchronous functions of the layer always answer or call
    next, they never throw, and they leave the store as they found it. *)
Theorem access_layer_reads_only env kind req d :
  (exists x, authenticateToken env req d = (d, Ok x))
  /\ (exists o, checkResourceAccess env kind req d = (d, Ok o)).
Proof.
  split.
  - unfold authenticateToken.
    destruct (falsy_token (token_of (authorization req)));
      [unfold ret; eauto|].
    unfold try_catch, bind, select, ret.
    destruct (jwt_verify env _); [|eauto].
    destruct (online d); [|eauto].
    destruct (users_by_id z d) as [|u l]; [eauto|].
    destruct (negb (is_active u)); eauto.
  - unfold checkResourceAccess, try_catch.
    destruct (user req) as [u|]; [|unfold ret; eauto].
    destruct (String.eqb (role u) "admin"); [unfold ret; eauto|].
    unfold bind, select, ret.
    destruct (String.eqb kind "project");
      [destruct (online d); [|eauto];
       destruct (negb (nonempty _)); eauto|].
    destruct (String.eqb kind "client");
      [destruct (online d); [|eauto];
       destruct (negb (nonempty _)); eauto|].
    destruct (String.eqb kind "invoice");
      [destruct (online d); [|eauto];
       destruct (negb (nonempty _)); eauto|].
    cbn [negb]. eauto.
Qed.

(** X5: for the invoice kind, an identity that is not an administrator
    is let through exactly when an invoice of the route's id was created
    by it, and is answered with 403 otherwise, also when the invoice
    exists and was created by someone else. *)
Theorem invoice_access_policy env req u d :
  user req = Some u ->
  role u <> "admin" ->
  online d = true ->
  ((exists i, In i (invoices d)
              /\ sql_int_eq env (i_id i) (params_id req) = true
              /\ i_created_by i = Some (id u)) ->
   checkResourceAccess env "invoice" req d = (d, Ok Next))
  /\ ((forall i, In i (invoices d) ->
                 sql_int_eq env (i_id i) (params_id req) = true ->
                 i_created_by i <> Some (id u)) ->
      checkResourceAccess env "invoice" req d
      = (d, Ok (respond 403
                  (ErrorBody "Accès non autorisé à cette ressource")))).
Proof.
  intros Hu Na On. unfold checkResourceAccess. rewrite Hu.
  rewrite (AuthProps.not_admin _ Na).
  change (String.eqb "invoice" "project") with false.
  change (String.eqb "invoice" "client") with false.
  change (String.eqb "invoice" "invoice") with true.
  cbv iota. run_io.
  unfold created_invoices.
  rewrite AuthProps.nonempty_map, AuthProps.nonempty_filter.
  split.
  - intros (i & Hi & E & C).
    assert (X : existsb
                  (fun i => sql_int_eq env (i_id i) (params_id req)
                            && match i_created_by i with
                               | Some c => c =? id u
                               | None => false
                               end)
                  (invoices d) = true).
    { apply existsb_exists. exists i. split; [exact Hi|].
      now rewrite E, C, Z.eqb_refl. }
    now rewrite X.
  - intros Hno.
    assert (X : existsb
                  (fun i => sql_int_eq env (i_id i) (params_id req)
                            && match i_created_by i with
                               | Some c => c =? id u
                               | None => false
                               end)
                  (invoices d) = false).
    { apply not_true_is_false. intros H.
      apply existsb_exists in H as (i & Hi & H).
      apply andb_true_iff in H as [E C].
      destruct (i_created_by i) as [c|] eqn:Ec; [|discriminate].
      apply Z.eqb_eq in C. subst c. now apply (Hno i Hi E). }
    now rewrite X.
Qed.

Lemma invoice_access_policy_witness :
  checkResourceAccess env "invoice"
    (Samples.request_of None "30" (Some Samples.alice)) office
  = (office, Ok Next)
  /\ checkResourceAccess env "invoice"
       (Samples.request_of None "30" (Some Samples.bob)) office
     = (office, Ok (respond 403
                      (ErrorBody "Accès non autorisé à cette ressource"))).
Proof.
  assert (Na : role (identity_of Samples.alice) <> "admin") by discriminate.
  assert (Nb : role (identity_of Samples.bob) <> "admin") by discriminate.
  split.
  - apply (proj1 (invoice_access_policy env
                    (Samples.request_of None "30" (Some Samples.alice))
                    (identity_of Samples.alice) office eq_refl Na eq_refl)).
    exists {| i_id := 30; i_invoice_number := "INV-2024-0001";
              i_created_by := Some 1 |}.
    repeat split. now left.
  - apply (proj2 (invoice_access_policy env
                    (Samples.request_of None "30" (Some Samples.bob))
                    (identity_of Samples.bob) office eq_refl Nb eq_refl)).
    intros i [<-|[]] _. discriminate.
Defined.

(** X6: an administrator, whatever the kind, and any identity for a kind
    other than project, client and invoice, are let through without a
    lookup: also when the store cannot be reached. *)
Theorem access_granted_without_lookup env kind req u d :
  user req = Some u ->
  role u = "admin" \/ registered_kind kind = false ->
  checkResourceAccess env kind req d = (d, Ok Next).
Proof.
  intros Hu H. unfold checkResourceAccess. rewrite Hu.
  destruct (String.eqb (role u) "admin") eqn:A; [reflexivity|].
  destruct H as [H|H]; [rewrite H in A; discriminate|].
  unfold registered_kind in H.
  apply orb_false_iff in H as [H H3].
  apply orb_false_iff in H as [H1 H2].
  now rewrite H1, H2, H3.
Qed.

Lemma access_granted_without_lookup_witness :
  checkResourceAccess env "project"
    (Samples.request_of None "99" (Some dave)) office_down
  = (office_down, Ok Next)
  /\ checkResourceAccess env "subscription"
       (Samples.request_of None "99" (Some Samples.alice)) office_down
     = (office_down, Ok Next).
Proof.
  split.
  - apply (access_granted_without_lookup env "project" _ (identity_of dave));
      [reflexivity | now left].
  - apply (access_granted_without_lookup env "subscription" _
             (identity_of Samples.alice)); [reflexivity | now right].
Defined.

(** X7: the check answers 500, and never lets through, when the request
    carries no identity, and when the lookup throws for an identity that
    is not an administrator and a kind that has a lookup. *)
Theorem access_check_failure_is_500 env kind req d :
  (user req = None
   \/ exists u, user req = Some u /\ role u <> "admin"
                /\ registered_kind kind = true /\ online d = false) ->
  checkResourceAccess env kind req d
  = (d, Ok (respond 500
              (ErrorBody "Erreur de vérification des permissions"))).
Proof.
  intros [H|(u & Hu & Na & K & Off)]; unfold checkResourceAccess.
  - now rewrite H.
  - rewrite Hu, (AuthProps.not_admin _ Na).
    unfold registered_kind in K. unfold try_catch, bind.
    destruct (String.eqb kind "project");
      [now rewrite select_offline by exact Off|].
    destruct (String.eqb kind "client");
      [now rewrite select_offline by exact Off|].
    destruct (String.eqb kind "invoice"); [|discriminate].
    now rewrite select_offline by exact Off.
Qed.

Lemma access_check_failure_is_500_witness :
  checkResourceAccess env "project"
    (Samples.request_of None "10" None) office
  = (office, Ok (respond 500
                   (ErrorBody "Erreur de vérification des permissions")))
  /\ checkResourceAccess env "client"
       (Samples.request_of None "5" (Some Samples.alice)) office_down
     = (office_down,
        Ok (respond 500
              (ErrorBody "Erreur de vérification des permissions"))).
Proof.
  split.
  - apply access_check_failure_is_500. now left.
  - apply access_check_failure_is_500. right.
    exists (identity_of Samples.alice).
    repeat split. discriminate.
Defined.

End AuthMore.

(* ================================================================== *)
(** * Properties of guarded routes and of the two deletions *)
(* ================================================================== *)

Module RoutesProps.

Import Db Http Auth Routes Props More DbFacts.

(** What [authenticateToken] does with a request: one of its denials, or
    next with the identity of an active account of the store. *)
Lemma authenticateToken_cases env req d :
  (exists a,
      authenticateToken env req d = (d, Ok (req, Responded a))
      /\ (status a = 401 \/ status a = 403))
  \/ (exists t u,
         token_of (authorization req) = Some t
         /\ jwt_verify env t = Some (u_id u)
         /\ In u (users d)
         /\ u_is_active u = true
         /\ authenticateToken env req d
            = (d, Ok (set_user (identity_of u) req, Next))).
Proof.
  unfold authenticateToken.
  destruct (token_of (authorization req)) as [t|] eqn:Ht;
    cbn [falsy_token];
    [|left; eexists; split; [reflexivity | now left]].
  destruct (JS.truthy_string t) eqn:Tr; cbn [negb];
    [|left; eexists; split; [reflexivity | now left]].
  unfold try_catch, bind.
  destruct (jwt_verify env t) as [uid|] eqn:V;
    [|left; eexists; split; [reflexivity | now right]].
  unfold select. destruct (online d) eqn:On;
    [|left; eexists; split; [reflexivity | now right]].
  unfold users_by_id.
  destruct (filter (fun u => u_id u =? uid) (users d)) as [|u l] eqn:F;
    cbn [map]; [left; eexists; split; [reflexivity | now left]|].
  assert (Hu : In u (filter (fun u => u_id u =? uid) (users d)))
    by (rewrite F; now left).
  apply filter_In in Hu as [Hin Hid]. apply Z.eqb_eq in Hid.
  cbn [identity_of is_active].
  destruct (u_is_active u) eqn:A; cbn [negb];
    [|left; eexists; split; [reflexivity | now left]].
  right. exists t, u. subst uid. unfold identity_of. rewrite A.
  repeat split; auto.
Qed.

(** What a route that starts with [authenticateToken] and [authorize]
    does with a request: one of the denials of the two, the store as it
    was, or its handler on the request with an allowed identity. *)
Lemma guarded_route_cases env (roles : list string)
    (h : request -> io response) req d :
  (exists a,
      run_route [authenticateToken env; authorized roles] h req d
      = (d, Ok a)
      /\ (status a = 401 \/ status a = 403))
  \/ (exists t u,
         token_of (authorization req) = Some t
         /\ jwt_verify env t = Some (u_id u)
         /\ In u (users d)
         /\ u_is_active u = true
         /\ In (u_role u) roles
         /\ run_route [authenticateToken env; authorized roles] h req d
            = h (set_user (identity_of u) req) d).
Proof.
  cbn [run_route]. unfold bind.
  destruct (authenticateToken_cases env req d)
    as [(a & E & St)|(t & u & Ht & V & Hin & A & E)]; rewrite E.
  - left. exists a. split; [reflexivity | exact St].
  - cbn [snd fst]. unfold authorized, ret. cbn [snd fst].
    unfold authorize. cbn [user set_user role identity_of].
    destruct (existsb (String.eqb (u_role u)) roles) eqn:X; cbn [negb].
    + right. exists t, u.
      apply AuthProps.existsb_eqb_In in X. repeat split; auto.
    + left. eexists. split; [reflexivity | now right].
Qed.

(** X8: on a route that registers authenticateToken and then authorize,
    either the request is answered with 401 or 403 and the store is left
    as it was, or the handler runs, on the request carrying the identity
    of an active account of the store whose role is in the list: no
    handler of such a route runs for another role or without identity. *)
Theorem guarded_route_runs_for_allowed_roles_only env (roles : list string)
    (h : request -> io response) req d :
  (exists a,
      run_route [authenticateToken env; authorized roles] h req d
      = (d, Ok a)
      /\ (status a = 401 \/ status a = 403))
  \/ (exists t u,
         token_of (authorization req) = Some t
         /\ jwt_verify env t = Some (u_id u)
         /\ In u (users d)
         /\ u_is_active u = true
         /\ In (u_role u) roles
         /\ run_route [authenticateToken env; authorized roles] h req d
            = h (set_user (identity_of u) req) d).
Proof. apply guarded_route_cases. Qed.

Lemma delete_user_outcomes env req d :
  fst (delete_user env req d) = d
  \/ (exists me,
         user req = Some me
         /\ equals_parsed (id me) (params_id req) = false
         /\ online d = true
         /\ delete_user env req d
            = (with_users
                 (filter
                    (fun u => negb (sql_int_eq env (u_id u) (params_id req)))
                    (users d))
                 d,
               Ok {| status := 200;
                     json := MessageBody "Utilisateur supprimé avec succès"
                  |})).
Proof.
  unfold delete_user, try_catch.
  destruct (user req) as [me|]; [|now left].
  destruct (equals_parsed (id me) (params_id req)) eqn:E; [now left|].
  unfold bind, select, execute, ret.
  destruct (online d) eqn:On; [|now left].
  destruct (Users.is_nil _); [now left|].
  rewrite On. right. exists me. auto.
Qed.

(** X9: when an identity deletes an account other than the one its id
    parses to, and a row matches the path, the answer is 200, the rows
    the path matches are gone and every other row is kept, in order. *)
Theorem delete_user_removes_the_matched_rows env req me d target :
  user req = Some me ->
  equals_parsed (id me) (params_id req) = false ->
  online d = true ->
  In target (users d) ->
  sql_int_eq env (u_id target) (params_id req) = true ->
  delete_user env req d
  = (with_users
       (filter (fun u => negb (sql_int_eq env (u_id u) (params_id req)))
          (users d))
       d,
     Ok {| status := 200;
           json := MessageBody "Utilisateur supprimé avec succès" |}).
Proof.
  intros Hu E On Ht M. unfold delete_user. rewrite Hu, E.
  unfold try_catch, bind. rewrite select_online by exact On.
  rewrite (UsersProps.filter_some _ (users d) target Ht M).
  unfold execute. now rewrite On.
Qed.

Lemma delete_user_removes_the_matched_rows_witness :
  users (fst (delete_user env
                (Samples.request_of None "1" (Some dave)) office))
  = [Samples.bob; Samples.carol; dave].
Proof.
  rewrite (delete_user_removes_the_matched_rows env
             (Samples.request_of None "1" (Some dave)) (identity_of dave)
             office Samples.alice eq_refl eq_refl eq_refl
             ltac:(now left) eq_refl).
  reflexivity.
Defined.

(** X10: the account that asks for a deletion is still in the store
    afterwards, whatever the path and the answer, as long as the engine
    matches the id of that account only to a path that parses to it. *)
Theorem delete_user_keeps_the_actor env req me d row :
  user req = Some me ->
  In row (users d) ->
  u_id row = id me ->
  (sql_int_eq env (id me) (params_id req) = true ->
   JS.parseInt (params_id req) = Some (id me)) ->
  In row (users (fst (delete_user env req d))).
Proof.
  intros Hu Hr Hid Agree.
  destruct (delete_user_outcomes env req d) as [->|(me' & Hu' & E & _ & ->)];
    [exact Hr|].
  rewrite Hu in Hu'. injection Hu' as <-.
  cbn [fst users with_users]. apply filter_In. split; [exact Hr|].
  apply negb_true_iff. apply not_true_is_false. intros M.
  rewrite Hid in M. specialize (Agree M).
  unfold equals_parsed in E. rewrite Agree, Z.eqb_refl in E. discriminate.
Qed.

Lemma delete_user_keeps_the_actor_witness :
  In dave (users (fst (delete_user env
                         (Samples.request_of None "4" (Some dave)) office)))
  /\ In dave (users (fst (delete_user env
                            (Samples.request_of None "1" (Some dave))
                            office))).
Proof.
  split.
  - apply (delete_user_keeps_the_actor env _ (identity_of dave) office dave);
      [reflexivity | cbn; tauto | reflexivity | reflexivity].
  - apply (delete_user_keeps_the_actor env _ (identity_of dave) office dave);
      [reflexivity | cbn; tauto | reflexivity | discriminate].
Defined.

(** X11: through its route, the deletion changes the users table only
    for a token that verifies to an active administrator of the store. *)
Theorem only_administrators_delete_users env req d :
  users (fst (delete_user_route env req d)) <> users d ->
  exists t u,
    token_of (authorization req) = Some t
    /\ jwt_verify env t = Some (u_id u)
    /\ In u (users d)
    /\ u_is_active u = true
    /\ u_role u = "admin".
Proof.
  intros Changed. unfold delete_user_route in Changed.
  destruct (guarded_route_cases env ["admin"] (delete_user env) req d)
    as [(a & E & _)|(t & u & Ht & V & Hin & A & R & _)].
  - rewrite E in Changed. now destruct Changed.
  - exists t, u. repeat split; auto.
    destruct R as [R|[]]. now symmetry.
Qed.

Lemma only_administrators_delete_users_witness :
  users (fst (delete_user_route env
                (Samples.request_of (Some "Bearer t4") "1" None) office))
  = [Samples.bob; Samples.carol; dave]
  /\ exists t u,
       token_of (Some "Bearer t4") = Some t
       /\ jwt_verify env t = Some (u_id u)
       /\ In u (users office)
       /\ u_is_active u = true
       /\ u_role u = "admin".
Proof.
  split; [reflexivity|].
  apply (only_administrators_delete_users env
           (Samples.request_of (Some "Bearer t4") "1" None) office).
  vm_compute. discriminate.
Defined.

(** X12: once a project is deleted, the access check of the project kind
    answers 403 on the same path to every identity that is not an
    administrator, its former manager included. *)
Theorem deleted_project_is_closed env req d target :
  online d = true ->
  In target (projects d) ->
  sql_int_eq env (p_id target) (params_id req) = true ->
  exists d',
    delete_project env req d
    = (d', Ok {| status := 200;
                 json := MessageBody "Projet supprimé avec succès" |})
    /\ forall req' u,
         params_id req' = params_id req ->
         user req' = Some u ->
         role u <> "admin" ->
         checkResourceAccess env "project" req' d'
         = (d', Ok (respond 403
                      (ErrorBody "Accès non autorisé à cette ressource"))).
Proof.
  intros On Ht M.
  exists (with_projects
            (filter (fun p => negb (sql_int_eq env (p_id p) (params_id req)))
               (projects d))
            d).
  split.
  - unfold delete_project, try_catch, bind.
    rewrite select_online by exact On.
    rewrite (UsersProps.filter_some _ (projects d) target Ht M).
    unfold execute. now rewrite On.
  - intros req' u Hp Hu Na. unfold checkResourceAccess.
    rewrite Hu, (AuthProps.not_admin _ Na).
    change (String.eqb "project" "project") with true. cbv iota.
    unfold try_catch, bind, ret.
    rewrite select_online by exact On.
    unfold accessible_projects. cbn [projects with_projects].
    rewrite AuthProps.nonempty_map, AuthProps.nonempty_filter.
    match goal with
    | |- context [existsb ?f ?l] =>
        assert (X : existsb f l = false)
    end.
    { apply not_true_is_false. intros H.
      apply existsb_exists in H as (p & Hp' & H).
      apply filter_In in Hp' as [_ Hn].
      apply andb_true_iff in H as [H _].
      rewrite Hp in H. rewrite H in Hn. discriminate. }
    now rewrite X.
Qed.

Lemma deleted_project_is_closed_witness :
  checkResourceAccess env "project"
    (Samples.request_of None "10" (Some Samples.bob)) office
  = (office, Ok Next)
  /\ checkResourceAccess env "project"
       (Samples.request_of None "10" (Some Samples.bob))
       (fst (delete_project env
               (Samples.request_of None "10" (Some dave)) office))
     = (fst (delete_project env
               (Samples.request_of None "10" (Some dave)) office),
        Ok (respond 403
              (ErrorBody "Accès non autorisé à cette ressource"))).
Proof.
  split; [reflexivity|].
  destruct (deleted_project_is_closed env
              (Samples.request_of None "10" (Some dave)) office
              {| p_id := 10; p_manager_id := Some 2 |}
              eq_refl ltac:(now left) eq_refl) as (d' & E & H).
  rewrite E. cbn [fst].
  apply (H _ (identity_of Samples.bob));
    [reflexivity | reflexivity | discriminate].
Defined.

End RoutesProps.

(* ================================================================== *)
(** * Further properties of the sequence allocators *)
(* ================================================================== *)

Module AllocatorMore.

Import Db Http Allocator Props More JS Numeral JSFacts DbFacts AllocatorFacts.

Lemma lookup_prefix_of_identifier env k j :
  String.prefix (lookup_prefix env k) (identifier env k j) = true.
Proof.
  unfold identifier.
  destruct k; cbn [lookup_prefix]; try apply prefix_app.
  rewrite head_invoice, JSFacts.app_assoc. apply prefix_app.
Qed.

Lemma identifier_inj env k i j :
  0 <= i < 10 ^ Z.of_nat (width k) ->
  0 <= j < 10 ^ Z.of_nat (width k) ->
  identifier env k i = identifier env k j -> i = j.
Proof.
  intros Hi Hj E.
  assert (S : suffix_number env k (identifier env k i)
              = suffix_number env k (identifier env k j)) by now rewrite E.
  rewrite !suffix_number_identifier in S by assumption. congruence.
Qed.

(** X13: on a store whose identifiers under the lookup prefix are those
    of numbers 1 to m, with m + 1 below ten to the width, the identifier
    a call returns is not yet in the store. *)
Theorem allocated_identifier_is_fresh env k m d :
  online d = true ->
  0 <= current_year env ->
  seeded env k m d ->
  m + 1 < 10 ^ Z.of_nat (width k) ->
  exists s,
    allocate env k d = (d, Ok (Some s)) /\ ~ In s (identifiers k d).
Proof.
  intros On Hy Sd Hlt. exists (identifier env k (m + 1)).
  split; [apply allocate_seeded; auto; lia|].
  destruct Sd as (Hm & Shape & _). intros Hin.
  destruct (Shape _ Hin (lookup_prefix_of_identifier env k (m + 1)))
    as (j & Hj & E).
  apply identifier_inj in E; lia.
Qed.

Lemma allocated_identifier_is_fresh_witness :
  exists s,
    allocate Samples.env_2024 (ProductCode None) Samples.store
    = (Samples.store, Ok (Some s))
    /\ ~ In s (identifiers (ProductCode None) Samples.store).
Proof.
  apply (allocated_identifier_is_fresh Samples.env_2024 (ProductCode None)
           1 Samples.store); try reflexivity.
  - discriminate.
  - split; [lia|]. split.
    + intros s [<-|[]] _. exists 1. split; [lia | reflexivity].
    + intros _. now left.
Defined.

Lemma string_of_Z_inj (a b : Z) :
  0 <= a -> 0 <= b -> string_of_Z a = string_of_Z b -> a = b.
Proof.
  intros Ha Hb E.
  rewrite <- (digits_value a Ha), <- (digits_value b Hb).
  rewrite <- (string_of_Z_nonneg a Ha), <- (string_of_Z_nonneg b Hb).
  now rewrite E.
Qed.

(** X14: a call never throws and leaves the store as it found it, whether
    the store can be reached or not: nothing is reserved.  On a reachable
    store the clock is read for the year only, so a second call made at
    any other instant of the year, before the first identifier is stored,
    returns the same answer; on a store that cannot be reached the lot,
    sale and product allocators return different identifiers at different
    instants. *)
Theorem allocation_reserves_nothing env later k d :
  current_year later = current_year env ->
  (exists r, allocate env k d = (d, Ok r))
  /\ (online d = true ->
      allocate later k (fst (allocate env k d)) = allocate env k d)
  /\ (online d = false ->
      k <> InvoiceNumber ->
      0 <= date_now env ->
      0 <= date_now later ->
      date_now later <> date_now env ->
      snd (allocate later k (fst (allocate env k d)))
      <> snd (allocate env k d)).
Proof.
  intros Y.
  assert (H : exists r, allocate env k d = (d, Ok r)).
  { destruct k as [|c| |];
      unfold allocate, Invoices.generate_number,
        Equipment.generateProductCode, Equipment.generateLotNumber,
        Equipment.generateSaleNumber, try_catch, bind, select, ret;
      destruct (online d); eexists; reflexivity. }
  split; [exact H|]. destruct H as (r & E). rewrite E. cbn [fst].
  split.
  - intros On. rewrite <- E.
    destruct k as [|c| |];
      unfold allocate, Invoices.generate_number,
        Equipment.generateProductCode, Equipment.generateLotNumber,
        Equipment.generateSaleNumber, try_catch, bind, select, ret;
      rewrite On, ?Y; reflexivity.
  - intros Off Hk Ha Hb Hne. rewrite <- E.
    destruct k as [|c| |]; [congruence| | |];
      unfold allocate, Invoices.generate_number,
        Equipment.generateProductCode, Equipment.generateLotNumber,
        Equipment.generateSaleNumber, try_catch, bind, select, ret;
      rewrite Off; cbn [fst snd]; intros A;
      injection A as A; apply Hne;
      apply string_of_Z_inj; assumption.
Qed.

Lemma allocation_reserves_nothing_witness :
  allocate env_later LotNumber (fst (allocate env LotNumber office))
  = allocate env LotNumber office
  /\ snd (allocate env_later LotNumber
            (fst (allocate env LotNumber office_down)))
     <> snd (allocate env LotNumber office_down).
Proof.
  split.
  - apply (allocation_reserves_nothing env env_later LotNumber office
             eq_refl).
    reflexivity.
  - apply (allocation_reserves_nothing env env_later LotNumber office_down
             eq_refl); [reflexivity | | | |]; discriminate.
Defined.

(** X15: when the greatest identifier under the prefix carries, after the
    prefix, a text that does not parse as a number, the lot, sale and
    product allocators start again at 1. *)
Theorem unparsable_suffix_restarts_at_one env c d sfx :
  online d = true ->
  parseInt sfx = None ->
  (greatest (filter (String.prefix ("LOT" ++ string_of_Z (current_year env)))
               (Equipment.lot_numbers d))
   = Some (("LOT" ++ string_of_Z (current_year env)) ++ sfx) ->
   Equipment.generateLotNumber env d
   = (d, Ok (("LOT" ++ string_of_Z (current_year env)) ++ "0001")))
  /\ (greatest
        (filter (String.prefix ("SALE" ++ string_of_Z (current_year env)))
           (Equipment.sale_numbers d))
      = Some (("SALE" ++ string_of_Z (current_year env)) ++ sfx) ->
      Equipment.generateSaleNumber env d
      = (d, Ok (("SALE" ++ string_of_Z (current_year env)) ++ "0001")))
  /\ (greatest (filter (String.prefix (Equipment.product_prefix c))
                  (Equipment.product_codes d))
      = Some (Equipment.product_prefix c ++ sfx) ->
      Equipment.generateProductCode env c d
      = (d, Ok (Equipment.product_prefix c ++ "000001"))).
Proof.
  intros On Bad.
  assert (G : forall p w col,
             greatest (filter (String.prefix p) col) = Some (p ++ sfx) ->
             spec_allocate p w col = p ++ padStart w "0" (string_of_Z 1)).
  { intros p w col E. unfold spec_allocate.
    now rewrite E, string_drop_app, Bad. }
  split; [|split]; intros E.
  - rewrite generateLotNumber_follows_spec by exact On.
    now rewrite (G _ _ _ E).
  - rewrite generateSaleNumber_follows_spec by exact On.
    now rewrite (G _ _ _ E).
  - rewrite generateProductCode_follows_spec by exact On.
    now rewrite (G _ _ _ E).
Qed.

Lemma unparsable_suffix_restarts_at_one_witness :
  Equipment.generateLotNumber env office = (office, Ok "LOT20240001").
Proof.
  apply (proj1 (unparsable_suffix_restarts_at_one env None office "XYZ"
                  eq_refl eq_refl)).
  reflexivity.
Defined.

Lemma prefix_same_length (p : string) :
  forall q t, String.length p = String.length q ->
              String.prefix p (q ++ t) = true -> p = q.
Proof.
  induction p as [|c p IH]; intros [|e q] t L H; try discriminate.
  - reflexivity.
  - cbn [append] in H. rewrite prefix_cons in H.
    apply andb_true_iff in H as [E H]. apply Ascii.eqb_eq in E. subst e.
    f_equal. apply (IH q t); [now injection L | exact H].
Qed.

Lemma category_prefix c :
  0 < c < 1000 ->
  Equipment.product_prefix (Some c)
  = "CAT" ++ padStart 3 "0" (string_of_Z c)
  /\ String.length (padStart 3 "0" (string_of_Z c)) = 3%nat
  /\ value (padStart 3 "0" (string_of_Z c)) = c.
Proof.
  intros H. unfold Equipment.product_prefix, truthy_Z.
  assert (E : (c =? 0) = false) by (apply Z.eqb_neq; lia).
  rewrite E. cbn [negb].
  destruct (padded_numeral 3 c ltac:(lia) ltac:(cbn; lia)) as (L & _ & V).
  auto.
Qed.

(** X16: for two different category ids between 1 and 999, no code that
    starts with the prefix of the one is matched by the lookup of the
    other: the numberings of the categories do not meet. *)
Theorem category_prefixes_do_not_overlap (c1 c2 : Z) (rest : string) :
  0 < c1 < 1000 ->
  0 < c2 < 1000 ->
  c1 <> c2 ->
  Db.like (Equipment.product_prefix (Some c1) ++ "%")
    (Equipment.product_prefix (Some c2) ++ rest) = false.
Proof.
  intros H1 H2 Ne.
  rewrite like_prefix_pattern by apply product_prefix_no_wild.
  apply not_true_is_false. intros P.
  destruct (category_prefix c1 H1) as (E1 & L1 & V1).
  destruct (category_prefix c2 H2) as (E2 & L2 & V2).
  apply prefix_same_length in P.
  - rewrite E1, E2 in P. apply JSFacts.app_inv_head in P.
    rewrite P in V1. lia.
  - rewrite E1, E2, !length_app, L1, L2. reflexivity.
Qed.

Lemma category_prefixes_do_not_overlap_witness :
  Db.like "CAT012%" "CAT120000001" = false.
Proof.
  apply (category_prefixes_do_not_overlap 12 120 "000001"); lia.
Defined.

(** ** Past the width *)

Lemma greatest_is_the_bound (l : list string) (x : string) :
  In x l -> (forall y, In y l -> String.leb y x = true) ->
  greatest l = Some x.
Proof.
  intros Hx Hb. destruct (greatest l) as [g|] eqn:G.
  - f_equal. apply String.leb_antisym.
    + apply Hb. now apply greatest_in.
    + now apply (greatest_upper l g x).
  - apply greatest_none in G. subst l. destruct Hx.
Qed.

Lemma at_most_the_last_fitting (p : string) (w : nat) (j : Z) :
  (w = 4 \/ w = 6)%nat ->
  1 <= j <= 10 ^ Z.of_nat w ->
  String.leb (p ++ padStart w "0" (string_of_Z j))
    (p ++ padStart w "0" (string_of_Z (10 ^ Z.of_nat w - 1))) = true.
Proof.
  intros Hw Hj. unfold String.leb.
  destruct (Z.eq_dec j (10 ^ Z.of_nat w)) as [->|Ne].
  - rewrite compare_app_head. destruct Hw as [-> | ->]; reflexivity.
  - destruct (Z.eq_dec j (10 ^ Z.of_nat w - 1)) as [->|Ne2].
    + now rewrite compare_refl.
    + rewrite padded_order; [reflexivity | lia ..].
Qed.

Lemma width_cases (k : entity_kind) : (width k = 4 \/ width k = 6)%nat.
Proof. destruct k; cbn; auto. Qed.

Lemma top_bounds (k : entity_kind) :
  1 <= 10 ^ Z.of_nat (width k) - 1 < 10 ^ Z.of_nat (width k).
Proof. destruct (width_cases k) as [-> | ->]; cbn; lia. Qed.

Lemma spec_allocate_capped (p : string) (w : nat) (ids : list string) :
  (w = 4 \/ w = 6)%nat ->
  (forall s, In s ids -> String.prefix p s = true ->
             exists j, 1 <= j <= 10 ^ Z.of_nat w
                       /\ s = p ++ padStart w "0" (string_of_Z j)) ->
  In (p ++ padStart w "0" (string_of_Z (10 ^ Z.of_nat w - 1))) ids ->
  spec_allocate p w ids
  = p ++ padStart w "0" (string_of_Z (10 ^ Z.of_nat w)).
Proof.
  intros Hw Shape Top. unfold spec_allocate.
  rewrite (greatest_is_the_bound _
             (p ++ padStart w "0" (string_of_Z (10 ^ Z.of_nat w - 1)))).
  - rewrite string_drop_app, parseInt_padded.
    + cbn [or_zero]. do 3 f_equal. lia.
    + destruct Hw as [-> | ->]; lia.
    + destruct Hw as [-> | ->]; cbn; lia.
  - apply filter_In. split; [exact Top | apply prefix_app].
  - intros y Hy. apply filter_In in Hy as [Hy Py].
    destruct (Shape y Hy Py) as (j & Hj & ->).
    now apply at_most_the_last_fitting.
Qed.

Lemma allocate_capped env k d :
  online d = true ->
  0 <= current_year env ->
  capped env k d ->
  allocate env k d
  = (d, Ok (Some (identifier env k (10 ^ Z.of_nat (width k))))).
Proof.
  intros On Hy (Shape & Top). unfold identifier in *.
  destruct k as [|c| |]; unfold allocate, bind, ret.
  - rewrite generate_number_follows_spec; auto.
    + cbn [json]. do 3 f_equal.
      apply spec_allocate_capped; [now left | | exact Top].
      intros s Hs Hp. apply Shape; auto.
      rewrite head_invoice in Hp. now apply prefix_app_weaken in Hp.
    + intros s Hs Hp. destruct (Shape s Hs Hp) as (j & Hj & ->).
      exists (padStart (width InvoiceNumber) "0" (string_of_Z j)).
      split; [reflexivity|].
      apply all_digits_dashless.
      rewrite string_of_Z_nonneg, padStart_zero, all_digits_app,
        zeros_all_digits, digits_all_digits by lia.
      reflexivity.
  - rewrite generateProductCode_follows_spec by exact On.
    do 3 f_equal. apply spec_allocate_capped; [now right | exact Shape
                                               | exact Top].
  - rewrite generateLotNumber_follows_spec by exact On.
    do 3 f_equal. apply spec_allocate_capped; [now left | exact Shape
                                               | exact Top].
  - rewrite generateSaleNumber_follows_spec by exact On.
    do 3 f_equal. apply spec_allocate_capped; [now left | exact Shape
                                               | exact Top].
Qed.

(** X17: once the last number that fits the width is stored (9999, or
    999999 for product codes), every call returns the identifier of the
    next number, one character longer, and goes on returning it after it
    is stored: the numbering of the prefix does not advance any more. *)
Theorem numbering_stops_at_the_width env k persist (n : nat) :
  forall d,
    online d = true ->
    0 <= current_year env ->
    persists k persist ->
    capped env k d ->
    sequential_run env k persist n d
    = repeat (identifier env k (10 ^ Z.of_nat (width k))) n.
Proof.
  induction n as [|n IH]; intros d On Hy P Cp; [reflexivity|].
  cbn [sequential_run repeat].
  rewrite (allocate_capped env k d On Hy Cp). f_equal.
  destruct (P (identifier env k (10 ^ Z.of_nat (width k))) d) as (E & Mem).
  apply IH; auto; [congruence|].
  destruct Cp as (Shape & Top). split.
  - intros s Hs Hp. apply Mem in Hs as [->|Hs]; [|now apply Shape].
    exists (10 ^ Z.of_nat (width k)). split; [|reflexivity].
    pose proof (top_bounds k). lia.
  - apply Mem. now right.
Qed.

Lemma numbering_stops_at_the_width_witness :
  sequential_run Samples.env_2024 LotNumber store_lot 3 Samples.store
  = ["LOT202410000"; "LOT202410000"; "LOT202410000"].
Proof.
  rewrite (numbering_stops_at_the_width Samples.env_2024 LotNumber store_lot
             3 Samples.store eq_refl ltac:(discriminate)
             AllocatorProps.store_lot_persists).
  - reflexivity.
  - split.
    + intros s [<-|[]] _. exists 9999.
      split; [vm_compute; split; discriminate | reflexivity].
    + now left.
Defined.

End AllocatorMore.

(* ================================================================== *)
(** * Further properties of the user update *)
(* ================================================================== *)

Module UsersMore.

Import Db Http Users Props More DbFacts UsersProps.

(** X18: an identity that is not an administrator and asks for a record
    whose path does not parse to its own id is answered with 403 before
    any lookup, and nothing is written. *)
Theorem foreign_record_is_forbidden env b req me d :
  user req = Some me ->
  Http.role me <> "admin" ->
  differs_from_parsed (id me) (params_id req) = true ->
  put_user env [] b req d
  = (d, Ok {| status := 403; json := ErrorBody "Permissions insuffisantes" |}).
Proof.
  intros Hu Na Df. unfold put_user. cbn [is_nil negb]. rewrite Hu, Df.
  apply String.eqb_neq in Na. now rewrite Na.
Qed.

Lemma foreign_record_is_forbidden_witness :
  put_user env [] Samples.promotion
    (Samples.request_of None "2" (Some Samples.alice)) office_down
  = (office_down,
     Ok {| status := 403; json := ErrorBody "Permissions insuffisantes" |}).
Proof.
  apply (foreign_record_is_forbidden env Samples.promotion _
           (identity_of Samples.alice) office_down);
    [reflexivity | discriminate | reflexivity].
Defined.

(** The handler answers without a write, with a status other than 200, or
    runs its one update and answers 200. *)
Lemma put_user_outcomes env errors b req d :
  exists d' a,
    put_user env errors b req d = (d', Ok a)
    /\ ((d' = d /\ status a <> 200)
        \/ (exists me,
               user req = Some me
               /\ d' = update_users env (updateFields b (Http.role me))
                         (params_id req) d
               /\ status a = 200)).
Proof.
  unfold put_user, try_catch.
  destruct (negb (is_nil errors));
    [do 2 eexists; split; [reflexivity | left; split;
                                          [reflexivity | discriminate]]|].
  destruct (user req) as [me|];
    [|do 2 eexists; split; [reflexivity | left; split;
                                           [reflexivity | discriminate]]].
  destruct (negb (String.eqb (Http.role me) "admin")
            && differs_from_parsed (id me) (params_id req));
    [do 2 eexists; split; [reflexivity | left; split;
                                          [reflexivity | discriminate]]|].
  unfold bind at 1. unfold select at 1.
  destruct (online d) eqn:On;
    [|do 2 eexists; split; [reflexivity | left; split;
                                           [reflexivity | discriminate]]].
  destruct (is_nil (filter _ (users d)));
    [do 2 eexists; split; [reflexivity | left; split;
                                          [reflexivity | discriminate]]|].
  unfold bind at 1.
  assert (Z0 : exists l,
             (match email b with
              | Some e =>
                  if JS.truthy_string e
                  then select (fun d0 =>
                         filter (fun u => String.eqb (u_email u) e
                                          && negb (sql_int_eq env (u_id u)
                                                     (params_id req)))
                           (users d0))
                  else ret []
              | None => ret []
              end) d = (d, Ok l)).
  { destruct (email b) as [e|]; [|now exists []].
    destruct (JS.truthy_string e); [|now exists []].
    rewrite select_online by exact On. eauto. }
  destruct Z0 as (l & ->).
  destruct (negb (is_nil l));
    [do 2 eexists; split; [reflexivity | left; split;
                                          [reflexivity | discriminate]]|].
  cbv zeta.
  destruct (is_nil (updateFields b (Http.role me)));
    [do 2 eexists; split; [reflexivity | left; split;
                                          [reflexivity | discriminate]]|].
  unfold bind, execute. rewrite On.
  do 2 eexists. split; [reflexivity|]. right. exists me.
  repeat split.
Qed.

(** X19: the handler never throws, and whenever its answer is not 200 the
    store is as it was: failed validation, refusal, unknown record, taken
    email, nothing to update and an unreachable store write nothing. *)
Theorem update_writes_only_on_success env errors b req d :
  exists a,
    snd (put_user env errors b req d) = Ok a
    /\ (status a <> 200 -> fst (put_user env errors b req d) = d).
Proof.
  destruct (put_user_outcomes env errors b req d)
    as (d' & a & -> & [(-> & Ne)|(me & _ & _ & St)]); exists a; cbn [fst snd].
  - auto.
  - split; [reflexivity | congruence].
Qed.

Lemma assign_keeps_id (a : assignment) (u : user_row) :
  u_id (assign a u) = u_id u.
Proof. destruct a; reflexivity. Qed.

Lemma fold_assign_keeps_id (l : list assignment) :
  forall u, u_id (fold_left (fun r a => assign a r) l u) = u_id u.
Proof.
  induction l as [|a l IH]; intros u; [reflexivity|].
  cbn [fold_left]. now rewrite IH, assign_keeps_id.
Qed.

(** X20: whoever asks and whatever the answer, the users table keeps its
    rows in place with their ids, and a row the path does not match is
    left as it was. *)
Theorem update_touches_matched_rows_only env errors b req d :
  Forall2
    (fun u u' =>
       u_id u' = u_id u
       /\ (sql_int_eq env (u_id u) (params_id req) = false -> u' = u))
    (users d) (users (fst (put_user env errors b req d))).
Proof.
  destruct (put_user_outcomes env errors b req d)
    as (d' & a & -> & [(-> & _)|(me & _ & -> & _)]); cbn [fst].
  - induction (users d); constructor; auto.
  - unfold update_users. cbn [users with_users].
    induction (users d) as [|u l IH]; cbn [map]; constructor; [|exact IH].
    destruct (sql_int_eq env (u_id u) (params_id req)).
    + split; [apply fold_assign_keeps_id | discriminate].
    + split; reflexivity.
Qed.

Lemma push_not_supplied (o : option string) (mk : string -> assignment) :
  (forall v, ~ supplied o v) -> push_if_truthy o mk = [].
Proof.
  intros H. unfold push_if_truthy. destruct o as [v|]; [|reflexivity].
  destruct (JS.truthy_string v) eqn:T; [|reflexivity].
  exfalso. apply (H v). now split.
Qed.

(** X22: an identity that is not an administrator and supplies, for its
    own record, role, salary or is_active but none of the other fields
    with a non-empty value, is answered with 400, nothing to update. *)
Theorem guarded_fields_alone_are_rejected env b req me d :
  online d = true ->
  own_record env req me d ->
  no_free_field b ->
  put_user env [] b req d
  = (d, Ok {| status := 400;
              json := ErrorBody "Aucun champ à mettre à jour" |}).
Proof.
  intros On (Hu & Na & Hp & Hid & (w & Hw & Ew)) No.
  unfold put_user. cbn [is_nil negb]. rewrite Hu.
  unfold differs_from_parsed. rewrite Hp, Z.eqb_refl, andb_false_r.
  unfold try_catch, bind. rewrite select_online by exact On.
  rewrite (filter_some _ (users d) w Hw)
    by (rewrite (Hid w Hw); now apply Z.eqb_eq).
  assert (Z0 : (match email b with
                | Some e =>
                    if JS.truthy_string e
                    then select (fun d0 =>
                           filter (fun u => String.eqb (u_email u) e
                                            && negb (sql_int_eq env (u_id u)
                                                       (params_id req)))
                             (users d0))
                    else ret []
                | None => ret []
                end) d = (d, Ok [])).
  { destruct (email b) as [e|] eqn:E; [|reflexivity].
    destruct (JS.truthy_string e) eqn:T; [|reflexivity].
    exfalso. apply (proj1 (proj2 (proj2 (No e)))). now split. }
  rewrite Z0. cbn [is_nil negb].
  assert (F : updateFields b (Http.role me) = []).
  { unfold updateFields. apply String.eqb_neq in Na. rewrite Na.
    rewrite !push_not_supplied; try (intros v; apply (No v)).
    now destruct (salary b), (isActive b). }
  now rewrite F.
Qed.

Lemma guarded_fields_alone_are_rejected_witness :
  put_user env [] demotion
    (Samples.request_of None "1" (Some Samples.alice)) office
  = (office, Ok {| status := 400;
                   json := ErrorBody "Aucun champ à mettre à jour" |}).
Proof.
  apply (guarded_fields_alone_are_rejected env demotion _
           (identity_of Samples.alice) office eq_refl).
  - repeat split; try discriminate.
    + intros u [<-|[<-|[<-|[<-|[]]]]]; reflexivity.
    + exists Samples.alice. split; [now left | reflexivity].
  - intros v. repeat split; intros [E _]; discriminate.
Defined.

(** The update an administrator asks for, as layers. *)
Lemma administrator_update (b : update_body) (u : user_row) :
  fold_left (fun x a => assign a x) (updateFields b "admin") u
  = fold_left (fun x a => assign a x)
      (match isActive b with Some v => [set_is_active v] | None => [] end)
      (fold_left (fun x a => assign a x)
         (match salary b with Some v => [set_salary v] | None => [] end)
         (layer (address b) set_address
            (layer (phone b) set_phone
               (layer (position b) set_position
                  (layer (department b) set_department
                     (layer (role b) set_role
                        (layer (email b) set_email
                           (layer (lastName b) set_last_name
                              (layer (firstName b) set_first_name u))))))))).
Proof.
  unfold updateFields, layer.
  change (String.eqb "admin" "admin") with true. cbv iota.
  rewrite !fold_left_app.
  destruct (salary b), (isActive b); reflexivity.
Qed.

(** X21: when an administrator updates an existing record and the
    supplied email, if any, belongs to no row the path does not match, the
    answer is 200 and the rows the path matches carry the supplied role,
    salary and is_active. *)
Theorem administrator_update_applies_guarded_fields env b req me d target :
  user req = Some me ->
  Http.role me = "admin" ->
  online d = true ->
  In target (users d) ->
  sql_int_eq env (u_id target) (params_id req) = true ->
  (forall e u, supplied (email b) e -> In u (users d) ->
               sql_int_eq env (u_id u) (params_id req) = false ->
               u_email u <> e) ->
  is_nil (updateFields b "admin") = false ->
  snd (put_user env [] b req d)
  = Ok {| status := 200;
          json := MessageBody "Utilisateur mis à jour avec succès" |}
  /\ forall u,
       In u (users (fst (put_user env [] b req d))) ->
       sql_int_eq env (u_id u) (params_id req) = true ->
       (forall r, supplied (role b) r -> u_role u = r)
       /\ (forall s, salary b = Some s -> u_salary u = Some s)
       /\ (forall a, isActive b = Some a -> u_is_active u = a).
Proof.
  intros Hu Adm On Ht M Mail Some_field.
  assert (R : put_user env [] b req d
              = (update_users env (updateFields b "admin") (params_id req) d,
                 Ok {| status := 200;
                       json := MessageBody
                                 "Utilisateur mis à jour avec succès" |})).
  { unfold put_user. cbn [is_nil negb]. rewrite Hu, Adm.
    change (String.eqb "admin" "admin") with true. cbn [negb andb].
    unfold try_catch, bind. rewrite select_online by exact On.
    rewrite (filter_some _ (users d) target Ht M).
    assert (Z0 : (match email b with
                  | Some e =>
                      if JS.truthy_string e
                      then select (fun d0 =>
                             filter (fun u => String.eqb (u_email u) e
                                              && negb (sql_int_eq env (u_id u)
                                                         (params_id req)))
                               (users d0))
                      else ret []
                  | None => ret []
                  end) d = (d, Ok [])).
    { destruct (email b) as [e|] eqn:E; [|reflexivity].
      destruct (JS.truthy_string e) eqn:T; [|reflexivity].
      rewrite select_online by exact On.
      rewrite filter_none; [reflexivity|].
      intros x Hx. apply not_true_is_false. intros Bx.
      apply andb_true_iff in Bx as [B1 B2].
      apply String.eqb_eq in B1. apply negb_true_iff in B2.
      apply (Mail e x); auto. now split. }
    rewrite Z0. cbn [is_nil negb]. rewrite Some_field.
    unfold execute. now rewrite On. }
  rewrite R. cbn [fst snd]. split; [reflexivity|].
  intros u' Hu' M'. unfold update_users in Hu'.
  cbn [users with_users] in Hu'.
  apply in_map_iff in Hu' as (u & <- & Hin).
  destruct (sql_int_eq env (u_id u) (params_id req)) eqn:Mu;
    [|rewrite Mu in M'; discriminate].
  rewrite administrator_update.
  split; [|split].
  - intros r Sr. destruct (isActive b), (salary b); cbn [fold_left assign u_role];
      through_layers u_role;
      now apply (layer_sets u_role (fun v => v)).
  - intros s Es. rewrite Es.
    destruct (isActive b); reflexivity.
  - intros a Ea. rewrite Ea. reflexivity.
Qed.

Lemma administrator_update_applies_guarded_fields_witness :
  users (fst (put_user env [] demotion
                (Samples.request_of None "2" (Some dave)) office))
  = [Samples.alice;
     {| u_id := 2; u_email := "b@x.com"; u_first_name := "N";
        u_last_name := "N"; u_role := "client"; u_department := None;
        u_position := None; u_phone := None; u_address := None;
        u_salary := Some "0.00"; u_is_active := false |};
     Samples.carol; dave]
  /\ snd (put_user env [] demotion
            (Samples.request_of None "2" (Some dave)) office)
     = Ok {| status := 200;
             json := MessageBody "Utilisateur mis à jour avec succès" |}.
Proof.
  split; [reflexivity|].
  apply (administrator_update_applies_guarded_fields env demotion
           (Samples.request_of None "2" (Some dave)) (identity_of dave)
           office Samples.bob); try reflexivity.
  - right. now left.
  - intros e u [E _]. discriminate.
Defined.

End UsersMore.

(* ================================================================== *)
(** * Further properties of the point of sale and of the router *)
(* ================================================================== *)

Module SalesMore.

Import Db Http Sales Props More DbFacts SalesProps.

Local Open Scope list_scope.

(** The handler on a reachable store: the tables it leaves. *)
Lemma post_sale_store env b req me d :
  online d = true ->
  user req = Some me ->
  exists d2,
    post_sale env [] b req d
    = (d2, Ok {| status := 201;
                 json := SaleBody "Vente enregistrée avec succès"
                           (sales_auto_increment d)
                           (Allocator.spec_allocate
                              ("SALE" ++ JS.string_of_Z (current_year env))
                              4 (Equipment.sale_numbers d)) |})
    /\ online d2 = true
    /\ sales d2
       = sales d
         ++ [sale_row_of b
               (Allocator.spec_allocate
                  ("SALE" ++ JS.string_of_Z (current_year env))
                  4 (Equipment.sale_numbers d))
               (id me) (sales_auto_increment d)]
    /\ sales_auto_increment d2 = sales_auto_increment d + 1
    /\ products d2 = map (sold_out (items b)) (products d)
    /\ stock_movements d2
       = stock_movements d
         ++ map (movement_of (sales_auto_increment d) (id me)) (items b)
    /\ sale_items d2
       = sale_items d ++ map (sale_item_of (sales_auto_increment d)) (items b).
Proof.
  intros On Hu.
  unfold post_sale. cbn [Users.is_nil negb].
  unfold try_catch at 1. unfold bind at 1.
  rewrite AllocatorFacts.generateSaleNumber_follows_spec by exact On.
  rewrite Hu. unfold bind at 1. unfold insert_sale at 1. rewrite On.
  unfold bind at 1.
  match goal with
  | |- context [for_each (items b) ?f ?d1] =>
      destruct (loop_effect (sales_auto_increment d) (id me) (items b)
                  d1 On) as (d2 & R & O & P & M & S & Sa & Au)
  end.
  exists d2. rewrite R. unfold ret.
  cbn [products stock_movements sale_items sales sales_auto_increment
         with_sales] in P, M, S, Sa, Au.
  repeat split; auto.
Qed.

(** X23: on a store whose sale numbers of the year are those of 1 to m,
    a recorded sale is answered with the number of m + 1 and the id the
    table hands out, the sales table gains one row carrying that id, that
    number and the actor, and the store is left ready for the number
    after: sales recorded one after the other are numbered in sequence. *)
Theorem sale_is_stored_under_the_next_number env b req me d m :
  online d = true ->
  user req = Some me ->
  0 <= current_year env ->
  Allocator.seeded env Allocator.SaleNumber m d ->
  m < 10 ^ 4 ->
  let number := Allocator.identifier env Allocator.SaleNumber (m + 1) in
  let r := post_sale env [] b req d in
  snd r = Ok {| status := 201;
                json := SaleBody "Vente enregistrée avec succès"
                          (sales_auto_increment d) number |}
  /\ sales (fst r)
     = sales d ++ [sale_row_of b number (id me) (sales_auto_increment d)]
  /\ sales_auto_increment (fst r) = sales_auto_increment d + 1
  /\ online (fst r) = true
  /\ Allocator.seeded env Allocator.SaleNumber (m + 1) (fst r).
Proof.
  intros On Hu Hy Sd Hlt number r. subst number r.
  destruct (post_sale_store env b req me d On Hu)
    as (d2 & E & O & Sa & Au & _).
  assert (N : Allocator.spec_allocate
                ("SALE" ++ JS.string_of_Z (current_year env)) 4
                (Equipment.sale_numbers d)
              = Allocator.identifier env Allocator.SaleNumber (m + 1)).
  { pose proof (AllocatorFacts.allocate_seeded env Allocator.SaleNumber Hy
                  m d On Sd Hlt) as A.
    unfold Allocator.allocate, bind, ret in A.
    rewrite AllocatorFacts.generateSaleNumber_follows_spec in A by exact On.
    cbv beta iota in A. congruence. }
  rewrite N in *. rewrite E. cbn [fst snd].
  split; [reflexivity|]. split; [exact Sa|]. split; [exact Au|].
  split; [exact O|].
  destruct Sd as (Hm & Shape & Top).
  assert (Col : forall x, In x (Equipment.sale_numbers d2)
                          <-> In x (Equipment.sale_numbers d)
                              \/ x = Allocator.identifier env
                                       Allocator.SaleNumber (m + 1)).
  { intros x. unfold Equipment.sale_numbers. rewrite Sa, map_app, in_app_iff.
    cbn [map In sale_row_of s_sale_number]. intuition. }
  repeat split.
  - lia.
  - intros s Hs Hp. apply Col in Hs as [Hs| ->].
    + destruct (Shape s Hs Hp) as (j & Hj & ->).
      exists j. split; [lia | reflexivity].
    + exists (m + 1). split; [lia | reflexivity].
  - intros _. apply Col. now right.
Qed.

Lemma sale_is_stored_under_the_next_number_witness :
  snd (post_sale env [] Samples.five_of_seven
         (Samples.request_of None "" (Some Samples.alice)) office)
  = Ok {| status := 201;
          json := SaleBody "Vente enregistrée avec succès" 1 "SALE20240001"
       |}
  /\ Equipment.sale_numbers
       (fst (post_sale env [] Samples.five_of_seven
               (Samples.request_of None "" (Some Samples.alice)) office))
     = ["SALE20240001"].
Proof.
  assert (Sd : Allocator.seeded env Allocator.SaleNumber 0 office).
  { repeat split; [lia | intros s [] | lia]. }
  destruct (sale_is_stored_under_the_next_number env Samples.five_of_seven
              (Samples.request_of None "" (Some Samples.alice))
              (identity_of Samples.alice) office 0 eq_refl eq_refl
              ltac:(discriminate) Sd eq_refl) as (R & Sa & _).
  split; [exact R|]. unfold Equipment.sale_numbers. rewrite Sa. reflexivity.
Defined.

(** X24: a sale without items is recorded all the same, with 201 and one
    more row in the sales table; stock, movements and sale items are left
    as they were. *)
Theorem empty_sale_is_recorded env b req me d :
  online d = true ->
  user req = Some me ->
  items b = [] ->
  let r := post_sale env [] b req d in
  (exists number,
      snd r = Ok {| status := 201;
                    json := SaleBody "Vente enregistrée avec succès"
                              (sales_auto_increment d) number |}
      /\ sales (fst r)
         = sales d ++ [sale_row_of b number (id me) (sales_auto_increment d)])
  /\ products (fst r) = products d
  /\ stock_movements (fst r) = stock_movements d
  /\ sale_items (fst r) = sale_items d.
Proof.
  intros On Hu Empty r. subst r.
  destruct (post_sale_store env b req me d On Hu)
    as (d2 & E & _ & Sa & _ & P & M & S).
  rewrite E. cbn [fst snd]. rewrite Empty in P, M, S.
  cbn [map] in M, S. rewrite app_nil_r in M, S.
  split; [eauto|]. split; [|split; assumption].
  rewrite P. rewrite <- (map_id (products d)) at 2.
  apply map_ext. intros p. apply sold_out_nil.
Qed.

Lemma empty_sale_is_recorded_witness :
  sales (fst (post_sale env [] nothing_sold
                (Samples.request_of None "" (Some Samples.alice)) office))
  = [sale_row_of nothing_sold "SALE20240001" 1 1]
  /\ products (fst (post_sale env [] nothing_sold
                      (Samples.request_of None "" (Some Samples.alice))
                      office))
     = products office.
Proof.
  split; [reflexivity|].
  apply (empty_sale_is_recorded env nothing_sold
           (Samples.request_of None "" (Some Samples.alice))
           (identity_of Samples.alice) office eq_refl eq_refl eq_refl).
Defined.

(** X25: a request that failed validation is answered with 400 and its
    findings before anything is read, not even a sale number; and when no
    statement can run the answer is 500 and nothing is written. *)
Theorem rejected_sale_writes_nothing env errors b req d :
  (errors <> [] ->
   post_sale env errors b req d
   = (d, Ok {| status := 400; json := ErrorsBody errors |}))
  /\ (errors = [] ->
      online d = false ->
      post_sale env errors b req d
      = (d, Ok {| status := 500;
                  json := ErrorBody
                            "Erreur lors de l'enregistrement de la vente" |})).
Proof.
  split.
  - intros Ne. unfold post_sale.
    destruct errors as [|e l]; [now destruct Ne | reflexivity].
  - intros -> Off. unfold post_sale. cbn [Users.is_nil negb].
    unfold try_catch at 1. unfold bind at 1.
    assert (S : Equipment.generateSaleNumber env d
                = (d, Ok ("SALE" ++ JS.string_of_Z (date_now env))%string)).
    { unfold Equipment.generateSaleNumber, try_catch, bind, ret.
      now rewrite select_offline by exact Off. }
    rewrite S.
    destruct (user req) as [me|]; [|reflexivity].
    unfold bind, insert_sale. now rewrite Off.
Qed.

Lemma rejected_sale_writes_nothing_witness :
  post_sale env ["Les articles sont requis"] Samples.five_of_seven
    (Samples.request_of None "" (Some Samples.alice)) office
  = (office, Ok {| status := 400;
                   json := ErrorsBody ["Les articles sont requis"] |})
  /\ post_sale env [] Samples.five_of_seven
       (Samples.request_of None "" (Some Samples.alice)) office_down
     = (office_down,
        Ok {| status := 500;
              json := ErrorBody
                        "Erreur lors de l'enregistrement de la vente" |}).
Proof.
  split.
  - apply (proj1 (rejected_sale_writes_nothing env
                    ["Les articles sont requis"] Samples.five_of_seven
                    (Samples.request_of None "" (Some Samples.alice))
                    office)).
    discriminate.
  - apply (proj2 (rejected_sale_writes_nothing env [] Samples.five_of_seven
                    (Samples.request_of None "" (Some Samples.alice))
                    office_down)); reflexivity.
Defined.

Lemma sold_quantity_of_absent (pid : Z) (l : list item) :
  (forall it, In it l -> product_id it <> pid) -> sold_quantity pid l = 0.
Proof.
  induction l as [|it l IH]; intros H; [reflexivity|].
  cbn [sold_quantity].
  assert (E : (product_id it =? pid) = false)
    by (apply Z.eqb_neq, H; now left).
  rewrite E, IH; [reflexivity|].
  intros x Hx. apply H. now right.
Qed.

(** X26: a sale leaves the row of every product that none of its items
    names as it was. *)
Theorem unsold_products_keep_their_stock env b req me d p :
  online d = true ->
  user req = Some me ->
  In p (products d) ->
  (forall it, In it (items b) -> product_id it <> pr_id p) ->
  In p (products (fst (post_sale env [] b req d))).
Proof.
  intros On Hu Hp Absent.
  destruct (post_sale_store env b req me d On Hu)
    as (d2 & E & _ & _ & _ & P & _).
  rewrite E. cbn [fst]. rewrite P.
  apply in_map_iff. exists p. split; [|exact Hp].
  unfold sold_out. rewrite (sold_quantity_of_absent _ _ Absent).
  destruct p as [i c st]. cbn [pr_id pr_product_code pr_current_stock].
  f_equal. lia.
Qed.

Lemma unsold_products_keep_their_stock_witness :
  In {| pr_id := 8; pr_product_code := "PRD000002"; pr_current_stock := 9 |}
    (products
       (fst (post_sale env [] Samples.five_of_seven
               (Samples.request_of None "" (Some Samples.alice)) office))).
Proof.
  apply (unsold_products_keep_their_stock env Samples.five_of_seven
           (Samples.request_of None "" (Some Samples.alice))
           (identity_of Samples.alice) office _ eq_refl eq_refl).
  - right. now left.
  - intros it [<-|[]]. discriminate.
Defined.

End SalesMore.

(* ------------------------------------------------------------------ *)
(** * The invoices router: which handler answers a request *)

Module InvoicesMore.

(** X27: whatever the method and the path, a request to the invoices
    router is answered by none or by one of the eight handlers registered
    before the one of generate-number, which no request reaches. *)
Theorem generate_number_handler_is_never_dispatched
    (m : Invoices.method) (path : list string) :
  In (Invoices.dispatch m path)
    [None; Some Invoices.list_invoices; Some Invoices.get_invoice;
     Some Invoices.create_invoice; Some Invoices.update_invoice;
     Some Invoices.send_invoice; Some Invoices.mark_paid;
     Some Invoices.delete_invoice; Some Invoices.stats_overview].
Proof.
  unfold Invoices.dispatch, Invoices.routes.
  destruct m; destruct path as [|x [|y [|z r]]];
    cbn [find fst snd Invoices.method_eqb Invoices.path_matches andb];
    repeat match goal with
           | |- context [JS.truthy_string ?s] =>
               destruct (JS.truthy_string s) eqn:?
           | |- context [String.eqb ?a ?b] =>
               destruct (String.eqb a b) eqn:?
           end;
    cbn [andb find fst snd In]; try tauto.
  all: match goal with
       | H : String.eqb "generate-number" ?x = true |- _ =>
           apply String.eqb_eq in H; subst x; discriminate
       end.
Qed.

End InvoicesMore.
